(** * A shallow embedding of [app.py]

    The application is a Streamlit script: a credential gate
    ([modal_api_key]), a format dispatcher ([processar_documentos]), a
    presentation extractor ([processar_pptx]), an index builder
    ([criar_indice]) and the page function ([main]) with its upload and
    chat sections.

    Character model.  A Python [str] is a sequence of code points; the
    embedding uses [string], reading each [ascii] as the code point of
    the same number (0..255).  [isspace] and [lower] below are Python's
    on that range. *)

From Stdlib Require Import ZArith QArith Ascii String List Lia.
From stdpp Require Import base option list gmap strings pretty.

Local Open Scope string_scope.
Local Open Scope list_scope.

(** ** Python string operations *)

Module Py.

(** [str.isspace] for one character: TAB..CR, FS..US, SPACE, NEL and
    NBSP are the white-space code points below 256. *)
Definition isspace (c : ascii) : bool :=
  let n := nat_of_ascii c in
  (((9 <=? n) && (n <=? 13)) || ((28 <=? n) && (n <=? 32))
   || (n =? 133) || (n =? 160))%nat.

(** [s.lstrip()] *)
Fixpoint lstrip (s : string) : string :=
  match s with
  | String c s' => if isspace c then lstrip s' else s
  | EmptyString => EmptyString
  end.

(** [s.rstrip()]: a character is kept when it is not white space or
    when something is kept after it. *)
Fixpoint rstrip (s : string) : string :=
  match s with
  | String c s' =>
      match rstrip s' with
      | EmptyString => if isspace c then EmptyString else String c EmptyString
      | r => String c r
      end
  | EmptyString => EmptyString
  end.

(** [s.strip()] *)
Definition strip (s : string) : string := rstrip (lstrip s).

(** Truth value of a [str]: non-empty. *)
Definition truthy (s : string) : bool :=
  match s with EmptyString => false | String _ _ => true end.

(** [sep.join(l)] *)
Fixpoint join (sep : string) (l : list string) : string :=
  match l with
  | [] => ""
  | [x] => x
  | x :: l' => x +:+ sep +:+ join sep l'
  end.

(** [s.startswith(p)] *)
Fixpoint startswith (s p : string) : bool :=
  match p, s with
  | EmptyString, _ => true
  | String c p', String d s' => Ascii.eqb c d && startswith s' p'
  | String _ _, EmptyString => false
  end.

(** [c.lower()] for one character: A..Z and the Latin-1 capitals
    (0xC0..0xDE but the multiplication sign 0xD7) move up by 32. *)
Definition lower_char (c : ascii) : ascii :=
  let n := nat_of_ascii c in
  if (((65 <=? n) && (n <=? 90))
      || ((192 <=? n) && (n <=? 222) && negb (n =? 215)))%nat
  then ascii_of_nat (n + 32) else c.

(** [s.lower()] *)
Fixpoint lower (s : string) : string :=
  match s with
  | String c s' => String (lower_char c) (lower s')
  | EmptyString => EmptyString
  end.

(** [s.rfind(c)] for a one-character needle: the last index of [c],
    or -1. *)
Fixpoint rfind (c : ascii) (s : string) : Z :=
  match s with
  | EmptyString => -1
  | String d s' =>
      let r := rfind c s' in
      if (0 <=? r)%Z then (r + 1)%Z
      else if Ascii.eqb d c then 0%Z else (-1)%Z
  end.

(** [s[i:]] for [0 <= i] *)
Fixpoint drop (i : nat) (s : string) : string :=
  match i, s with
  | O, _ => s
  | S i', String _ s' => drop i' s'
  | S _, EmptyString => EmptyString
  end.

(** [s[:n]] *)
Definition take (n : nat) (s : string) : string := String.substring 0 n s.

(** [x in l] for a list of strings *)
Definition contains (l : list string) (x : string) : bool :=
  existsb (String.eqb x) l.

(** [enumerate(l, start)] *)
Fixpoint enumerate {A} (start : nat) (l : list A) : list (nat * A) :=
  match l with
  | [] => []
  | x :: l' => (start, x) :: enumerate (S start) l'
  end.

(** [f"{n}"] for a non-negative [int] *)
Definition fmt_int (n : nat) : string := pretty n.

End Py.

(** The line feed, ["\n"] in the source. *)
Definition NL : string := String (ascii_of_nat 10) EmptyString.

(** ** Paths *)

Module Path.

(** [Path(name).suffix], for a [name] that is a single path component
    (what [os.listdir] returns), as pathlib computes it up to
    Python 3.13:
    [i = name.rfind('.'); name[i:] if 0 < i < len(name) - 1 else ''] *)
Definition suffix (name : string) : string :=
  let i := Py.rfind "." name in
  if ((0 <? i) && (i <? Z.of_nat (String.length name) - 1))%Z
  then Py.drop (Z.to_nat i) name else "".

(** [os.path.join(a, b)] (posixpath) *)
Definition join (a b : string) : string :=
  if Py.startswith b "/" then b
  else if negb (Py.truthy a) || String.eqb (Py.drop (String.length a - 1) a) "/"
       then a +:+ b
       else a +:+ "/" +:+ b.

(** [os.path.basename(p)]: [p[p.rfind('/') + 1:]] *)
Definition basename (p : string) : string :=
  Py.drop (Z.to_nat (Py.rfind "/" p + 1)) p.

End Path.

(** ** Data model *)

(** Metadata values: [str] and [int]. *)
Inductive MetaVal :=
| MStr (s : string)
| MInt (n : nat).

(** [llama_index.core.Document]: text and a metadata dict. *)
Record Document := mkDocument {
  text : string;
  metadata : gmap string MetaVal
}.

(** A python-pptx presentation, as far as [processar_pptx] reads it.
    [shape_text] is [None] when [hasattr(shape, "text")] is false;
    [shape_table] is [Some rows] when [shape.has_table], each row being
    the list of its cells' [text]. *)
Definition Row := list string.

Record Shape := mkShape {
  shape_text : option string;
  shape_table : option (list Row)
}.

Definition Slide := list Shape.

(** Objects of the retrieval library. *)
Record EmbedModel := mkEmbed { model_name : string }.

Record LLM := mkLLM { llm_model : string; llm_temperature : Q }.

Record SentenceSplitter := mkSplitter {
  chunk_size : Z;
  chunk_overlap : Z;
  paragraph_separator : string
}.

(** An index: the documents it was built from and the splitter they
    were cut with. *)
Record VectorStoreIndex := mkIndex {
  index_documents : list Document;
  node_parser : SentenceSplitter
}.

(** A query engine: its index and the keyword arguments
    [as_query_engine] was called with. *)
Record QueryEngine := mkEngine {
  engine_index : VectorStoreIndex;
  similarity_top_k : Z;
  response_mode : string;
  verbose : bool;
  streaming : bool;
  max_tokens : Z;
  temperature : Q
}.

(** A Python exception caught by [except Exception as e]; [exn_str] is
    what [f"{e}"] prints. *)
Record Exn := mkExn { exn_str : string }.

(** What a call into a library does: return or raise. *)
Inductive Outcome (A : Type) :=
| Returns (a : A)
| Raises (e : Exn).
Arguments Returns {A} a.
Arguments Raises {A} e.

(** One transcript entry, the dict [{"pergunta": .., "resposta": ..}]. *)
Record Chat := mkChat { pergunta : string; resposta : string }.

(** Values the script stores in [st.session_state]. *)
Inductive Value :=
| VBool (b : bool)
| VNone
| VInt (n : nat)
| VEngine (q : QueryEngine)
| VList (l : list Chat).

(** Python truth value. *)
Definition truthy (v : Value) : bool :=
  match v with
  | VBool b => b
  | VNone => false
  | VInt n => negb (Nat.eqb n 0)
  | VEngine _ => true
  | VList l => match l with [] => false | _ => true end
  end.

(** ** The page

    Texts shown on the page are kept as templates with their
    interpolated values; the fixed wording (with its pictographs) is not
    spelled out.  Spinners, columns and [time.sleep] leave nothing on
    the page and are not modelled. *)
Inductive Msg :=
| TxtConfiguracaoInicial            (* "### .. Configuração Inicial" *)
| TxtInsiraApiKey                   (* "Para usar o sistema, insira sua OpenAI API Key:" *)
| TxtConfiguradoComSucesso          (* ".. Sistema configurado com sucesso!" *)
| TxtErroVerifiqueApiKey            (* ".. Erro na configuração. Verifique sua API Key." *)
| TxtApiKeyInvalida                 (* ".. Por favor, insira uma API Key válida .." *)
| TxtErroConfiguracao (e : string)  (* f"Erro na configuração: {e}" *)
| TxtErroPPTX (nome e : string)     (* f"Erro ao processar PPTX {nome}: {e}" *)
| TxtErroArquivo (arquivo e : string) (* f"Erro ao processar {arquivo}: {e}" *)
| TxtErroCriarIndice (e : string)   (* f"Erro ao criar índice: {e}" *)
| TxtErroPergunta (e : string)      (* f"Erro ao processar pergunta: {e}" *)
| TxtProcessando (arquivo : string) (* f"Processando: {arquivo}" *)
| TxtConcluido                      (* "Processamento concluído!" *)
| TxtHeader                         (* the main-header block *)
| TxtUploadSection                  (* the upload-section block *)
| TxtProcessadosComSucesso (n : nat) (* f".. {len(documentos)} documentos processados com sucesso!" *)
| TxtErroIndice                     (* ".. Erro ao criar índice dos documentos" *)
| TxtNenhumDocumento                (* ".. Nenhum documento válido encontrado no ZIP" *)
| TxtCarregados (n : Value)         (* f".. {num_documentos} documentos carregados .." *)
| TxtRule                           (* "---" *)
| TxtChatContainer                  (* the chat-container block *)
| TxtHistorico                      (* "### .. Histórico de Conversas" *)
| TxtPergunta (p : string)          (* f"**Pergunta:** {chat['pergunta']}" *)
| TxtResposta (r : string).         (* f"**Resposta:** {chat['resposta']}" *)

(** Elements written to the page, in order.  The progress bar shows a
    fraction [num/den]; an expander has the label
    [f".. {chat['pergunta'][:50]}..."], kept as the 50-character cut, and
    holds the [st.markdown] elements written inside it. *)
Inductive UI :=
| st_markdown (m : Msg)
| st_info (m : Msg)
| st_success (m : Msg)
| st_error (m : Msg)
| st_warning (m : Msg)
| progress (num den : nat)
| progress_empty
| status_text (m : Msg)
| status_empty
| st_expander (label : string) (expanded : bool) (body : list Msg).

(** Process-wide and session state.  [session_state] holds the entries
    the script itself assigns ([api_key_configured],
    [documentos_processados], [query_engine], [num_documentos] and
    [chat_history]); the entries Streamlit keeps for the keyed widgets
    ([api_key_input], [config_button], [pergunta_input],
    [enviar_pergunta]) are the widgets' values, given by [Inputs], and
    are not part of this map. *)
Record World := mkWorld {
  session_state : gmap string Value;
  environ : gmap string string;
  Settings_embed_model : option EmbedModel;
  Settings_llm : option LLM;
  page : list UI
}.

(** The widgets' values in one run of the script. *)
Record Inputs := mkInputs {
  api_key_input : string;          (* st.text_input("OpenAI API Key") *)
  config_button : bool;            (* st.button(".. Configurar Sistema") *)
  uploaded_file : option string;   (* st.file_uploader: the ZIP's bytes *)
  recarregar_button : bool;        (* st.button(".. Carregar Novos Documentos") *)
  pergunta_input : string;         (* st.text_input("Digite sua pergunta ..") *)
  enviar_pergunta : bool           (* st.button("Enviar") *)
}.

(** The collaborators outside the script, for one run. *)
Record Ext := mkExt {
  (* [HuggingFaceEmbedding] is not [None]: its import succeeded *)
  HuggingFaceEmbedding_imported : bool;
  (* [HuggingFaceEmbedding(model_name=..)] *)
  HuggingFaceEmbedding_raises : string -> option Exn;
  (* [OpenAI(model=.., temperature=..)], under the current environment *)
  OpenAI_raises : gmap string string -> string -> Q -> option Exn;
  (* [Presentation(path)], giving [prs.slides] *)
  Presentation : string -> Outcome (list Slide);
  (* [os.listdir(path)] *)
  os_listdir : string -> Outcome (list string);
  (* [SimpleDirectoryReader(input_files=[path], required_exts=[ext]).load_data()] *)
  load_data : string -> string -> Outcome (list Document);
  (* [tempfile.TemporaryDirectory()] *)
  TemporaryDirectory : string;
  (* writing the upload to [zip_path] and [extractall(extract_dir)] *)
  extractall_raises : string -> string -> string -> option Exn;
  (* [Settings.node_parser] of the library, which the script never
     assigns: the library's default splitter *)
  Settings_node_parser : SentenceSplitter;
  (* [VectorStoreIndex.from_documents(documentos, node_parser=..)] *)
  from_documents_raises :
    list Document -> SentenceSplitter -> option EmbedModel -> option Exn;
  (* [index.as_query_engine(..)] *)
  as_query_engine_raises : QueryEngine -> option Exn;
  (* [query_engine.query(pergunta).response] *)
  query : QueryEngine -> string -> Outcome string
}.

(** ** The script monad

    A computation reads and writes the [World] and ends by returning,
    by raising an exception, or by [st.rerun()], whose control-flow
    exception is not an [Exception] and passes through [except]. *)
Inductive Res (A : Type) :=
| Ok (a : A)
| Raise (e : Exn)
| Rerun.
Arguments Ok {A} a.
Arguments Raise {A} e.
Arguments Rerun {A}.

Definition M (A : Type) : Type := World -> Res A * World.

#[export] Instance M_ret : MRet M := fun A a w => (Ok a, w).

#[export] Instance M_bind : MBind M := fun A B f m w =>
  match m w with
  | (Ok a, w') => f a w'
  | (Raise e, w') => (Raise e, w')
  | (Rerun, w') => (Rerun, w')
  end.

Definition raise {A} (e : Exn) : M A := fun w => (Raise e, w).

Definition st_rerun : M unit := fun w => (Rerun, w).

(** [try: body except Exception as e: handler(e)] *)
Definition try_except {A} (body : M A) (handler : Exn -> M A) : M A :=
  fun w =>
    match body w with
    | (Raise e, w') => handler e w'
    | r => r
    end.

Definition call {A} (o : Outcome A) : M A :=
  match o with
  | Returns a => mret a
  | Raises e => raise e
  end.

(** Nothing to do: an absent [else] branch. *)
Definition pass : M unit := mret tt.

Definition call_raises (o : option Exn) : M unit :=
  match o with
  | None => pass
  | Some e => raise e
  end.

Definition read {A} (f : World -> A) : M A := fun w => (Ok (f w), w).

Definition write (f : World -> World) : M unit := fun w => (Ok tt, f w).

(** Show one element on the page. *)
Definition show (u : UI) : M unit :=
  write (fun w => mkWorld (session_state w) (environ w)
                    (Settings_embed_model w) (Settings_llm w) (page w ++ [u])).

(** The [AttributeError] of [st.session_state.k] for a key that is not
    there; [exn_str] stands for Streamlit's message, which is not
    spelled out. *)
Definition AttributeError : Exn := mkExn "AttributeError".

(** [type(v).__name__] *)
Definition type_name (v : Value) : string :=
  match v with
  | VBool _ => "bool"
  | VNone => "NoneType"
  | VInt _ => "int"
  | VEngine _ => "RetrieverQueryEngine"
  | VList _ => "list"
  end.

(** The [AttributeError] of [v.attr] for a value without that
    attribute. *)
Definition no_attribute (v : Value) (attr : string) : Exn :=
  mkExn ("'" +:+ type_name v +:+ "' object has no attribute '"
         +:+ attr +:+ "'").

(** The [TypeError] of [reversed(v)] for a value that is no sequence. *)
Definition not_reversible (v : Value) : Exn :=
  mkExn ("'" +:+ type_name v +:+ "' object is not reversible").

(** [key in st.session_state] *)
Definition has_key (k : string) : M bool :=
  read (fun w => match session_state w !! k with
                 | Some _ => true
                 | None => false
                 end).

(** [st.session_state.k] *)
Definition getattr (k : string) : M Value :=
  fun w =>
    match session_state w !! k with
    | Some v => (Ok v, w)
    | None => (Raise AttributeError, w)
    end.

(** [st.session_state.k = v] *)
Definition setattr (k : string) (v : Value) : M unit :=
  write (fun w => mkWorld (<[k := v]> (session_state w)) (environ w)
                    (Settings_embed_model w) (Settings_llm w) (page w)).

(** [c in s] for one character. *)
Fixpoint has_char (c : ascii) (s : string) : bool :=
  match s with
  | String c' s' => Ascii.eqb c' c || has_char c s'
  | EmptyString => false
  end.

(** The string holds the character of code 0. *)
Definition has_nul (s : string) : bool := has_char Ascii.zero s.

(** [ValueError("embedded null byte")] *)
Definition embedded_null_byte : Exn := mkExn "embedded null byte".

(** The [ValueError] of [os.putenv(k, v)], if any: a name or a value
    holding the character of code 0 cannot be handed to the system, and
    a name is not empty and holds no [=]. *)
Definition putenv_error (k v : string) : option Exn :=
  if has_nul k || has_nul v then Some embedded_null_byte
  else if negb (Py.truthy k) || has_char "="%char k
       then Some (mkExn "illegal environment variable name")
       else None.

(** [os.environ[k] = v]: the variable is put in the process environment
    first, and recorded in the mapping when that did not raise. *)
Definition setenv (k v : string) : M unit :=
  match putenv_error k v with
  | Some e => raise e
  | None =>
      write (fun w => mkWorld (session_state w) (<[k := v]> (environ w))
                        (Settings_embed_model w) (Settings_llm w) (page w))
  end.

(** [for x in l: acc = body(acc, x)], in the monad. *)
Fixpoint for_each {A B} (l : list A) (body : B -> A -> M B) (acc : B) : M B :=
  match l with
  | [] => mret acc
  | x :: l' => acc' ← body acc x; for_each l' body acc'
  end.

Section App.

Variable ext : Ext.

(** ** [processar_pptx] *)

(** The body of [for row in table.rows]. *)
Definition row_step (slide_content : string) (row : Row) : string :=
  let row_text := Py.join " | " (map Py.strip row) in
  if Py.truthy (Py.strip row_text)
  then slide_content +:+ ("Tabela: " +:+ row_text +:+ NL)
  else slide_content.

(** The body of [for shape in slide.shapes]. *)
Definition shape_step (slide_content : string) (shape : Shape) : string :=
  let slide_content :=
    match shape_text shape with
    | Some t =>
        if Py.truthy (Py.strip t) then slide_content +:+ (t +:+ NL)
        else slide_content
    | None => slide_content
    end in
  match shape_table shape with
  | Some rows => fold_left row_step rows slide_content
  | None => slide_content
  end.

(** The body of [for i, slide in enumerate(prs.slides, 1)]. *)
Definition slide_step (slides_texto : list string) (it : nat * Slide)
  : list string :=
  let '(i, slide) := it in
  let slide_content := NL +:+ "=== SLIDE " +:+ Py.fmt_int i +:+ " ===" +:+ NL in
  let slide_content := fold_left shape_step slide slide_content in
  slides_texto ++ [slide_content].

Definition processar_pptx (caminho_arquivo : string)
  : M (option Document * nat) :=
  try_except
    (prs ← call (Presentation ext caminho_arquivo);
     let slides_texto := fold_left slide_step (Py.enumerate 1 prs) [] in
     let texto_completo := Py.join NL slides_texto in
     mret (Some (mkDocument texto_completo
                   (<["file_name" := MStr (Path.basename caminho_arquivo)]>
                    (<["file_type" := MStr "pptx"]>
                     (<["total_slides" := MInt (length prs)]>
                      (<["source" := MStr "presentation"]> ∅))))),
           length prs))
    (fun e =>
       show (st_error (TxtErroPPTX (Path.basename caminho_arquivo) (exn_str e)));;
       mret (None, 0)).

(** ** [processar_documentos] *)

Definition formatos_suportados : list string :=
  [".pdf"; ".docx"; ".pptx"; ".txt"; ".md"].

(** The first loop: keep the entries with a supported suffix. *)
Definition arquivos_step (arquivos : list string) (arquivo : string)
  : list string :=
  let extensao := Py.lower (Path.suffix arquivo) in
  if Py.contains formatos_suportados extensao
  then arquivos ++ [arquivo] else arquivos.

(** [doc.metadata.update({...})] of the generic branch. *)
Definition update_metadata (arquivo extensao : string) (doc : Document)
  : Document :=
  mkDocument (text doc)
    (<["source" := MStr "document"]>
     (<["file_type" := MStr (Py.drop 1 extensao)]>
      (<["file_name" := MStr arquivo]> (metadata doc)))).

(** The body of [for i, arquivo in enumerate(arquivos)]. *)
Definition arquivo_step (pasta_temp : string) (total : nat)
    (documentos_processados : list Document) (it : nat * string)
  : M (list Document) :=
  let '(i, arquivo) := it in
  let caminho := Path.join pasta_temp arquivo in
  let extensao := Py.lower (Path.suffix arquivo) in
  show (status_text (TxtProcessando arquivo));;
  show (progress (i + 1) total);;
  try_except
    (if String.eqb extensao ".pptx" then
       '(doc, num_slides) ← processar_pptx caminho;
       match doc with
       | Some d => mret (documentos_processados ++ [d])
       | None => mret documentos_processados
       end
     else if Py.contains [".docx"; ".pdf"; ".txt"; ".md"] extensao then
       docs ← call (load_data ext caminho extensao);
       mret (documentos_processados
             ++ map (update_metadata arquivo extensao) docs)
     else mret documentos_processados)
    (fun e =>
       show (st_warning (TxtErroArquivo arquivo (exn_str e)));;
       mret documentos_processados).

Definition processar_documentos (pasta_temp : string)
  : M (list Document * nat) :=
  entries ← call (os_listdir ext pasta_temp);
  let arquivos := fold_left arquivos_step entries [] in
  match arquivos with
  | [] => mret ([], 0)
  | _ =>
      show (progress 0 1);;
      documentos_processados ←
        for_each (Py.enumerate 0 arquivos)
                 (arquivo_step pasta_temp (length arquivos)) [];
      show (progress 1 1);;
      show (status_text TxtConcluido);;
      show progress_empty;;
      show status_empty;;
      mret (documentos_processados, length arquivos)
  end.

(** ** [configurar_sistema] *)

Definition set_embed_model (m : EmbedModel) : M unit :=
  write (fun w => mkWorld (session_state w) (environ w)
                    (Some m) (Settings_llm w) (page w)).

Definition set_llm (l : LLM) : M unit :=
  write (fun w => mkWorld (session_state w) (environ w)
                    (Settings_embed_model w) (Some l) (page w)).

Definition configurar_sistema : M bool :=
  try_except
    ((if HuggingFaceEmbedding_imported ext then
        call_raises (HuggingFaceEmbedding_raises ext
                       "sentence-transformers/all-MiniLM-L6-v2");;
        set_embed_model (mkEmbed "sentence-transformers/all-MiniLM-L6-v2")
      else pass);;
     env ← read environ;
     call_raises (OpenAI_raises ext env "gpt-3.5-turbo" 0.5%Q);;
     set_llm (mkLLM "gpt-3.5-turbo" 0.5%Q);;
     mret true)
    (fun e =>
       show (st_error (TxtErroConfiguracao (exn_str e)));;
       mret false).

(** ** [criar_indice] *)

(** [VectorStoreIndex.from_documents(documentos, node_parser=node_parser)].
    The library's function has no parameter [node_parser]: the keyword
    goes into its [**kwargs] and is not read, and the documents are cut
    with the splitter of the library's [Settings]. *)
Definition from_documents (documentos : list Document)
    (node_parser : SentenceSplitter) : VectorStoreIndex :=
  mkIndex documentos (Settings_node_parser ext).

Definition criar_indice (documentos : list Document) : M (option QueryEngine) :=
  try_except
    (let node_parser := mkSplitter 3000%Z 600%Z (NL +:+ NL) in
     embed ← read Settings_embed_model;
     call_raises (from_documents_raises ext documentos node_parser embed);;
     let index := from_documents documentos node_parser in
     let query_engine :=
       mkEngine index 40%Z "tree_summarize" true false 12000%Z 0.5%Q in
     call_raises (as_query_engine_raises ext query_engine);;
     mret (Some query_engine))
    (fun e =>
       show (st_error (TxtErroCriarIndice (exn_str e)));;
       mret None).

(** ** [modal_api_key]

    The key typed and the button come from [inp]; the entries Streamlit
    keeps for these widgets under [api_key_input] and [config_button]
    are not in [session_state] (see [World]). *)

Definition modal_api_key (inp : Inputs) : M bool :=
  present ← has_key "api_key_configured";
  (if negb present then setattr "api_key_configured" (VBool false)
   else pass);;
  configured ← getattr "api_key_configured";
  if negb (truthy configured) then
    show (st_markdown TxtConfiguracaoInicial);;
    show (st_info TxtInsiraApiKey);;
    let api_key := api_key_input inp in
    (if config_button inp then
       if Py.truthy api_key && Py.startswith api_key "sk-" then
         setenv "OPENAI_API_KEY" api_key;;
         ok ← configurar_sistema;
         if (ok : bool) then
           setattr "api_key_configured" (VBool true);;
           show (st_success TxtConfiguradoComSucesso);;
           st_rerun
         else show (st_error TxtErroVerifiqueApiKey)
       else show (st_error TxtApiKeyInvalida)
     else pass);;
    mret false
  else mret true.

(** ** [main] *)

(** The upload section, once a file was chosen. *)
Definition upload (bytes : string) : M unit :=
  let temp_dir := TemporaryDirectory ext in
  let zip_path := Path.join temp_dir "upload.zip" in
  let extract_dir := Path.join temp_dir "extracted" in
  call_raises (extractall_raises ext bytes zip_path extract_dir);;
  '(documentos, num_arquivos) ← processar_documentos extract_dir;
  match documentos with
  | _ :: _ =>
      query_engine ← criar_indice documentos;
      match query_engine with
      | Some q =>
          setattr "documentos_processados" (VBool true);;
          setattr "query_engine" (VEngine q);;
          setattr "num_documentos" (VInt (length documentos));;
          show (st_markdown (TxtProcessadosComSucesso (length documentos)));;
          st_rerun
      | None => show (st_markdown TxtErroIndice)
      end
  | [] => show (st_markdown TxtNenhumDocumento)
  end.

(** [if enviar and pergunta.strip(): try: ... except ...] *)
Definition perguntar (enviar : bool) (pergunta : string) : M unit :=
  if enviar && Py.truthy (Py.strip pergunta) then
    try_except
      (engine ← getattr "query_engine";
       match engine with
       | VEngine q =>
           response ← call (query ext q pergunta);
           history ← getattr "chat_history";
           match history with
           | VList l =>
               setattr "chat_history" (VList (l ++ [mkChat pergunta response]))
           | v => raise (no_attribute v "append")
           end
       | v => raise (no_attribute v "query")
       end)
      (fun e => show (st_error (TxtErroPergunta (exn_str e))))
  else pass.

(** The body of [for i, chat in enumerate(reversed(chat_history))]. *)
Definition chat_step (_ : unit) (it : nat * Chat) : M unit :=
  let '(i, chat) := it in
  show (st_expander (Py.take 50 (pergunta chat)) (Nat.eqb i 0)
          [TxtPergunta (pergunta chat); TxtResposta (resposta chat)]).

(** [if st.session_state.chat_history: ...] *)
Definition exibir_historico : M unit :=
  history ← getattr "chat_history";
  if truthy history then
    show (st_markdown TxtRule);;
    show (st_markdown TxtHistorico);;
    match history with
    | VList l => for_each (Py.enumerate 0 (rev l)) chat_step tt
    | v => raise (not_reversible v)
    end
  else pass.

(** The chat section.  The question and its button come from [inp]; the
    entries Streamlit keeps for them under [pergunta_input] and
    [enviar_pergunta] are not in [session_state] (see [World]). *)
Definition chat (inp : Inputs) : M unit :=
  n ← getattr "num_documentos";
  show (st_markdown (TxtCarregados n));;
  (if recarregar_button inp then
     setattr "documentos_processados" (VBool false);;
     setattr "query_engine" VNone;;
     setattr "num_documentos" (VInt 0);;
     st_rerun
   else pass);;
  show (st_markdown TxtRule);;
  show (st_markdown TxtChatContainer);;
  present ← has_key "chat_history";
  (if negb present then setattr "chat_history" (VList []) else pass);;
  perguntar (enviar_pergunta inp) (pergunta_input inp);;
  exibir_historico.

Definition main (inp : Inputs) : M unit :=
  configured ← modal_api_key inp;
  if negb configured then mret tt
  else
    show (st_markdown TxtHeader);;
    present ← has_key "documentos_processados";
    (if negb present then
       setattr "documentos_processados" (VBool false);;
       setattr "query_engine" VNone;;
       setattr "num_documentos" (VInt 0)
     else pass);;
    processed ← getattr "documentos_processados";
    if negb (truthy processed) then
      show (st_markdown TxtUploadSection);;
      match uploaded_file inp with
      | Some bytes => upload bytes
      | None => pass
      end
    else chat inp.

End App.

(** ** Notions used in the statements

    Predicates on worlds, and closed forms of what the loops of the
    script compute; each closed form is proved equal to the loop it
    describes in the second part. *)

(** Some character of [s] is not white space. *)
Fixpoint has_nonspace (s : string) : bool :=
  match s with
  | String c s' => negb (Py.isspace c) || has_nonspace s'
  | EmptyString => false
  end.

(** A cell is blank when nothing is left of it after trimming. *)
Definition blank (cell : string) : Prop := Py.strip cell = "".

(** The line a table row is written as. *)
Definition row_line (row : Row) : string :=
  "Tabela: " +:+ Py.join " | " (map Py.strip row) +:+ NL.

(** When the test [row_text.strip()] passes: some cell is not blank, or
    the row has two cells or more (their separator is in [row_text]). *)
Definition row_written (row : Row) : bool :=
  existsb (fun cell => Py.truthy (Py.strip cell)) row
  || (2 <=? length row)%nat.

(** [''.join(l)] *)
Fixpoint str_concat (l : list string) : string :=
  match l with
  | [] => ""
  | x :: l' => x +:+ str_concat l'
  end.

(** What the rows of a table add to the slide's text. *)
Fixpoint rows_body (rows : list Row) : string :=
  match rows with
  | [] => ""
  | row :: rows' =>
      (if row_written row then row_line row else "") +:+ rows_body rows'
  end.

(** What a shape adds to the slide's text: its text when that is not
    blank, then the lines of its table. *)
Definition shape_body (shape : Shape) : string :=
  match shape_text shape with
  | Some t => if Py.truthy (Py.strip t) then t +:+ NL else ""
  | None => ""
  end
  +:+ match shape_table shape with
      | Some rows => rows_body rows
      | None => ""
      end.

(** The text of a slide after its header. *)
Definition slide_body (slide : Slide) : string :=
  str_concat (map shape_body slide).

(** The header of slide [n]. *)
Definition slide_header (n : nat) : string :=
  NL +:+ "=== SLIDE " +:+ Py.fmt_int n +:+ " ===" +:+ NL.

(** The sections of a presentation's text, slide [i] (from 0) under the
    header numbered [i + 1]. *)
Definition sections (prs : list Slide) : list string :=
  imap (fun i slide => slide_header (S i) +:+ slide_body slide) prs.

(** The document [processar_pptx] builds from the slides [prs]. *)
Definition pptx_document (caminho_arquivo : string) (prs : list Slide)
  : Document :=
  mkDocument (Py.join NL (sections prs))
    (list_to_map
       [("file_name", MStr (Path.basename caminho_arquivo));
        ("file_type", MStr "pptx");
        ("total_slides", MInt (length prs));
        ("source", MStr "presentation")]).

(** The world with [l] written at the end of the page. *)
Definition add_page (w : World) (l : list UI) : World :=
  mkWorld (session_state w) (environ w)
    (Settings_embed_model w) (Settings_llm w) (page w ++ l).

(** A run of the script draws the page anew. *)
Definition clear_page (w : World) : World :=
  mkWorld (session_state w) (environ w)
    (Settings_embed_model w) (Settings_llm w) [].

(** One run of the script. *)
Definition run (ext : Ext) (inp : Inputs) (w : World) : Res unit * World :=
  main ext inp (clear_page w).

(** The credential gate's state: CONFIGURED when the flag is set. *)
Definition configured (w : World) : bool :=
  match session_state w !! "api_key_configured" with
  | Some v => truthy v
  | None => false
  end.

(** The session's "processed" flag. *)
Definition processed (w : World) : bool :=
  match session_state w !! "documentos_processados" with
  | Some v => truthy v
  | None => false
  end.

(** The chat transcript, empty before its first use. *)
Definition transcript (w : World) : list Chat :=
  match session_state w !! "chat_history" with
  | Some (VList l) => l
  | _ => []
  end.

(** [if k not in st.session_state: st.session_state.k = v] *)
Definition with_default (k : string) (v : Value) (ss : gmap string Value)
  : gmap string Value :=
  match ss !! k with
  | Some _ => ss
  | None => <[k := v]> ss
  end.

(** The call does not raise. *)
Definition no_exn (o : option Exn) : bool :=
  match o with
  | None => true
  | Some _ => false
  end.

(** The two backends can be built under the environment [env]. *)
Definition backend_ok (ext : Ext) (env : gmap string string) : bool :=
  (if HuggingFaceEmbedding_imported ext
   then no_exn (HuggingFaceEmbedding_raises ext
                  "sentence-transformers/all-MiniLM-L6-v2")
   else true)
  && no_exn (OpenAI_raises ext env "gpt-3.5-turbo" 0.5%Q).

(** An entry of the directory is taken by the dispatcher. *)
Definition recognized (name : string) : bool :=
  Py.contains formatos_suportados (Py.lower (Path.suffix name)).

(** The exception the extraction of [arquivo] ends with, if any. *)
Definition extraction_raises (ext : Ext) (pasta_temp arquivo : string)
  : option Exn :=
  let caminho := Path.join pasta_temp arquivo in
  let extensao := Py.lower (Path.suffix arquivo) in
  if String.eqb extensao ".pptx" then
    match Presentation ext caminho with
    | Returns _ => None
    | Raises e => Some e
    end
  else if Py.contains [".docx"; ".pdf"; ".txt"; ".md"] extensao then
    match load_data ext caminho extensao with
    | Returns _ => None
    | Raises e => Some e
    end
  else None.

(** The Documents the file [arquivo] contributes. *)
Definition extraction (ext : Ext) (pasta_temp arquivo : string)
  : list Document :=
  let caminho := Path.join pasta_temp arquivo in
  let extensao := Py.lower (Path.suffix arquivo) in
  if String.eqb extensao ".pptx" then
    match Presentation ext caminho with
    | Returns prs => [pptx_document caminho prs]
    | Raises _ => []
    end
  else if Py.contains [".docx"; ".pdf"; ".txt"; ".md"] extensao then
    match load_data ext caminho extensao with
    | Returns docs => map (update_metadata arquivo extensao) docs
    | Raises _ => []
    end
  else [].

(** The message a failed extraction of [arquivo] is reported with: an
    error from the presentation extractor, a warning from the
    dispatcher for the other formats. *)
Definition failure_message (pasta_temp arquivo : string) (e : Exn) : UI :=
  if String.eqb (Py.lower (Path.suffix arquivo)) ".pptx"
  then st_error (TxtErroPPTX (Path.basename (Path.join pasta_temp arquivo))
                   (exn_str e))
  else st_warning (TxtErroArquivo arquivo (exn_str e)).

(** What the dispatcher writes on the page for one file. *)
Definition file_log (ext : Ext) (pasta_temp : string) (total : nat)
    (it : nat * string) : list UI :=
  let '(i, arquivo) := it in
  [status_text (TxtProcessando arquivo); progress (i + 1) total]
  ++ match extraction_raises ext pasta_temp arquivo with
     | Some e => [failure_message pasta_temp arquivo e]
     | None => []
     end.

(** What the dispatcher writes on the page for the files [arquivos]. *)
Definition dispatch_log (ext : Ext) (pasta_temp : string)
    (arquivos : list string) : list UI :=
  [progress 0 1]
  ++ flat_map (file_log ext pasta_temp (length arquivos))
       (Py.enumerate 0 arquivos)
  ++ [progress 1 1; status_text TxtConcluido; progress_empty; status_empty].

(** A warning element. *)
Definition is_warning (u : UI) : bool :=
  match u with
  | st_warning _ => true
  | _ => false
  end.

(** The session state after [main]'s initialisation
    [if 'documentos_processados' not in st.session_state: ...]. *)
Definition init_session (ss : gmap string Value) : gmap string Value :=
  match ss !! "documentos_processados" with
  | Some _ => ss
  | None =>
      <["num_documentos" := VInt 0]>
        (<["query_engine" := VNone]>
           (<["documentos_processados" := VBool false]> ss))
  end.

(** The session state after the reload button, or with [engine] and
    [count] after a successful upload. *)
Definition reset_session (ss : gmap string Value) : gmap string Value :=
  <["num_documentos" := VInt 0]>
    (<["query_engine" := VNone]>
       (<["documentos_processados" := VBool false]> ss)).

Definition loaded_session (q : QueryEngine) (count : nat)
    (ss : gmap string Value) : gmap string Value :=
  <["num_documentos" := VInt count]>
    (<["query_engine" := VEngine q]>
       (<["documentos_processados" := VBool true]> ss)).

(** What [st.session_state.query_engine.query(pergunta).response] does
    in the world [w]. *)
Definition answer (ext : Ext) (w : World) (pergunta : string) : Outcome string :=
  match session_state w !! "query_engine" with
  | Some (VEngine q) => query ext q pergunta
  | Some v => Raises (no_attribute v "query")
  | None => Raises AttributeError
  end.

(** The expander of one transcript entry. *)
Definition expander_of (it : nat * Chat) : UI :=
  let '(i, chat) := it in
  st_expander (Py.take 50 (pergunta chat)) (Nat.eqb i 0)
    [TxtPergunta (pergunta chat); TxtResposta (resposta chat)].

(** The transcript as the chat section shows it: latest entry first. *)
Definition history_view (l : list Chat) : list UI :=
  match l with
  | [] => []
  | _ => [st_markdown TxtRule; st_markdown TxtHistorico]
         ++ map expander_of (Py.enumerate 0 (rev l))
  end.

(** The session is in its chat section with a well-formed transcript. *)
Definition chat_ready (w : World) : Prop :=
  configured w = true /\ processed w = true
  /\ is_Some (session_state w !! "num_documentos")
  /\ (session_state w !! "chat_history" = None
      \/ exists l, session_state w !! "chat_history" = Some (VList l)).

(** ** Sample collaborators and worlds *)

Definition demo_slides : list Slide :=
  [ [mkShape (Some "Resumo") None;
     mkShape None (Some [["a"; " b "]; ["  "; ""]; [" "]; []])];
    [] ].

(** The splitter of the library's [Settings] as the library ships it:
    chunks of 1024 tokens that overlap by 200. *)
Definition default_splitter : SentenceSplitter :=
  mkSplitter 1024 200 (NL +:+ NL +:+ NL).

Definition demo_ext : Ext :=
  mkExt true (fun _ => None) (fun _ _ _ => None)
    (fun p => if String.eqb p "/tmp/t/extracted/bad.pptx"
              then Raises (mkExn "bad zip") else Returns demo_slides)
    (fun _ => Returns ["a.PPTX"; "bad.pptx"; "n.txt"; "x.exe"; ".pdf"; "c.md"])
    (fun p e => if String.eqb e ".md" then Raises (mkExn "unreadable")
                else Returns [mkDocument "hello" ∅])
    "/tmp/t" (fun _ _ _ => None) default_splitter (fun _ _ _ => None) (fun _ => None)
    (fun q s => Returns ("re: " +:+ s)).

Definition fresh_world : World := mkWorld ∅ ∅ None None [].

(** The language-model backend refuses every credential. *)
Definition offline_ext : Ext :=
  mkExt true (fun _ => None) (fun _ _ _ => Some (mkExn "connection refused"))
    (fun _ => Raises (mkExn "no file")) (fun _ => Returns [])
    (fun _ _ => Returns []) "/tmp/t" (fun _ _ _ => None) default_splitter
    (fun _ _ _ => None) (fun _ => None) (fun _ _ => Raises (mkExn "offline")).

(** The loader finds nothing to read in the one text file. *)
Definition empty_loader_ext : Ext :=
  mkExt true (fun _ => None) (fun _ _ _ => None)
    (fun _ => Raises (mkExn "no file")) (fun _ => Returns ["vazio.txt"])
    (fun _ _ => Returns []) "/tmp/t" (fun _ _ _ => None) default_splitter
    (fun _ _ _ => None) (fun _ => None) (fun _ _ => Raises (mkExn "offline")).

(** The directory holds one presentation, which does not parse. *)
Definition broken_pptx_ext : Ext :=
  mkExt true (fun _ => None) (fun _ _ _ => None)
    (fun _ => Raises (mkExn "not a zip file")) (fun _ => Returns ["x.pptx"])
    (fun _ _ => Returns []) "/tmp/t" (fun _ _ _ => None) default_splitter
    (fun _ _ _ => None) (fun _ => None) (fun _ _ => Raises (mkExn "offline")).

(** The archive holds nothing the dispatcher takes. *)
Definition no_documents_ext : Ext :=
  mkExt true (fun _ => None) (fun _ _ _ => None)
    (fun _ => Raises (mkExn "no file"))
    (fun _ => Returns ["x.exe"; "notes"; ".pdf"; "a.pdf.bak"])
    (fun _ _ => Returns []) "/tmp/t" (fun _ _ _ => None) default_splitter
    (fun _ _ _ => None) (fun _ => None) (fun _ _ => Raises (mkExn "offline")).

(** A session in its chat section, one question already answered. *)
Definition chat_world : World :=
  mkWorld
    (<["chat_history" := VList [mkChat "first?" "re: first?"]]>
       (loaded_session
          (mkEngine (mkIndex [] default_splitter)
             40 "tree_summarize" true false 12000 0.5%Q)
          2 (<["api_key_configured" := VBool true]> ∅)))
    ∅ None None [].

Definition configured_world : World :=
  mkWorld (<["api_key_configured" := VBool true]> ∅) ∅ None None [].

Definition question (q : string) : Inputs :=
  mkInputs "" false None false q true.

Definition reload : Inputs := mkInputs "" false None true "" false.

Definition upload_of (bytes : string) : Inputs :=
  mkInputs "" false (Some bytes) false "" false.

Definition credential (key : string) : Inputs :=
  mkInputs key true None false "" false.

(** A key with the prefix that the environment cannot hold. *)
Definition nul_key : string := "sk-" +:+ String Ascii.zero "key".


(** The upload is not a ZIP archive. *)
Definition bad_zip_ext : Ext :=
  mkExt true (fun _ => None) (fun _ _ _ => None)
    (fun _ => Returns demo_slides) (fun _ => Returns ["a.pptx"])
    (fun _ _ => Returns []) "/tmp/t"
    (fun _ _ _ => Some (mkExn "File is not a zip file")) default_splitter
    (fun _ _ _ => None) (fun _ => None) (fun _ _ => Raises (mkExn "offline")).

(** The query engine is down. *)
Definition query_fails_ext : Ext :=
  mkExt true (fun _ => None) (fun _ _ _ => None)
    (fun _ => Returns demo_slides) (fun _ => Returns ["a.pptx"])
    (fun _ _ => Returns []) "/tmp/t" (fun _ _ _ => None) default_splitter
    (fun _ _ _ => None) (fun _ => None) (fun _ _ => Raises (mkExn "timeout")).

(** ** Frames and invariants *)

(** The computation [m] takes every world to one related to it by [R],
    however it ends. *)
Definition respects {A} (R : World -> World -> Prop) (m : M A) : Prop :=
  forall w, R w (snd (m w)).

(** The session key [k] holds what it held. *)
Definition keeps (k : string) (w w' : World) : Prop :=
  session_state w' !! k = session_state w !! k.

(** The environment and the library settings are as they were. *)
Definition same_process (w w' : World) : Prop :=
  environ w' = environ w
  /\ Settings_embed_model w' = Settings_embed_model w
  /\ Settings_llm w' = Settings_llm w.

(** The session keys the script writes. *)
Definition session_keys : list string :=
  ["api_key_configured"; "documentos_processados"; "query_engine";
   "num_documentos"; "chat_history"].

(** The transcript is absent or a list. *)
Definition history_ok (w : World) : Prop :=
  session_state w !! "chat_history" = None
  \/ exists l, session_state w !! "chat_history" = Some (VList l).

(** The three upload keys agree: absent together before the first run,
    then either "not processed", no engine and count 0, or "processed",
    an engine and the positive number of its documents. *)
Definition coherent (w : World) : Prop :=
  match session_state w !! "documentos_processados" with
  | None => True
  | Some (VBool false) =>
      session_state w !! "query_engine" = Some VNone
      /\ session_state w !! "num_documentos" = Some (VInt 0)
  | Some (VBool true) =>
      exists q,
        session_state w !! "query_engine" = Some (VEngine q)
        /\ index_documents (engine_index q) <> []
        /\ session_state w !! "num_documentos"
           = Some (VInt (length (index_documents (engine_index q))))
  | Some _ => False
  end.

(** The state of a session: what every run of the script keeps. *)
Definition session_inv (w : World) : Prop :=
  coherent w /\ history_ok w.

(** The worlds a session reaches: it starts with an empty session state
    and goes from run to run, under any inputs and collaborators. *)
Inductive reachable : World -> Prop :=
| reach_start (env : gmap string string) (em : option EmbedModel)
    (llm : option LLM) :
    reachable (mkWorld ∅ env em llm [])
| reach_run (ext : Ext) (inp : Inputs) (w : World) :
    reachable w -> reachable (snd (run ext inp w)).

(** [l1] is an initial part of [l2]. *)
Definition is_prefix {A} (l1 l2 : list A) : Prop := exists l, l2 = l1 ++ l.

(** The engine [criar_indice] builds over [documentos]. *)
Definition engine_over (ext : Ext) (documentos : list Document) : QueryEngine :=
  mkEngine (mkIndex documentos (Settings_node_parser ext))
    40 "tree_summarize" true false 12000 0.5%Q.

(** [criar_indice] succeeds over [documentos] in the world [w]. *)
Definition index_ok (ext : Ext) (documentos : list Document) (w : World)
  : bool :=
  no_exn (from_documents_raises ext documentos
            (mkSplitter 3000 600 (NL +:+ NL)) (Settings_embed_model w))
  && no_exn (as_query_engine_raises ext (engine_over ext documentos)).

(** No character of [s] is a dot. *)
Definition dotless (s : string) : Prop := Py.rfind "." s = (-1)%Z.

(** * Proofs *)

(** ** Strings *)

Lemma append_nil_l (s : string) : "" +:+ s = s.
Proof. reflexivity. Qed.

Lemma append_cons (c : ascii) (s t : string) :
  String c s +:+ t = String c (s +:+ t).
Proof. reflexivity. Qed.

Lemma append_empty_r (s : string) : s +:+ "" = s.
Proof.
  induction s as [|c s IH]; [reflexivity|]. now rewrite append_cons, IH.
Qed.

Lemma append_assoc (a b c : string) : (a +:+ b) +:+ c = a +:+ (b +:+ c).
Proof.
  induction a as [|x a IH]; [reflexivity|]. now rewrite !append_cons, IH.
Qed.

Lemma truthy_lstrip (s : string) : Py.truthy (Py.lstrip s) = has_nonspace s.
Proof.
  induction s as [|c s IH]; simpl; [reflexivity|].
  destruct (Py.isspace c); simpl; [exact IH | reflexivity].
Qed.

Lemma has_nonspace_lstrip (s : string) :
  has_nonspace (Py.lstrip s) = has_nonspace s.
Proof.
  induction s as [|c s IH]; simpl; [reflexivity|].
  destruct (Py.isspace c) eqn:E; simpl; [exact IH | now rewrite E].
Qed.

Lemma truthy_rstrip (s : string) : Py.truthy (Py.rstrip s) = has_nonspace s.
Proof.
  induction s as [|c s IH]; simpl; [reflexivity|].
  destruct (Py.rstrip s); simpl in *.
  - rewrite <- IH. now destruct (Py.isspace c).
  - rewrite <- IH. now rewrite orb_true_r.
Qed.

Lemma truthy_strip (s : string) : Py.truthy (Py.strip s) = has_nonspace s.
Proof. unfold Py.strip. now rewrite truthy_rstrip, has_nonspace_lstrip. Qed.

Lemma has_nonspace_truthy (s : string) :
  has_nonspace s = true -> Py.truthy s = true.
Proof. now destruct s. Qed.

Lemma has_nonspace_rstrip (s : string) :
  has_nonspace (Py.rstrip s) = has_nonspace s.
Proof.
  induction s as [|c s IH]; simpl; [reflexivity|].
  destruct (Py.rstrip s) eqn:E; simpl in *.
  - rewrite <- IH. destruct (Py.isspace c) eqn:Ec; simpl; [reflexivity|].
    now rewrite Ec.
  - now rewrite <- IH.
Qed.

Lemma has_nonspace_strip (s : string) :
  has_nonspace (Py.strip s) = has_nonspace s.
Proof. unfold Py.strip. now rewrite has_nonspace_rstrip, has_nonspace_lstrip. Qed.

Lemma has_nonspace_app (a b : string) :
  has_nonspace (a +:+ b) = has_nonspace a || has_nonspace b.
Proof.
  induction a as [|c a IH]; [reflexivity|].
  rewrite append_cons. simpl. now rewrite IH, orb_assoc.
Qed.

Lemma has_nonspace_join (sep : string) (l : list string) :
  has_nonspace (Py.join sep l)
  = existsb has_nonspace l || (has_nonspace sep && (2 <=? length l)%nat).
Proof.
  induction l as [|x l IH]; [now rewrite andb_false_r|].
  destruct l as [|y l].
  - simpl. now rewrite andb_false_r, !orb_false_r.
  - change (Py.join sep (x :: y :: l)) with (x +:+ sep +:+ Py.join sep (y :: l)).
    rewrite !has_nonspace_app, IH.
    change (existsb has_nonspace (x :: y :: l))
      with (has_nonspace x || existsb has_nonspace (y :: l)).
    change (2 <=? length (x :: y :: l))%nat with true.
    destruct (has_nonspace x), (has_nonspace sep),
      (existsb has_nonspace (y :: l)), (2 <=? length (y :: l))%nat; reflexivity.
Qed.

Lemma blank_iff (cell : string) : blank cell <-> has_nonspace cell = false.
Proof.
  unfold blank. rewrite <- truthy_strip.
  destruct (Py.strip cell); simpl; split; congruence.
Qed.

(** ** The presentation extractor *)

Lemma existsb_strip (row : Row) :
  existsb has_nonspace (map Py.strip row)
  = existsb (fun cell => Py.truthy (Py.strip cell)) row.
Proof.
  induction row as [|c row IH]; simpl; [reflexivity|].
  now rewrite IH, has_nonspace_strip, truthy_strip.
Qed.

(** A row is written exactly when [row_written] says so, and then as
    its [row_line]. *)
Lemma row_step_spec (slide_content : string) (row : Row) :
  row_step slide_content row
  = if row_written row then slide_content +:+ row_line row else slide_content.
Proof.
  unfold row_step, row_written, row_line.
  rewrite truthy_strip, has_nonspace_join, existsb_strip, length_map.
  reflexivity.
Qed.

Lemma row_step_written (slide_content : string) (row : Row) (cell : string) :
  In cell row -> ~ blank cell ->
  row_step slide_content row = slide_content +:+ row_line row.
Proof.
  intros Hin Hnb. rewrite row_step_spec.
  assert (existsb (fun c => Py.truthy (Py.strip c)) row = true) as E.
  { apply existsb_exists. exists cell. split; [exact Hin|].
    rewrite truthy_strip. rewrite blank_iff in Hnb.
    now destruct (has_nonspace cell). }
  unfold row_written. now rewrite E.
Qed.

Lemma row_step_blank (slide_content : string) (row : Row) :
  Forall blank row ->
  row_step slide_content row
  = if (2 <=? length row)%nat then slide_content +:+ row_line row
    else slide_content.
Proof.
  intros Hb. rewrite row_step_spec. unfold row_written.
  assert (existsb (fun c => Py.truthy (Py.strip c)) row = false) as E.
  { induction Hb as [|c row Hc _ IH]; [reflexivity|]. simpl.
    rewrite IH, truthy_strip. apply blank_iff in Hc. now rewrite Hc. }
  now rewrite E.
Qed.

(** C1 (fails on the code).  A row of two cells that are both empty
    after trimming is written to the presentation text all the same, as
    the line ["Tabela:  | "]: the test [row_text.strip()] sees the
    separator that [join] put between the cells.  In the sample
    presentation the table's blank row of two cells is written, its
    blank rows of one cell and of no cell are not. *)
Theorem C1_blank_row_is_written :
  Forall blank ["  "; ""]
  /\ (forall slide_content : string,
        row_step slide_content ["  "; ""]
        = slide_content +:+ ("Tabela:  | " +:+ NL))
  /\ exists doc,
      fst (processar_pptx demo_ext "/tmp/t/extracted/a.PPTX" fresh_world)
      = Ok (Some doc, 2)
      /\ text doc
         = NL +:+ "=== SLIDE 1 ===" +:+ NL
           +:+ "Resumo" +:+ NL
           +:+ "Tabela: a | b" +:+ NL
           +:+ "Tabela:  | " +:+ NL
           +:+ NL
           +:+ NL +:+ "=== SLIDE 2 ===" +:+ NL.
Proof.
  split; [repeat constructor|]. split.
  - intros sc. rewrite row_step_blank by (repeat constructor). reflexivity.
  - eexists. split; reflexivity.
Qed.

Lemma rows_fold (rows : list Row) (slide_content : string) :
  fold_left row_step rows slide_content = slide_content +:+ rows_body rows.
Proof.
  revert slide_content.
  induction rows as [|row rows IH]; intros sc; simpl.
  - now rewrite append_empty_r.
  - rewrite IH, row_step_spec.
    destruct (row_written row); [now rewrite append_assoc | reflexivity].
Qed.

Lemma shape_step_spec (slide_content : string) (shape : Shape) :
  shape_step slide_content shape = slide_content +:+ shape_body shape.
Proof.
  unfold shape_step, shape_body.
  destruct (shape_table shape) as [rows|].
  - rewrite rows_fold.
    destruct (shape_text shape) as [t|]; [destruct (Py.truthy (Py.strip t))|];
      now rewrite ?append_assoc.
  - destruct (shape_text shape) as [t|]; [destruct (Py.truthy (Py.strip t))|];
      now rewrite ?append_empty_r.
Qed.

Lemma shapes_fold (slide : Slide) (slide_content : string) :
  fold_left shape_step slide slide_content
  = slide_content +:+ slide_body slide.
Proof.
  revert slide_content.
  induction slide as [|shape slide IH]; intros sc; simpl.
  - now rewrite append_empty_r.
  - rewrite IH, shape_step_spec. now rewrite append_assoc.
Qed.

Lemma slides_fold (prs : list Slide) (start : nat) (slides_texto : list string) :
  fold_left slide_step (Py.enumerate start prs) slides_texto
  = slides_texto
    ++ imap (fun i slide => slide_header (start + i) +:+ slide_body slide) prs.
Proof.
  revert start slides_texto.
  induction prs as [|slide prs IH]; intros start acc; simpl.
  - now rewrite app_nil_r.
  - rewrite IH, shapes_fold, <- app_assoc. simpl. f_equal. f_equal.
    + unfold slide_header. now rewrite Nat.add_0_r.
    + apply imap_ext. intros i x _. simpl. now rewrite Nat.add_succ_r.
Qed.

Lemma sections_lookup (prs : list Slide) (i : nat) (slide : Slide) :
  prs !! i = Some slide ->
  sections prs !! i = Some (slide_header (S i) +:+ slide_body slide).
Proof.
  intros H. unfold sections. rewrite list_lookup_imap, H. reflexivity.
Qed.

Lemma processar_pptx_returns (ext : Ext) (caminho : string)
    (prs : list Slide) (w : World) :
  Presentation ext caminho = Returns prs ->
  processar_pptx ext caminho w
  = (Ok (Some (pptx_document caminho prs), length prs), w).
Proof.
  intros H. unfold processar_pptx, try_except, mbind, M_bind, call.
  rewrite H. unfold mret, M_ret. rewrite slides_fold. reflexivity.
Qed.

Lemma processar_pptx_raises (ext : Ext) (caminho : string) (e : Exn) (w : World) :
  Presentation ext caminho = Raises e ->
  processar_pptx ext caminho w
  = (Ok (None, 0),
     add_page w [st_error (TxtErroPPTX (Path.basename caminho) (exn_str e))]).
Proof.
  intros H. unfold processar_pptx, try_except, mbind, M_bind, call.
  rewrite H. reflexivity.
Qed.

(** C2.  A presentation that parses gives one Document: its text is the
    slides' sections joined by line feeds, one section per slide, the
    section of slide [i] (counting from 0) opening with the header
    ["=== SLIDE i+1 ==="]; its metadata holds the file name, the type
    tag ["pptx"], the slide count and the source tag ["presentation"].
    The slide count is returned along. *)
Theorem C2_presentation_document (ext : Ext) (caminho : string)
    (prs : list Slide) (w : World) :
  Presentation ext caminho = Returns prs ->
  exists doc : Document,
    processar_pptx ext caminho w = (Ok (Some doc, length prs), w)
    /\ text doc = Py.join NL (sections prs)
    /\ length (sections prs) = length prs
    /\ (forall i slide, prs !! i = Some slide ->
         sections prs !! i = Some (slide_header (S i) +:+ slide_body slide))
    /\ metadata doc !! "file_name" = Some (MStr (Path.basename caminho))
    /\ metadata doc !! "file_type" = Some (MStr "pptx")
    /\ metadata doc !! "total_slides" = Some (MInt (length prs))
    /\ metadata doc !! "source" = Some (MStr "presentation")
    /\ dom (metadata doc)
       = list_to_set ["file_name"; "file_type"; "total_slides"; "source"].
Proof.
  intros H. exists (pptx_document caminho prs).
  split; [now apply processar_pptx_returns|].
  split; [reflexivity|].
  split; [unfold sections; apply length_imap|].
  split; [apply sections_lookup|].
  unfold pptx_document; simpl.
  repeat (split; [by simplify_map_eq|]).
  rewrite !dom_insert_L, dom_empty_L. set_solver.
Qed.

Lemma C2_presentation_document_witness :
  Presentation demo_ext "/tmp/t/extracted/a.PPTX" = Returns demo_slides
  /\ exists doc : Document,
      processar_pptx demo_ext "/tmp/t/extracted/a.PPTX" fresh_world
      = (Ok (Some doc, length demo_slides), fresh_world)
      /\ text doc = Py.join NL (sections demo_slides)
      /\ length (sections demo_slides) = length demo_slides
      /\ (forall i slide, demo_slides !! i = Some slide ->
           sections demo_slides !! i
           = Some (slide_header (S i) +:+ slide_body slide))
      /\ metadata doc !! "file_name"
         = Some (MStr (Path.basename "/tmp/t/extracted/a.PPTX"))
      /\ metadata doc !! "file_type" = Some (MStr "pptx")
      /\ metadata doc !! "total_slides" = Some (MInt (length demo_slides))
      /\ metadata doc !! "source" = Some (MStr "presentation")
      /\ dom (metadata doc)
         = list_to_set ["file_name"; "file_type"; "total_slides"; "source"].
Proof.
  split; [reflexivity|].
  apply (C2_presentation_document demo_ext "/tmp/t/extracted/a.PPTX"
           demo_slides fresh_world).
  reflexivity.
Defined.

(** ** The credential gate *)

Ltac unfold_script :=
  unfold mbind, M_bind, mret, M_ret, pass, show, write, read, has_key,
    getattr, setattr, setenv, call, call_raises, raise, try_except, st_rerun.

Lemma startswith_nonempty (key p : string) :
  p <> "" -> Py.startswith key p = true -> key <> "".
Proof. intros Hp H ->. destruct p; [congruence | discriminate]. Qed.

Lemma accepted_iff (key : string) :
  Py.truthy key && Py.startswith key "sk-" = true
  <-> key <> "" /\ Py.startswith key "sk-" = true.
Proof.
  split.
  - intros [_ H]%andb_prop. split; [|exact H].
    now apply (startswith_nonempty key "sk-").
  - intros [Hne H]. rewrite H. now destruct key.
Qed.

Lemma configurar_sistema_ok (ext : Ext) (w : World) :
  backend_ok ext (environ w) = true ->
  exists w', configurar_sistema ext w = (Ok true, w')
    /\ session_state w' = session_state w
    /\ environ w' = environ w
    /\ page w' = page w
    /\ Settings_llm w' = Some (mkLLM "gpt-3.5-turbo" 0.5%Q).
Proof.
  unfold backend_ok, configurar_sistema, set_embed_model, set_llm.
  unfold_script. intros [H1 H2]%andb_prop.
  destruct (HuggingFaceEmbedding_imported ext);
    [destruct (HuggingFaceEmbedding_raises ext _); [discriminate|]|];
    cbn in *; destruct (OpenAI_raises ext _ _ _); try discriminate;
    eexists; split; try reflexivity; cbn; auto.
Qed.

Lemma configurar_sistema_fails (ext : Ext) (w : World) :
  backend_ok ext (environ w) = false ->
  exists w' e, configurar_sistema ext w = (Ok false, w')
    /\ session_state w' = session_state w
    /\ environ w' = environ w
    /\ page w' = page w ++ [st_error (TxtErroConfiguracao e)]
    /\ Settings_llm w' = Settings_llm w.
Proof.
  unfold backend_ok, configurar_sistema, set_embed_model, set_llm.
  unfold_script. intros H.
  destruct (HuggingFaceEmbedding_imported ext);
    [destruct (HuggingFaceEmbedding_raises ext _)|];
    cbn in *; try destruct (OpenAI_raises ext _ _ _); try discriminate;
    do 2 eexists; split; try reflexivity; cbn; auto.
Qed.

Lemma with_default_lookup (k : string) (v : Value) (ss : gmap string Value) :
  with_default k v ss !! k = Some (default v (ss !! k)).
Proof.
  unfold with_default. destruct (ss !! k) eqn:E; simpl; [exact E|].
  apply lookup_insert_eq.
Qed.

Lemma with_default_lookup_ne (k k' : string) (v : Value) (ss : gmap string Value) :
  k <> k' -> with_default k v ss !! k' = ss !! k'.
Proof.
  intros Hne. unfold with_default. destruct (ss !! k); [reflexivity|].
  now apply lookup_insert_ne.
Qed.

Lemma configured_default (w : World) :
  configured w = truthy (default (VBool false) (session_state w !! "api_key_configured")).
Proof. unfold configured. now destruct (session_state w !! _). Qed.

(** The gate on a key that fails validation. *)
Lemma modal_rejected (ext : Ext) (inp : Inputs) (w : World) :
  config_button inp = true -> configured w = false ->
  Py.truthy (api_key_input inp) && Py.startswith (api_key_input inp) "sk-" = false ->
  modal_api_key ext inp w
  = (Ok false,
     mkWorld (with_default "api_key_configured" (VBool false) (session_state w))
       (environ w) (Settings_embed_model w) (Settings_llm w)
       (page w ++ [st_markdown TxtConfiguracaoInicial; st_info TxtInsiraApiKey;
                   st_error TxtApiKeyInvalida])).
Proof.
  intros Hb Hc Hk. unfold modal_api_key, configured, with_default in *.
  unfold_script. rewrite Hb, Hk. cbn.
  destruct (session_state w !! "api_key_configured") as [v|] eqn:E; cbn.
  - rewrite E, Hc. cbn. now rewrite <- !app_assoc.
  - rewrite lookup_insert_eq. cbn. now rewrite <- !app_assoc.
Qed.

(** The environment takes the variable [OPENAI_API_KEY] with every
    value that holds no character of code 0. *)
Lemma putenv_error_key (v : string) :
  putenv_error "OPENAI_API_KEY" v
  = if has_nul v then Some embedded_null_byte else None.
Proof. unfold putenv_error. destruct (has_nul v); reflexivity. Qed.

(** The gate on a key that passes validation and cannot be stored: the
    assignment to the environment raises, outside every [try]. *)
Lemma modal_unstorable (ext : Ext) (inp : Inputs) (w : World) :
  config_button inp = true -> configured w = false ->
  Py.truthy (api_key_input inp) && Py.startswith (api_key_input inp) "sk-" = true ->
  has_nul (api_key_input inp) = true ->
  modal_api_key ext inp w
  = (Raise embedded_null_byte,
     mkWorld (with_default "api_key_configured" (VBool false) (session_state w))
       (environ w) (Settings_embed_model w) (Settings_llm w)
       (page w ++ [st_markdown TxtConfiguracaoInicial; st_info TxtInsiraApiKey])).
Proof.
  intros Hb Hc Hk Hn. unfold modal_api_key, configured, with_default in *.
  unfold_script. rewrite Hb, Hk, putenv_error_key, Hn. cbn.
  destruct (session_state w !! "api_key_configured") as [v|] eqn:E; cbn.
  - rewrite E, Hc. cbn. now rewrite <- !app_assoc.
  - rewrite lookup_insert_eq. cbn. now rewrite <- !app_assoc.
Qed.

(** The gate on a key that passes validation and can be stored, up to
    the call of [configurar_sistema]. *)
Lemma modal_accepted (ext : Ext) (inp : Inputs) (w : World) :
  config_button inp = true -> configured w = false ->
  Py.truthy (api_key_input inp) && Py.startswith (api_key_input inp) "sk-" = true ->
  has_nul (api_key_input inp) = false ->
  modal_api_key ext inp w
  = match configurar_sistema ext
            (mkWorld (with_default "api_key_configured" (VBool false) (session_state w))
               (<["OPENAI_API_KEY" := api_key_input inp]> (environ w))
               (Settings_embed_model w) (Settings_llm w)
               (page w ++ [st_markdown TxtConfiguracaoInicial;
                           st_info TxtInsiraApiKey])) with
    | (Ok true, w') =>
        (Rerun,
         mkWorld (<["api_key_configured" := VBool true]> (session_state w'))
           (environ w') (Settings_embed_model w') (Settings_llm w')
           (page w' ++ [st_success TxtConfiguradoComSucesso]))
    | (Ok false, w') => (Ok false, add_page w' [st_error TxtErroVerifiqueApiKey])
    | (Raise e, w') => (Raise e, w')
    | (Rerun, w') => (Rerun, w')
    end.
Proof.
  intros Hb Hc Hk Hn. unfold modal_api_key, configured, with_default in *.
  unfold_script. rewrite Hb, Hk, putenv_error_key, Hn. cbn.
  destruct (session_state w !! "api_key_configured") as [v|] eqn:E; cbn.
  - rewrite E, Hc. cbn. rewrite <- !app_assoc. cbn.
    destruct (configurar_sistema ext _) as [[[]| |] w']; reflexivity.
  - rewrite lookup_insert_eq. cbn. rewrite <- !app_assoc. cbn.
    destruct (configurar_sistema ext _) as [[[]| |] w']; reflexivity.
Qed.

(** C3 (as amended).  With the button pressed in state UNCONFIGURED: a
    key that is empty or lacks the prefix ["sk-"] is rejected, the state
    stays UNCONFIGURED and the environment is as before; a non-empty key
    with the prefix that the environment can hold (it has no character
    of code 0) is stored in the environment variable [OPENAI_API_KEY],
    and the state flips to CONFIGURED (the script reruns) when the
    backends can then be configured, and stays UNCONFIGURED when they
    cannot. *)
Theorem C3_credential_gate (ext : Ext) (inp : Inputs) (w : World) :
  config_button inp = true -> configured w = false ->
  let key := api_key_input inp in
  let env' := <["OPENAI_API_KEY" := key]> (environ w) in
  let r := modal_api_key ext inp w in
  (~ (key <> "" /\ Py.startswith key "sk-" = true) ->
     fst r = Ok false /\ configured (snd r) = false
     /\ environ (snd r) = environ w)
  /\ (key <> "" /\ Py.startswith key "sk-" = true ->
      has_nul key = false ->
      environ (snd r) = env'
      /\ (backend_ok ext env' = true ->
          fst r = Rerun /\ configured (snd r) = true)
      /\ (backend_ok ext env' = false ->
          fst r = Ok false /\ configured (snd r) = false)).
Proof.
  intros Hb Hc key env' r. split.
  - intros Hrej. rewrite <- accepted_iff in Hrej.
    apply not_true_is_false in Hrej.
    subst r. rewrite (modal_rejected ext inp w Hb Hc Hrej). cbn.
    repeat split. unfold configured. cbn. rewrite with_default_lookup.
    rewrite configured_default in Hc. exact Hc.
  - intros Hacc Hn. rewrite <- accepted_iff in Hacc.
    subst r. rewrite (modal_accepted ext inp w Hb Hc Hacc Hn).
    set (w1 := mkWorld _ _ _ _ _).
    split; [|split].
    + destruct (backend_ok ext (environ w1)) eqn:Hok.
      * destruct (configurar_sistema_ok ext w1 Hok) as (w2 & -> & _ & He & _).
        cbn. exact He.
      * destruct (configurar_sistema_fails ext w1 Hok) as (w2 & e & -> & _ & He & _).
        cbn. exact He.
    + intros Hok.
      destruct (configurar_sistema_ok ext w1 Hok) as (w2 & -> & _).
      split; [reflexivity|]. unfold configured. cbn.
      now rewrite lookup_insert_eq.
    + intros Hok.
      destruct (configurar_sistema_fails ext w1 Hok) as (w2 & e & -> & Hs & _).
      split; [reflexivity|]. unfold configured. cbn. rewrite Hs. cbn.
      rewrite with_default_lookup. rewrite configured_default in Hc. exact Hc.
Qed.

Lemma C3_credential_gate_witness :
  (let r := modal_api_key demo_ext (credential "abc123") fresh_world in
   fst r = Ok false /\ configured (snd r) = false)
  /\ (let r := modal_api_key demo_ext (credential "sk-validlookingkey") fresh_world in
      environ (snd r) !! "OPENAI_API_KEY" = Some "sk-validlookingkey"
      /\ fst r = Rerun /\ configured (snd r) = true).
Proof.
  split.
  - destruct (C3_credential_gate demo_ext (credential "abc123") fresh_world
                eq_refl eq_refl) as [Hrej _].
    destruct Hrej as (H1 & H2 & _); [|split; assumption].
    intros [_ H]. discriminate H.
  - destruct (C3_credential_gate demo_ext (credential "sk-validlookingkey")
                fresh_world eq_refl eq_refl) as [_ Hacc].
    destruct Hacc as (He & Hok & _);
      [split; [discriminate | reflexivity] | reflexivity |].
    destruct (Hok eq_refl) as [H1 H2].
    cbv zeta. rewrite He. split; [apply lookup_insert_eq | split; assumption].
Defined.

(** C3 (as stated) fails: the key ["sk-validlookingkey"] has the prefix
    and is stored, but the language-model backend cannot be built, and
    the state stays UNCONFIGURED. *)
Lemma C3_prefix_alone_does_not_configure :
  "sk-validlookingkey" <> ""
  /\ Py.startswith "sk-validlookingkey" "sk-" = true
  /\ let r := modal_api_key offline_ext (credential "sk-validlookingkey")
                fresh_world in
     fst r = Ok false /\ configured (snd r) = false.
Proof. split; [discriminate|]. vm_compute. auto. Qed.

(** C4 (as amended).  A failed attempt (the key is rejected, or the
    backends cannot be configured under a key that passed validation and
    that the environment can hold: it has no character of code 0) is
    caught: the gate returns without an exception, the last element on
    the page is an error message, the state stays UNCONFIGURED, the
    session state is as before but for the flag's initial [False], and
    the language-model setting is as before.  A rejected key leaves the
    environment and the embedding setting as they were; a key that
    passed validation stays in the environment variable
    [OPENAI_API_KEY]. *)
Theorem C4_failed_attempt (ext : Ext) (inp : Inputs) (w : World) :
  config_button inp = true -> configured w = false ->
  let key := api_key_input inp in
  let env' := <["OPENAI_API_KEY" := key]> (environ w) in
  let r := modal_api_key ext inp w in
  (key <> "" /\ Py.startswith key "sk-" = true -> has_nul key = false) ->
  ~ (key <> "" /\ Py.startswith key "sk-" = true /\ backend_ok ext env' = true) ->
  fst r = Ok false
  /\ (exists m, last (page (snd r)) = Some (st_error m))
  /\ configured (snd r) = false
  /\ session_state (snd r)
     = with_default "api_key_configured" (VBool false) (session_state w)
  /\ Settings_llm (snd r) = Settings_llm w
  /\ (~ (key <> "" /\ Py.startswith key "sk-" = true) ->
      environ (snd r) = environ w
      /\ Settings_embed_model (snd r) = Settings_embed_model w)
  /\ (key <> "" /\ Py.startswith key "sk-" = true -> environ (snd r) = env').
Proof.
  intros Hb Hc key env' r Hnul Hfail.
  destruct (Py.truthy key && Py.startswith key "sk-") eqn:Hk.
  - pose proof Hk as Hacc. rewrite accepted_iff in Hacc.
    assert (backend_ok ext env' = false) as Hok.
    { apply not_true_is_false. tauto. }
    subst r. rewrite (modal_accepted ext inp w Hb Hc Hk (Hnul Hacc)).
    set (w1 := mkWorld _ _ _ _ _).
    destruct (configurar_sistema_fails ext w1 Hok)
      as (w2 & e & -> & Hs & He & Hp & Hl).
    cbn. rewrite Hs, He, Hl. cbn.
    split; [reflexivity|].
    split; [exists TxtErroVerifiqueApiKey; now rewrite last_snoc|].
    split.
    { unfold configured. cbn. rewrite Hs. cbn.
      rewrite with_default_lookup. rewrite configured_default in Hc. exact Hc. }
    repeat (split; [reflexivity|]). split; tauto.
  - assert (~ (key <> "" /\ Py.startswith key "sk-" = true)) as Hrej.
    { rewrite <- accepted_iff. fold key. now rewrite Hk. }
    subst r. rewrite (modal_rejected ext inp w Hb Hc Hk). cbn.
    split; [reflexivity|].
    split.
    { exists TxtApiKeyInvalida.
      change (page w ++ [st_markdown TxtConfiguracaoInicial; st_info TxtInsiraApiKey;
                         st_error TxtApiKeyInvalida])
        with (page w ++ [st_markdown TxtConfiguracaoInicial; st_info TxtInsiraApiKey]
                     ++ [st_error TxtApiKeyInvalida]).
      now rewrite app_assoc, last_snoc. }
    split.
    { unfold configured. cbn. rewrite with_default_lookup.
      rewrite configured_default in Hc. exact Hc. }
    repeat (split; [reflexivity|]). split; tauto.
Qed.

Lemma C4_failed_attempt_witness :
  let r := modal_api_key offline_ext (credential "sk-validlookingkey")
             fresh_world in
  fst r = Ok false
  /\ configured (snd r) = false
  /\ Settings_llm (snd r) = None
  /\ environ (snd r) = {["OPENAI_API_KEY" := "sk-validlookingkey"]}.
Proof.
  destruct (C4_failed_attempt offline_ext (credential "sk-validlookingkey")
              fresh_world eq_refl eq_refl) as (H1 & _ & H3 & _ & H5 & _ & H7).
  - intros _. reflexivity.
  - intros (_ & _ & H). discriminate H.
  - cbv zeta. split; [exact H1|]. split; [exact H3|]. split; [exact H5|].
    rewrite H7; [reflexivity|]. split; [discriminate | reflexivity].
Defined.

(** C4 (as stated) fails: the attempt with ["sk-validlookingkey"] fails
    in the backend configuration, yet the environment variable and the
    embedding setting were written by it. *)
Lemma C4_failed_attempt_changes_process_state :
  let w := fresh_world in
  let r := modal_api_key offline_ext (credential "sk-validlookingkey") w in
  fst r = Ok false
  /\ configured (snd r) = false
  /\ environ w !! "OPENAI_API_KEY" = None
  /\ environ (snd r) !! "OPENAI_API_KEY" = Some "sk-validlookingkey"
  /\ Settings_embed_model w = None
  /\ Settings_embed_model (snd r)
     = Some (mkEmbed "sentence-transformers/all-MiniLM-L6-v2").
Proof. vm_compute. repeat split. Qed.

(** ** The dispatcher *)

Lemma arquivos_fold (entries arquivos : list string) :
  fold_left arquivos_step entries arquivos
  = arquivos ++ List.filter recognized entries.
Proof.
  revert arquivos.
  induction entries as [|x entries IH]; intros acc; simpl.
  - now rewrite app_nil_r.
  - rewrite IH. unfold arquivos_step. fold (recognized x).
    destruct (recognized x); [now rewrite <- app_assoc | reflexivity].
Qed.

Lemma add_page_add_page (w : World) (l1 l2 : list UI) :
  add_page (add_page w l1) l2 = add_page w (l1 ++ l2).
Proof. unfold add_page. cbn. now rewrite app_assoc. Qed.

Lemma add_page_nil (w : World) : add_page w [] = w.
Proof. destruct w. unfold add_page. cbn. now rewrite app_nil_r. Qed.

(** One file: its Documents are appended, its progress and a failure
    message are written, and the loop goes on. *)
Lemma arquivo_step_spec (ext : Ext) (pasta_temp : string) (total i : nat)
    (arquivo : string) (acc : list Document) (w : World) :
  arquivo_step ext pasta_temp total acc (i, arquivo) w
  = (Ok (acc ++ extraction ext pasta_temp arquivo),
     add_page w (file_log ext pasta_temp total (i, arquivo))).
Proof.
  unfold arquivo_step, extraction, file_log, extraction_raises, failure_message.
  destruct (String.eqb (Py.lower (Path.suffix arquivo)) ".pptx") eqn:Ep.
  - unfold mbind at 1 2. unfold M_bind at 1 2. cbn.
    unfold try_except, mbind, M_bind.
    destruct (Presentation ext (Path.join pasta_temp arquivo)) as [prs|e] eqn:EP.
    + rewrite (processar_pptx_returns _ _ _ _ EP). cbn.
      unfold add_page. cbn. now rewrite <- !app_assoc.
    + rewrite (processar_pptx_raises _ _ _ _ EP). cbn.
      unfold add_page. cbn. now rewrite app_nil_r, <- !app_assoc.
  - destruct (Py.contains [".docx"; ".pdf"; ".txt"; ".md"]
                (Py.lower (Path.suffix arquivo))) eqn:Eg.
    + unfold_script. cbn.
      destruct (load_data ext _ _) as [docs|e]; cbn;
        unfold add_page; cbn; now rewrite ?app_nil_r, <- !app_assoc.
    + unfold_script. cbn. unfold add_page. cbn.
      now rewrite app_nil_r, <- !app_assoc.
Qed.

Lemma arquivos_loop (ext : Ext) (pasta_temp : string) (total : nat)
    (arquivos : list string) (start : nat) (acc : list Document) (w : World) :
  for_each (Py.enumerate start arquivos) (arquivo_step ext pasta_temp total) acc w
  = (Ok (acc ++ flat_map (extraction ext pasta_temp) arquivos),
     add_page w (flat_map (file_log ext pasta_temp total)
                   (Py.enumerate start arquivos))).
Proof.
  revert start acc w.
  induction arquivos as [|x arquivos IH]; intros start acc w.
  - cbn. now rewrite app_nil_r, add_page_nil.
  - cbn [Py.enumerate for_each flat_map]. unfold mbind, M_bind.
    rewrite arquivo_step_spec, IH, add_page_add_page.
    now rewrite <- app_assoc.
Qed.

(** The dispatcher over a directory listing. *)
Lemma processar_documentos_spec (ext : Ext) (pasta_temp : string)
    (entries : list string) (w : World) :
  os_listdir ext pasta_temp = Returns entries ->
  processar_documentos ext pasta_temp w
  = match List.filter recognized entries with
    | [] => (Ok ([], 0), w)
    | arquivos =>
        (Ok (flat_map (extraction ext pasta_temp) arquivos, length arquivos),
         add_page w (dispatch_log ext pasta_temp arquivos))
    end.
Proof.
  intros Hl. unfold processar_documentos.
  unfold mbind at 1. unfold M_bind at 1. rewrite Hl. cbn [call].
  unfold mret at 1. unfold M_ret at 1.
  rewrite arquivos_fold. cbn [app].
  destruct (List.filter recognized entries) as [|x arquivos] eqn:Ef;
    [reflexivity|].
  unfold mbind, M_bind, show, write.
  rewrite arquivos_loop. cbn. unfold add_page, dispatch_log, mret, M_ret. cbn.
  do 2 f_equal. rewrite <- !app_assoc. cbn. now rewrite <- !app_assoc.
Qed.

Lemma processar_documentos_files (ext : Ext) (pasta_temp : string)
    (entries : list string) (w : World) :
  os_listdir ext pasta_temp = Returns entries ->
  List.filter recognized entries <> [] ->
  processar_documentos ext pasta_temp w
  = (Ok (flat_map (extraction ext pasta_temp) (List.filter recognized entries),
         length (List.filter recognized entries)),
     add_page w (dispatch_log ext pasta_temp (List.filter recognized entries))).
Proof.
  intros Hl Hne. rewrite (processar_documentos_spec _ _ _ _ Hl).
  now destruct (List.filter recognized entries).
Qed.

(** ** Suffixes and paths *)

Lemma lower_char_dot (c : ascii) :
  Ascii.eqb (Py.lower_char c) "." = Ascii.eqb c ".".
Proof. destruct c as [[] [] [] [] [] [] [] []]; reflexivity. Qed.

Lemma rfind_lower (s : string) : Py.rfind "." (Py.lower s) = Py.rfind "." s.
Proof.
  induction s as [|c s IH]; simpl; [reflexivity|].
  now rewrite IH, lower_char_dot.
Qed.

Lemma length_lower (s : string) : String.length (Py.lower s) = String.length s.
Proof. induction s as [|c s IH]; simpl; [reflexivity | now rewrite IH]. Qed.

Lemma drop_lower (i : nat) (s : string) :
  Py.drop i (Py.lower s) = Py.lower (Py.drop i s).
Proof.
  revert s. induction i as [|i IH]; intros [|c s]; simpl; try reflexivity.
  apply IH.
Qed.

(** The test on the suffix does not see the case of the name. *)
Lemma suffix_lower (name : string) :
  Path.suffix (Py.lower name) = Py.lower (Path.suffix name).
Proof.
  unfold Path.suffix. rewrite rfind_lower, length_lower.
  destruct (_ && _)%bool; [apply drop_lower | reflexivity].
Qed.

Lemma contains_In (l : list string) (x : string) :
  Py.contains l x = true <-> In x l.
Proof.
  unfold Py.contains. rewrite existsb_exists. split.
  - intros (y & Hy & ->%String.eqb_eq). exact Hy.
  - intros H. exists x. split; [exact H | apply String.eqb_refl].
Qed.

Lemma recognized_iff (name : string) :
  recognized name = true
  <-> In (Py.lower (Path.suffix name)) [".pdf"; ".docx"; ".pptx"; ".txt"; ".md"].
Proof. apply contains_In. Qed.

Lemma rfind_bounds (c : ascii) (s : string) :
  (-1 <= Py.rfind c s < Z.of_nat (String.length s))%Z.
Proof.
  induction s as [|d s IH]; simpl String.length; simpl Py.rfind; [lia|].
  destruct (0 <=? Py.rfind c s)%Z eqn:E; [lia|].
  destruct (Ascii.eqb d c); lia.
Qed.

Lemma rfind_app (c : ascii) (a b : string) :
  Py.rfind c (a +:+ b)
  = if (0 <=? Py.rfind c b)%Z
    then (Z.of_nat (String.length a) + Py.rfind c b)%Z
    else Py.rfind c a.
Proof.
  induction a as [|d a IH].
  - rewrite append_nil_l. simpl. pose proof (rfind_bounds c b).
    destruct (0 <=? Py.rfind c b)%Z eqn:E; [reflexivity|].
    apply Z.leb_gt in E. lia.
  - rewrite append_cons. simpl String.length. simpl Py.rfind. rewrite IH.
    pose proof (rfind_bounds c b).
    destruct (0 <=? Py.rfind c b)%Z eqn:E; [|reflexivity].
    apply Z.leb_le in E.
    destruct (0 <=? Z.of_nat (String.length a) + Py.rfind c b)%Z eqn:E2; [lia|].
    apply Z.leb_gt in E2. lia.
Qed.

Lemma length_append (a b : string) :
  String.length (a +:+ b) = String.length a + String.length b.
Proof.
  induction a as [|d a IH]; [reflexivity|].
  rewrite append_cons. simpl. now rewrite IH.
Qed.

Lemma drop_app (a b : string) : Py.drop (String.length a) (a +:+ b) = b.
Proof. induction a as [|d a IH]; [reflexivity | exact IH]. Qed.

Lemma rfind_last (c : ascii) (a : string) :
  Py.drop (String.length a - 1) a = String c "" ->
  Py.rfind c a = (Z.of_nat (String.length a) - 1)%Z.
Proof.
  induction a as [|d a IH]; [discriminate|].
  simpl String.length. rewrite Nat.sub_succ, Nat.sub_0_r.
  destruct a as [|d' a].
  - simpl. intros [= ->]. now rewrite Ascii.eqb_refl.
  - intros H.
    assert (Py.drop (String.length (String d' a) - 1) (String d' a)
            = String c "") as H'.
    { simpl String.length. rewrite Nat.sub_succ, Nat.sub_0_r. exact H. }
    specialize (IH H'). simpl Py.rfind in *. rewrite IH.
    simpl String.length.
    destruct (0 <=? Z.of_nat (S (String.length a)) - 1)%Z eqn:E; [lia|].
    apply Z.leb_gt in E. lia.
Qed.

(** The base name of a directory entry joined to its directory is the
    entry. *)
Lemma basename_join (pasta arquivo : string) :
  Py.rfind "/" arquivo = (-1)%Z ->
  Path.basename (Path.join pasta arquivo) = arquivo.
Proof.
  intros Hno. unfold Path.join, Path.basename.
  assert (Py.startswith arquivo "/" = false) as ->.
  { destruct arquivo as [|d s]; [reflexivity|]. cbn [Py.startswith].
    destruct (Ascii.eqb_spec "/"%char d) as [<-|Hne]; [|reflexivity].
    exfalso. simpl in Hno. pose proof (rfind_bounds "/" s).
    destruct (0 <=? Py.rfind "/" s)%Z; lia. }
  destruct (negb (Py.truthy pasta)) eqn:Et; simpl orb; cbv iota.
  - destruct pasta; [|discriminate]. rewrite append_nil_l, Hno. reflexivity.
  - destruct (String.eqb_spec (Py.drop (String.length pasta - 1) pasta) "/")
      as [Hl|_].
    + rewrite rfind_app, Hno. cbn [Z.leb Z.compare].
      rewrite (rfind_last _ _ Hl).
      replace (Z.to_nat (Z.of_nat (String.length pasta) - 1 + 1))
        with (String.length pasta) by lia.
      apply drop_app.
    + rewrite rfind_app.
      change ("/" +:+ arquivo) with (String "/" arquivo).
      simpl Py.rfind. rewrite Hno. cbn.
      replace (Z.to_nat (Z.of_nat (String.length pasta) + 0 + 1))
        with (String.length (pasta +:+ "/"))
        by (rewrite length_append; simpl String.length; lia).
      change (String "/" arquivo) with ("/" +:+ arquivo).
      rewrite <- append_assoc. apply drop_app.
Qed.

(** ** What the files contribute *)

Lemma extraction_file_type (ext : Ext) (pasta_temp arquivo : string)
    (d : Document) :
  In d (extraction ext pasta_temp arquivo) ->
  metadata d !! "file_type"
  = Some (MStr (Py.drop 1 (Py.lower (Path.suffix arquivo)))).
Proof.
  unfold extraction.
  destruct (String.eqb_spec (Py.lower (Path.suffix arquivo)) ".pptx") as [->|_].
  - destruct (Presentation ext _) as [prs|e]; [|intros []].
    intros [<-|[]]. reflexivity.
  - destruct (Py.contains _ _); [|intros []].
    destruct (load_data ext _ _) as [docs|e]; [|intros []].
    intros (d0 & <- & _)%in_map_iff. unfold update_metadata. cbn.
    by simplify_map_eq.
Qed.

Lemma extraction_raises_nil (ext : Ext) (pasta_temp arquivo : string) (e : Exn) :
  extraction_raises ext pasta_temp arquivo = Some e ->
  extraction ext pasta_temp arquivo = [].
Proof.
  unfold extraction_raises, extraction.
  destruct (String.eqb _ ".pptx").
  - now destruct (Presentation ext _).
  - destruct (Py.contains _ _); [|reflexivity]. now destruct (load_data ext _ _).
Qed.

Lemma extraction_length (ext : Ext) (pasta_temp arquivo : string) :
  recognized arquivo = true ->
  let caminho := Path.join pasta_temp arquivo in
  let extensao := Py.lower (Path.suffix arquivo) in
  (forall prs, extensao = ".pptx" -> Presentation ext caminho = Returns prs ->
     length (extraction ext pasta_temp arquivo) = 1)
  /\ (forall docs, extensao <> ".pptx" ->
        load_data ext caminho extensao = Returns docs ->
        length (extraction ext pasta_temp arquivo) = length docs).
Proof.
  intros Hr caminho extensao. unfold extraction. fold caminho extensao. split.
  - intros prs -> ->. reflexivity.
  - intros docs Hne Hl.
    destruct (String.eqb_spec extensao ".pptx") as [|_]; [contradiction|].
    assert (Py.contains [".docx"; ".pdf"; ".txt"; ".md"] extensao = true) as ->.
    { apply recognized_iff in Hr. fold extensao in Hr.
      apply contains_In. simpl in *. intuition congruence. }
    rewrite Hl. apply length_map.
Qed.

Lemma flat_map_without {A B} (f : A -> list B) (keep : A -> bool) (l : list A) :
  (forall x, In x l -> keep x = false -> f x = []) ->
  flat_map f (List.filter keep l) = flat_map f l.
Proof.
  induction l as [|x l IH]; intros H; [reflexivity|]. simpl.
  destruct (keep x) eqn:E; simpl.
  - f_equal. apply IH. intros y Hy. apply H. now right.
  - rewrite (H x); [|now left|exact E]. apply IH.
    intros y Hy. apply H. now right.
Qed.

Lemma enumerate_In {A} (l : list A) (x : A) (start : nat) :
  In x l -> exists i, In (i, x) (Py.enumerate start l).
Proof.
  revert start. induction l as [|y l IH]; intros start; [intros []|].
  intros [->|H].
  - exists start. now left.
  - destruct (IH (S start) H) as [i Hi]. exists i. now right.
Qed.

Lemma failure_in_log (ext : Ext) (pasta_temp X : string) (e : Exn)
    (arquivos : list string) :
  In X arquivos -> extraction_raises ext pasta_temp X = Some e ->
  In (failure_message pasta_temp X e) (dispatch_log ext pasta_temp arquivos).
Proof.
  intros Hin He. unfold dispatch_log.
  apply in_or_app. right. apply in_or_app. left.
  destruct (enumerate_In arquivos X 0 Hin) as [i Hi].
  apply in_flat_map. exists (i, X). split; [exact Hi|].
  unfold file_log. rewrite He. apply in_or_app. right. now left.
Qed.

(** C5 (as amended).  An entry is taken exactly when its suffix, put in
    lower case, is one of [.pdf], [.docx], [.pptx], [.txt], [.md] (the
    test is the same on the name in lower case); the other entries
    contribute nothing, are not counted and leave nothing on the page.  Every Document a taken file
    yields carries as its file type the lower-case suffix without the
    dot.  A presentation that parses yields one Document, another file
    as many as the loader returns, which may be none. *)
Theorem C5_dispatch (ext : Ext) (pasta_temp : string) (entries : list string)
    (w : World) :
  os_listdir ext pasta_temp = Returns entries ->
  (forall name,
      recognized name = true
      <-> In (Py.lower (Path.suffix name))
             [".pdf"; ".docx"; ".pptx"; ".txt"; ".md"])
  /\ (forall name, Py.lower (Path.suffix name) = Path.suffix (Py.lower name))
  /\ fst (processar_documentos ext pasta_temp w)
     = Ok (flat_map (extraction ext pasta_temp) (List.filter recognized entries),
           length (List.filter recognized entries))
  /\ snd (processar_documentos ext pasta_temp w)
     = match List.filter recognized entries with
       | [] => w
       | arquivos => add_page w (dispatch_log ext pasta_temp arquivos)
       end
  /\ (forall arquivo d,
        recognized arquivo = true ->
        In d (extraction ext pasta_temp arquivo) ->
        metadata d !! "file_type"
        = Some (MStr (Py.drop 1 (Py.lower (Path.suffix arquivo)))))
  /\ (forall arquivo,
        recognized arquivo = true ->
        let caminho := Path.join pasta_temp arquivo in
        let extensao := Py.lower (Path.suffix arquivo) in
        (forall prs, extensao = ".pptx" ->
           Presentation ext caminho = Returns prs ->
           length (extraction ext pasta_temp arquivo) = 1)
        /\ (forall docs, extensao <> ".pptx" ->
              load_data ext caminho extensao = Returns docs ->
              length (extraction ext pasta_temp arquivo) = length docs)).
Proof.
  intros Hl.
  split; [apply recognized_iff|].
  split; [intros name; symmetry; apply suffix_lower|].
  split.
  { rewrite (processar_documentos_spec ext pasta_temp entries w Hl).
    now destruct (List.filter recognized entries). }
  split.
  { rewrite (processar_documentos_spec ext pasta_temp entries w Hl).
    now destruct (List.filter recognized entries). }
  split; [intros arquivo d _; apply extraction_file_type|].
  apply extraction_length.
Qed.

Lemma C5_dispatch_witness :
  fst (processar_documentos demo_ext "/tmp/t/extracted" fresh_world)
  = Ok (flat_map (extraction demo_ext "/tmp/t/extracted")
          ["a.PPTX"; "bad.pptx"; "n.txt"; "c.md"], 4)
  /\ (forall d, In d (extraction demo_ext "/tmp/t/extracted" "a.PPTX") ->
        metadata d !! "file_type" = Some (MStr "pptx"))
  /\ length (extraction demo_ext "/tmp/t/extracted" "n.txt") = 1.
Proof.
  destruct (C5_dispatch demo_ext "/tmp/t/extracted"
              ["a.PPTX"; "bad.pptx"; "n.txt"; "x.exe"; ".pdf"; "c.md"]
              fresh_world eq_refl) as (_ & _ & H3 & _ & H4 & H5).
  split; [exact H3|]. split.
  - intros d. apply (H4 "a.PPTX" d eq_refl).
  - destruct (H5 "n.txt" eq_refl) as [_ Hn].
    apply (Hn [mkDocument "hello" ∅]); [discriminate | reflexivity].
Defined.

(** C5 (as stated) fails: the text file is taken and processed, the
    loader returns no Document for it, and the collection is empty. *)
Lemma C5_supported_file_without_document :
  recognized "vazio.txt" = true
  /\ extraction_raises empty_loader_ext "/tmp/t/extracted" "vazio.txt" = None
  /\ fst (processar_documentos empty_loader_ext "/tmp/t/extracted" fresh_world)
     = Ok ([], 1).
Proof. vm_compute. repeat split. Qed.

(** C7 (as amended).  When the extraction of a taken file [X] raises,
    the dispatcher still returns: [X] is counted among the files
    attempted, contributes no Document, every Document of the other
    files is in the collection, and the failure is on the page: as a
    warning naming [X] when the loader raised, as an error naming [X]
    when the presentation did not parse. *)
Theorem C7_failed_file_is_skipped (ext : Ext) (pasta_temp : string)
    (entries : list string) (X : string) (e : Exn) (w : World) :
  os_listdir ext pasta_temp = Returns entries ->
  In X entries -> recognized X = true ->
  extraction_raises ext pasta_temp X = Some e ->
  let arquivos := List.filter recognized entries in
  let r := processar_documentos ext pasta_temp w in
  exists docs,
    fst r = Ok (docs, length arquivos)
    /\ In X arquivos
    /\ extraction ext pasta_temp X = []
    /\ docs = flat_map (extraction ext pasta_temp)
                (List.filter (fun Y => negb (String.eqb Y X)) arquivos)
    /\ (forall Y d, In Y arquivos -> In d (extraction ext pasta_temp Y) ->
          In d docs)
    /\ In (failure_message pasta_temp X e) (page (snd r))
    /\ (Py.rfind "/" X = (-1)%Z ->
        failure_message pasta_temp X e
        = if String.eqb (Py.lower (Path.suffix X)) ".pptx"
          then st_error (TxtErroPPTX X (exn_str e))
          else st_warning (TxtErroArquivo X (exn_str e))).
Proof.
  intros Hl Hin Hr He arquivos r.
  assert (In X arquivos) as HX by (apply filter_In; split; assumption).
  pose proof (extraction_raises_nil _ _ _ _ He) as Hnil.
  exists (flat_map (extraction ext pasta_temp) arquivos).
  subst r. rewrite (processar_documentos_files ext pasta_temp entries w Hl)
    by (fold arquivos; now destruct arquivos).
  fold arquivos. cbn [fst snd].
  split; [reflexivity|]. split; [exact HX|]. split; [exact Hnil|].
  split.
  { symmetry. apply flat_map_without. intros Y _ HY.
    apply negb_false_iff, String.eqb_eq in HY. now subst Y. }
  split.
  { intros Y d HY Hd. apply in_flat_map. exists Y. now split. }
  split.
  { unfold add_page. cbn. apply in_or_app. right.
    now apply failure_in_log. }
  intros Hno. unfold failure_message. now rewrite (basename_join _ _ Hno).
Qed.

Lemma C7_failed_file_is_skipped_witness :
  let r := processar_documentos demo_ext "/tmp/t/extracted" fresh_world in
  exists docs,
    fst r = Ok (docs, 4)
    /\ docs = flat_map (extraction demo_ext "/tmp/t/extracted")
                ["a.PPTX"; "bad.pptx"; "n.txt"]
    /\ In (st_warning (TxtErroArquivo "c.md" "unreadable")) (page (snd r)).
Proof.
  destruct (C7_failed_file_is_skipped demo_ext "/tmp/t/extracted"
              ["a.PPTX"; "bad.pptx"; "n.txt"; "x.exe"; ".pdf"; "c.md"]
              "c.md" (mkExn "unreadable") fresh_world eq_refl)
    as (docs & H1 & _ & _ & H4 & _ & H6 & H7).
  - simpl. tauto.
  - reflexivity.
  - reflexivity.
  - exists docs. split; [exact H1|]. split; [exact H4|].
    rewrite H7 in H6 by reflexivity. exact H6.
Defined.

(** C7 (as stated) fails: the presentation does not parse, and no
    warning is on the page; the failure is reported as an error by the
    presentation extractor. *)
Lemma C7_presentation_failure_is_not_a_warning :
  let r := processar_documentos broken_pptx_ext "/tmp/t/extracted" fresh_world in
  extraction_raises broken_pptx_ext "/tmp/t/extracted" "x.pptx"
  = Some (mkExn "not a zip file")
  /\ fst r = Ok ([], 1)
  /\ List.filter is_warning (page (snd r)) = []
  /\ In (st_error (TxtErroPPTX "x.pptx" "not a zip file")) (page (snd r)).
Proof. vm_compute. repeat split. auto 10. Qed.

(** ** The index builder *)

Lemma criar_indice_spec (ext : Ext) (documentos : list Document) (w : World) :
  criar_indice ext documentos w
  = match from_documents_raises ext documentos
            (mkSplitter 3000 600 (NL +:+ NL)) (Settings_embed_model w) with
    | Some e => (Ok None, add_page w [st_error (TxtErroCriarIndice (exn_str e))])
    | None =>
        match as_query_engine_raises ext (engine_over ext documentos) with
        | Some e => (Ok None, add_page w [st_error (TxtErroCriarIndice (exn_str e))])
        | None => (Ok (Some (engine_over ext documentos)), w)
        end
    end.
Proof.
  unfold criar_indice, from_documents, engine_over. unfold_script. cbn.
  destruct (from_documents_raises ext _ _ _); [reflexivity|].
  cbn. destruct (as_query_engine_raises ext _); reflexivity.
Qed.

(** Whatever [criar_indice] returns as an engine is built over the
    documents as the library's settings cut them: the splitter made in
    [criar_indice] is not in it. *)
Lemma criar_indice_engine (ext : Ext) (documentos : list Document) (w : World)
    (q : QueryEngine) :
  fst (criar_indice ext documentos w) = Ok (Some q) ->
  q = engine_over ext documentos
  /\ node_parser (engine_index q) = Settings_node_parser ext.
Proof.
  rewrite criar_indice_spec.
  destruct (from_documents_raises ext _ _ _); [discriminate|].
  destruct (as_query_engine_raises ext _); [discriminate|].
  cbn. intros [= <-]. split; reflexivity.
Qed.

(** C9 fails on the code.  The index builder makes the splitter with
    chunk size 3000 and overlap 600, but hands it to the index
    construction under the keyword [node_parser], which that construction
    does not have: the index is cut with the splitter of the library's
    settings.  Over one Document and the library's defaults, the engine
    returned has an index cut in chunks of 1024 tokens that overlap by
    200, not 3000 and 600; the query engine is built over it with top-k
    40, response mode ["tree_summarize"], 12000 output tokens and
    temperature 0.5, as the claim says. *)
Theorem C9_index_is_not_cut_at_3000 :
  let documentos := [mkDocument "hello" ∅] in
  exists q : QueryEngine,
    criar_indice demo_ext documentos fresh_world = (Ok (Some q), fresh_world)
    /\ index_documents (engine_index q) = documentos
    /\ node_parser (engine_index q) = Settings_node_parser demo_ext
    /\ chunk_size (node_parser (engine_index q)) = 1024%Z
    /\ chunk_overlap (node_parser (engine_index q)) = 200%Z
    /\ chunk_size (node_parser (engine_index q)) <> 3000%Z
    /\ chunk_overlap (node_parser (engine_index q)) <> 600%Z
    /\ similarity_top_k q = 40%Z
    /\ response_mode q = "tree_summarize"
    /\ max_tokens q = 12000%Z
    /\ (temperature q == 1 # 2)%Q.
Proof.
  intros documentos. exists (engine_over demo_ext documentos).
  split; [rewrite criar_indice_spec; reflexivity|].
  repeat (split; [first [reflexivity | discriminate]|]). reflexivity.
Qed.

(** ** The page function *)

Lemma modal_configured (ext : Ext) (inp : Inputs) (w : World) :
  configured w = true -> modal_api_key ext inp w = (Ok true, w).
Proof.
  unfold configured, modal_api_key. unfold_script. cbn.
  destruct (session_state w !! "api_key_configured") as [v|] eqn:E;
    [|discriminate].
  intros Hv. cbn. rewrite E, Hv. reflexivity.
Qed.

Lemma init_session_lookup (ss : gmap string Value) :
  init_session ss !! "documentos_processados"
  = Some (default (VBool false) (ss !! "documentos_processados")).
Proof.
  unfold init_session.
  destruct (ss !! "documentos_processados") eqn:E; simpl; [exact E|].
  by simplify_map_eq.
Qed.

Lemma processed_default (w : World) :
  processed w
  = truthy (default (VBool false) (session_state w !! "documentos_processados")).
Proof. unfold processed. now destruct (session_state w !! _). Qed.

(** [main] before an upload: the three keys get their defaults, the
    upload section is shown, and a chosen file is processed. *)
Lemma main_upload_state (ext : Ext) (inp : Inputs) (w : World) :
  configured w = true -> processed w = false ->
  main ext inp w
  = match uploaded_file inp with
    | Some bytes => upload ext bytes
    | None => pass
    end (mkWorld (init_session (session_state w)) (environ w)
           (Settings_embed_model w) (Settings_llm w)
           (page w ++ [st_markdown TxtHeader; st_markdown TxtUploadSection])).
Proof.
  intros Hc Hp. unfold main. unfold mbind at 1. unfold M_bind at 1.
  rewrite (modal_configured ext inp w Hc). cbn [negb].
  rewrite processed_default in Hp. unfold init_session.
  unfold_script. cbn.
  destruct (session_state w !! "documentos_processados") as [v|] eqn:E; cbn.
  - rewrite E. cbn in Hp. rewrite Hp. cbn. now rewrite <- !app_assoc.
  - rewrite lookup_insert_ne by discriminate.
    rewrite lookup_insert_ne by discriminate.
    rewrite lookup_insert_eq. cbn. now rewrite <- !app_assoc.
Qed.

(** [main] after an upload is the chat section. *)
Lemma main_chat_state (ext : Ext) (inp : Inputs) (w : World) :
  configured w = true -> processed w = true ->
  main ext inp w = chat ext inp (add_page w [st_markdown TxtHeader]).
Proof.
  intros Hc Hp. unfold main. unfold mbind at 1. unfold M_bind at 1.
  rewrite (modal_configured ext inp w Hc). cbn [negb].
  unfold processed in Hp.
  destruct (session_state w !! "documentos_processados") as [v|] eqn:E;
    [|discriminate].
  unfold mbind at 1 2 3 4. unfold M_bind at 1 2 3 4.
  unfold show at 1, write at 1, has_key, read, getattr. cbn.
  rewrite E. cbn. rewrite E, Hp. reflexivity.
Qed.

Lemma processar_documentos_frame (ext : Ext) (pasta_temp : string) (w : World) :
  exists l,
    snd (processar_documentos ext pasta_temp w) = add_page w l
    /\ ((exists docs n, fst (processar_documentos ext pasta_temp w) = Ok (docs, n))
        \/ exists e, fst (processar_documentos ext pasta_temp w) = Raise e).
Proof.
  destruct (os_listdir ext pasta_temp) as [entries|e] eqn:El.
  - rewrite (processar_documentos_spec _ _ _ _ El).
    destruct (List.filter recognized entries) as [|a l].
    + exists []. rewrite add_page_nil. split; [reflexivity|]. left. eauto.
    + eexists. split; [reflexivity|]. left. eauto.
  - exists []. unfold processar_documentos. unfold_script. rewrite El. cbn.
    rewrite add_page_nil. split; [reflexivity|]. right. eauto.
Qed.

Lemma criar_indice_frame (ext : Ext) (documentos : list Document) (w : World) :
  exists l r,
    criar_indice ext documentos w = (Ok r, add_page w l).
Proof.
  rewrite criar_indice_spec.
  destruct (from_documents_raises ext _ _ _); [eauto|].
  destruct (as_query_engine_raises ext _); [eauto|].
  exists [], (Some (engine_over ext documentos)).
  now rewrite add_page_nil.
Qed.

(** The upload section, step by step. *)
Lemma upload_spec (ext : Ext) (bytes : string) (w : World) :
  let temp_dir := TemporaryDirectory ext in
  upload ext bytes w
  = match extractall_raises ext bytes (Path.join temp_dir "upload.zip")
            (Path.join temp_dir "extracted") with
    | Some e => (Raise e, w)
    | None =>
        match processar_documentos ext (Path.join temp_dir "extracted") w with
        | (Ok ([], _), w1) =>
            (Ok tt, add_page w1 [st_markdown TxtNenhumDocumento])
        | (Ok (documentos, _), w1) =>
            match criar_indice ext documentos w1 with
            | (Ok (Some q), w2) =>
                (Rerun,
                 mkWorld (loaded_session q (length documentos) (session_state w2))
                   (environ w2) (Settings_embed_model w2) (Settings_llm w2)
                   (page w2 ++ [st_markdown
                                  (TxtProcessadosComSucesso (length documentos))]))
            | (Ok None, w2) => (Ok tt, add_page w2 [st_markdown TxtErroIndice])
            | (Raise e, w2) => (Raise e, w2)
            | (Rerun, w2) => (Rerun, w2)
            end
        | (Raise e, w1) => (Raise e, w1)
        | (Rerun, w1) => (Rerun, w1)
        end
    end.
Proof.
  intros temp_dir. unfold upload. fold temp_dir.
  unfold mbind at 1. unfold M_bind at 1.
  destruct (extractall_raises ext _ _ _) as [e|]; [reflexivity|].
  change (call_raises None w) with (Ok tt, w). cbv iota beta.
  unfold mbind at 1. unfold M_bind at 1.
  destruct (processar_documentos ext _ w) as [[[[|d docs] n]|e|] w1];
    try reflexivity.
  unfold mbind at 1. unfold M_bind at 1.
  destruct (criar_indice ext _ w1) as [[[q|]|e|] w2]; reflexivity.
Qed.

(** The upload section either ends in a rerun with the engine and the
    document count stored and the flag set, or leaves the session state
    as it was. *)
Lemma upload_cases (ext : Ext) (bytes : string) (w : World) :
  (fst (upload ext bytes w) = Rerun
   /\ exists q n,
       session_state (snd (upload ext bytes w))
       = loaded_session q n (session_state w))
  \/ (fst (upload ext bytes w) <> Rerun
      /\ session_state (snd (upload ext bytes w)) = session_state w).
Proof.
  rewrite upload_spec.
  destruct (extractall_raises ext _ _ _) as [e|].
  { right. split; [discriminate | reflexivity]. }
  destruct (processar_documentos_frame ext
              (Path.join (TemporaryDirectory ext) "extracted") w)
    as (l & Hw & Hr).
  destruct (processar_documentos ext _ w) as [r w1]. cbn [fst snd] in *.
  subst w1. destruct Hr as [(docs & n & ->)|(e & ->)];
    [|right; split; [discriminate | reflexivity]].
  destruct docs as [|d docs].
  { right. split; [discriminate | reflexivity]. }
  destruct (criar_indice_frame ext (d :: docs) (add_page w l))
    as (l2 & [q|] & ->).
  - left. split; [reflexivity|]. exists q, (length (d :: docs)). reflexivity.
  - right. split; [discriminate | reflexivity].
Qed.

(** C6.  When the extracted directory has no entry with a recognised
    suffix, the dispatcher returns the empty collection and the count 0
    and writes nothing; the upload cycle ends with the message that no
    valid document was found, the "processed" flag is still false, and
    the session state is as [main]'s initialisation leaves it (as before
    the upload, when it was initialised already). *)
Theorem C6_no_recognized_files (ext : Ext) (inp : Inputs) (bytes : string)
    (entries : list string) (w : World) :
  configured w = true -> processed w = false ->
  uploaded_file inp = Some bytes ->
  let temp_dir := TemporaryDirectory ext in
  let extract_dir := Path.join temp_dir "extracted" in
  extractall_raises ext bytes (Path.join temp_dir "upload.zip") extract_dir = None ->
  os_listdir ext extract_dir = Returns entries ->
  List.filter recognized entries = [] ->
  (forall w', processar_documentos ext extract_dir w' = (Ok ([], 0), w'))
  /\ fst (main ext inp w) = Ok tt
  /\ processed (snd (main ext inp w)) = false
  /\ session_state (snd (main ext inp w)) = init_session (session_state w)
  /\ (is_Some (session_state w !! "documentos_processados") ->
      session_state (snd (main ext inp w)) = session_state w)
  /\ last (page (snd (main ext inp w))) = Some (st_markdown TxtNenhumDocumento).
Proof.
  intros Hc Hp Hu temp_dir extract_dir Hz Hl Hf.
  assert (forall w', processar_documentos ext extract_dir w' = (Ok ([], 0), w'))
    as Hd.
  { intros w'. rewrite (processar_documentos_spec _ _ _ _ Hl). now rewrite Hf. }
  split; [exact Hd|].
  rewrite (main_upload_state ext inp w Hc Hp), Hu, upload_spec.
  fold temp_dir. fold extract_dir. rewrite Hz, Hd. cbn [fst snd].
  split; [reflexivity|].
  split.
  { unfold processed. cbn. rewrite init_session_lookup.
    rewrite processed_default in Hp. exact Hp. }
  split; [reflexivity|].
  split.
  { intros [v Hv]. cbn. unfold init_session. now rewrite Hv. }
  unfold add_page. cbn. now rewrite last_snoc.
Qed.

Lemma C6_no_recognized_files_witness :
  let r := main no_documents_ext (upload_of "PK") configured_world in
  fst r = Ok tt
  /\ processed (snd r) = false
  /\ processar_documentos no_documents_ext "/tmp/t/extracted" fresh_world
     = (Ok ([], 0), fresh_world).
Proof.
  destruct (C6_no_recognized_files no_documents_ext (upload_of "PK") "PK"
              ["x.exe"; "notes"; ".pdf"; "a.pdf.bak"] configured_world
              eq_refl eq_refl eq_refl eq_refl eq_refl eq_refl)
    as (H1 & H2 & H3 & _).
  cbv zeta. split; [exact H2|]. split; [exact H3|]. apply H1.
Defined.

(** ** The chat section *)

(** The reload button. *)
Lemma chat_reload (ext : Ext) (inp : Inputs) (w : World) (n : Value) :
  recarregar_button inp = true ->
  session_state w !! "num_documentos" = Some n ->
  chat ext inp w
  = (Rerun,
     mkWorld (reset_session (session_state w)) (environ w)
       (Settings_embed_model w) (Settings_llm w)
       (page w ++ [st_markdown (TxtCarregados n)])).
Proof.
  intros Hb Hn. unfold chat. unfold_script. cbn. rewrite Hn, Hb. reflexivity.
Qed.

(** Without the reload button: the transcript gets its default, the
    question is handled and the transcript shown. *)
Lemma chat_no_reload (ext : Ext) (inp : Inputs) (w : World) (n : Value) :
  recarregar_button inp = false ->
  session_state w !! "num_documentos" = Some n ->
  chat ext inp w
  = (perguntar ext (enviar_pergunta inp) (pergunta_input inp);;
     exibir_historico)
      (mkWorld (with_default "chat_history" (VList []) (session_state w))
         (environ w) (Settings_embed_model w) (Settings_llm w)
         (page w ++ [st_markdown (TxtCarregados n); st_markdown TxtRule;
                     st_markdown TxtChatContainer])).
Proof.
  intros Hb Hn. unfold chat, with_default.
  unfold mbind at 1 2 3 4 5 6 7. unfold M_bind at 1 2 3 4 5 6 7.
  unfold getattr at 1. rewrite Hn. unfold show, write, has_key, read, pass.
  rewrite Hb. cbn.
  destruct (session_state w !! "chat_history") as [v|] eqn:E; cbn;
    now rewrite <- !app_assoc.
Qed.

Lemma perguntar_spec (ext : Ext) (enviar : bool) (pergunta : string)
    (w : World) (l : list Chat) :
  session_state w !! "chat_history" = Some (VList l) ->
  perguntar ext enviar pergunta w
  = if enviar && Py.truthy (Py.strip pergunta) then
      match answer ext w pergunta with
      | Returns response =>
          (Ok tt,
           mkWorld (<["chat_history" := VList (l ++ [mkChat pergunta response])]>
                      (session_state w))
             (environ w) (Settings_embed_model w) (Settings_llm w) (page w))
      | Raises e => (Ok tt, add_page w [st_error (TxtErroPergunta (exn_str e))])
      end
    else (Ok tt, w).
Proof.
  intros Hh. unfold perguntar, answer.
  destruct (enviar && Py.truthy (Py.strip pergunta)); [|reflexivity].
  unfold_script. cbn.
  destruct (session_state w !! "query_engine") as [[| | |q|]|]; try reflexivity.
  destruct (query ext q pergunta) as [response|e]; [|reflexivity].
  cbn. rewrite Hh. reflexivity.
Qed.

Lemma chat_steps (l : list Chat) (start : nat) (w : World) :
  for_each (Py.enumerate start l) chat_step tt w
  = (Ok tt, add_page w (map expander_of (Py.enumerate start l))).
Proof.
  revert start w. induction l as [|c l IH]; intros start w.
  - cbn. now rewrite add_page_nil.
  - cbn [Py.enumerate for_each map]. unfold mbind, M_bind.
    unfold chat_step at 1. unfold show, write. rewrite IH.
    unfold add_page. cbn. now rewrite <- app_assoc.
Qed.

Lemma exibir_historico_spec (w : World) (l : list Chat) :
  session_state w !! "chat_history" = Some (VList l) ->
  exibir_historico w = (Ok tt, add_page w (history_view l)).
Proof.
  intros Hh. unfold exibir_historico. unfold mbind at 1. unfold M_bind at 1.
  unfold getattr. rewrite Hh. destruct l as [|c l].
  - cbn. now rewrite add_page_nil.
  - cbn [truthy]. unfold mbind, M_bind, show, write.
    rewrite chat_steps. unfold history_view, add_page. cbn [page].
    now rewrite <- !app_assoc.
Qed.

Lemma transcript_eq (w : World) (l : list Chat) :
  session_state w !! "chat_history" = Some (VList l) -> transcript w = l.
Proof. intros H. unfold transcript. now rewrite H. Qed.

Lemma with_default_history (ss : gmap string Value) :
  ss !! "chat_history" = None \/ (exists l, ss !! "chat_history" = Some (VList l)) ->
  exists l,
    with_default "chat_history" (VList []) ss !! "chat_history" = Some (VList l)
    /\ l = match ss !! "chat_history" with Some (VList l) => l | _ => [] end.
Proof.
  intros [H|[l H]]; rewrite with_default_lookup, H; eauto.
Qed.

Lemma world_eq (ss ss' : gmap string Value) (env : gmap string string)
    (em : option EmbedModel) (llm : option LLM) (pg pg' : list UI) :
  ss = ss' -> pg = pg' ->
  (Ok tt, mkWorld ss env em llm pg) = (Ok tt, mkWorld ss' env em llm pg').
Proof. now intros -> ->. Qed.

(** The chat section without the reload button, in closed form. *)
Lemma chat_spec (ext : Ext) (inp : Inputs) (w : World) (n : Value) :
  recarregar_button inp = false ->
  session_state w !! "num_documentos" = Some n ->
  session_state w !! "chat_history" = None
  \/ (exists l, session_state w !! "chat_history" = Some (VList l)) ->
  let pergunta := pergunta_input inp in
  let asked := enviar_pergunta inp && Py.truthy (Py.strip pergunta) in
  let new :=
    if asked then
      match answer ext w pergunta with
      | Returns response => [mkChat pergunta response]
      | Raises _ => []
      end
    else [] in
  let report :=
    if asked then
      match answer ext w pergunta with
      | Returns _ => []
      | Raises e => [st_error (TxtErroPergunta (exn_str e))]
      end
    else [] in
  chat ext inp w
  = (Ok tt,
     mkWorld (<["chat_history" := VList (transcript w ++ new)]> (session_state w))
       (environ w) (Settings_embed_model w) (Settings_llm w)
       (page w ++ [st_markdown (TxtCarregados n); st_markdown TxtRule;
                   st_markdown TxtChatContainer]
               ++ report ++ history_view (transcript w ++ new))).
Proof.
  intros Hb Hn Hh pergunta asked new report.
  rewrite (chat_no_reload ext inp w n Hb Hn).
  destruct (with_default_history _ Hh) as (l & Hl & El).
  fold (transcript w) in El. subst l.
  set (w1 := mkWorld _ _ _ _ _).
  assert (answer ext w1 pergunta = answer ext w pergunta) as Ha.
  { unfold answer, w1. cbn. now rewrite with_default_lookup_ne. }
  assert (<["chat_history" := VList (transcript w)]> (session_state w1)
          = <["chat_history" := VList (transcript w)]> (session_state w)) as Hs1.
  { unfold w1, with_default. cbn.
    destruct (session_state w !! "chat_history"); [reflexivity|].
    apply insert_insert_eq. }
  unfold mbind, M_bind.
  rewrite (perguntar_spec ext _ _ w1 (transcript w) Hl). fold pergunta asked.
  rewrite Ha. subst new report.
  assert (session_state w1
          = <["chat_history" := VList (transcript w)]> (session_state w)) as Hs2.
  { rewrite <- Hs1. symmetry. now apply insert_id. }
  destruct asked; [destruct (answer ext w pergunta) as [response|e]|].
  - rewrite (exibir_historico_spec _ (transcript w ++ [mkChat pergunta response]))
      by (cbn; apply lookup_insert_eq).
    unfold add_page. cbn [session_state environ Settings_embed_model
                            Settings_llm page].
    apply world_eq.
    + rewrite Hs2. apply insert_insert_eq.
    + unfold w1. cbn. now rewrite <- app_assoc.
  - rewrite (exibir_historico_spec _ (transcript w)) by exact Hl.
    rewrite add_page_add_page, app_nil_r. unfold add_page.
    apply world_eq; [exact Hs2|].
    unfold w1. cbn. now rewrite <- app_assoc.
  - rewrite (exibir_historico_spec _ (transcript w)) by exact Hl.
    rewrite app_nil_r. unfold add_page.
    apply world_eq; [exact Hs2|].
    unfold w1. cbn. now rewrite <- app_assoc.
Qed.

Lemma truthy_empty (s : string) : Py.truthy s = false <-> s = "".
Proof. destruct s; simpl; split; congruence. Qed.

Lemma transcript_insert (w : World) (l : list Chat) (ss : gmap string Value) :
  session_state w = <["chat_history" := VList l]> ss -> transcript w = l.
Proof. intros H. apply transcript_eq. rewrite H. apply lookup_insert_eq. Qed.

(** [main] in the chat section, without the reload button. *)
Lemma main_chat_spec (ext : Ext) (inp : Inputs) (w : World) :
  chat_ready w -> recarregar_button inp = false ->
  exists n new report,
    session_state w !! "num_documentos" = Some n
    /\ main ext inp w
       = (Ok tt,
          mkWorld (<["chat_history" := VList (transcript w ++ new)]>
                     (session_state w))
            (environ w) (Settings_embed_model w) (Settings_llm w)
            (page w ++ [st_markdown TxtHeader; st_markdown (TxtCarregados n);
                        st_markdown TxtRule; st_markdown TxtChatContainer]
                    ++ report ++ history_view (transcript w ++ new)))
    /\ (new, report)
       = if enviar_pergunta inp && Py.truthy (Py.strip (pergunta_input inp))
         then match answer ext w (pergunta_input inp) with
              | Returns response => ([mkChat (pergunta_input inp) response], [])
              | Raises e => ([], [st_error (TxtErroPergunta (exn_str e))])
              end
         else ([], []).
Proof.
  intros (Hc & Hp & [n Hn] & Hh) Hb.
  rewrite (main_chat_state ext inp w Hc Hp).
  rewrite (chat_spec ext inp (add_page w [st_markdown TxtHeader]) n Hb Hn Hh).
  change (answer ext (add_page w [st_markdown TxtHeader]) (pergunta_input inp))
    with (answer ext w (pergunta_input inp)).
  change (transcript (add_page w [st_markdown TxtHeader])) with (transcript w).
  do 3 eexists. split; [exact Hn|]. split.
  - apply world_eq; [reflexivity|]. unfold add_page. cbn [page].
    rewrite <- app_assoc. reflexivity.
  - destruct (_ && _); [destruct (answer ext w _)|]; reflexivity.
Qed.

(** C8.  A submitted question that is empty after trimming changes
    nothing: the transcript is as before and the page shows nothing but
    the chat section and the transcript.  A question whose query raises
    is reported as an error and the transcript is as before.  A question
    that is answered adds one entry, question and answer, at the end of
    the transcript. *)
Theorem C8_question (ext : Ext) (inp : Inputs) (w : World) :
  chat_ready w -> recarregar_button inp = false -> enviar_pergunta inp = true ->
  let q := pergunta_input inp in
  let r := main ext inp w in
  fst r = Ok tt
  /\ (Py.strip q = "" ->
      transcript (snd r) = transcript w
      /\ exists n,
          page (snd r)
          = page w ++ [st_markdown TxtHeader; st_markdown (TxtCarregados n);
                       st_markdown TxtRule; st_markdown TxtChatContainer]
                   ++ history_view (transcript w))
  /\ (forall e, Py.strip q <> "" -> answer ext w q = Raises e ->
        transcript (snd r) = transcript w
        /\ length (transcript (snd r)) = length (transcript w)
        /\ In (st_error (TxtErroPergunta (exn_str e))) (page (snd r)))
  /\ (forall a, Py.strip q <> "" -> answer ext w q = Returns a ->
        transcript (snd r) = transcript w ++ [mkChat q a]
        /\ length (transcript (snd r)) = S (length (transcript w))).
Proof.
  intros Hready Hb He q r.
  destruct (main_chat_spec ext inp w Hready Hb)
    as (n & new & report & Hn & Hm & Hnr).
  subst r. rewrite Hm. cbn [fst snd]. rewrite He in Hnr. cbn [andb] in Hnr.
  fold q in Hnr.
  split; [reflexivity|]. split; [|split].
  - intros Hq. rewrite Hq in Hnr. injection Hnr as -> ->.
    rewrite app_nil_r. split.
    + now apply (transcript_insert _ _ (session_state w)).
    + exists n. reflexivity.
  - intros e Hq Ha.
    assert (Py.truthy (Py.strip q) = true) as Ht.
    { destruct (Py.truthy (Py.strip q)) eqn:E; [reflexivity|].
      now apply truthy_empty in E. }
    rewrite Ht, Ha in Hnr. injection Hnr as -> ->. rewrite app_nil_r.
    assert (transcript
              (mkWorld (<["chat_history" := VList (transcript w)]> (session_state w))
                 (environ w) (Settings_embed_model w) (Settings_llm w)
                 (page w ++ [st_markdown TxtHeader; st_markdown (TxtCarregados n);
                             st_markdown TxtRule; st_markdown TxtChatContainer]
                         ++ [st_error (TxtErroPergunta (exn_str e))]
                         ++ history_view (transcript w)))
            = transcript w) as Ht'
      by now apply (transcript_insert _ _ (session_state w)).
    rewrite Ht'. split; [reflexivity|]. split; [reflexivity|].
    cbn [page]. apply in_or_app. right. apply in_or_app. right. now left.
  - intros a Hq Ha.
    assert (Py.truthy (Py.strip q) = true) as Ht.
    { destruct (Py.truthy (Py.strip q)) eqn:E; [reflexivity|].
      now apply truthy_empty in E. }
    rewrite Ht, Ha in Hnr. injection Hnr as -> ->.
    rewrite (transcript_insert _ (transcript w ++ [mkChat q a]) (session_state w))
      by reflexivity.
    split; [reflexivity|]. rewrite length_app. simpl. lia.
Qed.

Lemma chat_world_ready : chat_ready chat_world.
Proof.
  split; [reflexivity|]. split; [reflexivity|]. split; [by eexists|].
  right. by eexists.
Qed.

Lemma C8_question_witness :
  transcript (snd (main demo_ext (question "   ") chat_world))
  = [mkChat "first?" "re: first?"]
  /\ transcript (snd (main demo_ext (question "what?") chat_world))
     = [mkChat "first?" "re: first?"; mkChat "what?" "re: what?"].
Proof.
  destruct (C8_question demo_ext (question "   ") chat_world
              chat_world_ready eq_refl eq_refl) as (_ & H1 & _).
  destruct (C8_question demo_ext (question "what?") chat_world
              chat_world_ready eq_refl eq_refl) as (_ & _ & _ & H2).
  split.
  - apply H1. reflexivity.
  - apply (H2 "re: what?"); [discriminate | reflexivity].
Defined.

(** ** Reload *)

Lemma reset_session_lookup_ne (ss : gmap string Value) (k : string) :
  k <> "documentos_processados" -> k <> "query_engine" ->
  k <> "num_documentos" ->
  reset_session ss !! k = ss !! k.
Proof. intros. unfold reset_session. by simplify_map_eq. Qed.

Lemma loaded_session_lookup_ne (q : QueryEngine) (n : nat)
    (ss : gmap string Value) (k : string) :
  k <> "documentos_processados" -> k <> "query_engine" ->
  k <> "num_documentos" ->
  loaded_session q n ss !! k = ss !! k.
Proof. intros. unfold loaded_session. by simplify_map_eq. Qed.

Lemma reset_session_flag (ss : gmap string Value) :
  reset_session ss !! "documentos_processados" = Some (VBool false).
Proof. unfold reset_session. by simplify_map_eq. Qed.

Lemma loaded_session_flag (q : QueryEngine) (n : nat) (ss : gmap string Value) :
  loaded_session q n ss !! "documentos_processados" = Some (VBool true).
Proof. unfold loaded_session. by simplify_map_eq. Qed.

Lemma loaded_session_count (q : QueryEngine) (n : nat) (ss : gmap string Value) :
  loaded_session q n ss !! "num_documentos" = Some (VInt n).
Proof. unfold loaded_session. by simplify_map_eq. Qed.

Lemma in_history_view (l : list Chat) (c : Chat) :
  In c l -> exists i, In (expander_of (i, c)) (history_view l).
Proof.
  intros Hin. destruct (enumerate_In (rev l) c 0) as [i Hi].
  { now apply in_rev in Hin. }
  exists i. destruct l as [|c0 l]; [destruct Hin|].
  unfold history_view. apply in_or_app. right.
  apply in_map_iff. exists (i, c). split; [reflexivity | exact Hi].
Qed.

(** C10.  The reload button resets the processing flag, the engine and
    the document count and leaves every other key of the session state,
    the transcript among them, as it was.  After the next upload that is
    indexed, the transcript is still the one accumulated before the
    reload, and the chat section's next run shows each of its entries,
    with what that run adds, latest first. *)
Theorem C10_reload_keeps_transcript (ext1 ext2 ext3 : Ext)
    (inp1 inp2 inp3 : Inputs) (w0 : World) (l : list Chat) :
  configured w0 = true -> processed w0 = true ->
  is_Some (session_state w0 !! "num_documentos") ->
  session_state w0 !! "chat_history" = Some (VList l) ->
  recarregar_button inp1 = true ->
  let w1 := snd (run ext1 inp1 w0) in
  fst (run ext2 inp2 w1) = Rerun ->
  let w2 := snd (run ext2 inp2 w1) in
  recarregar_button inp3 = false ->
  let r3 := run ext3 inp3 w2 in
  fst (run ext1 inp1 w0) = Rerun
  /\ session_state w1 = reset_session (session_state w0)
  /\ (forall k, k <> "documentos_processados" -> k <> "query_engine" ->
        k <> "num_documentos" ->
        session_state w1 !! k = session_state w0 !! k)
  /\ transcript w1 = l /\ processed w1 = false
  /\ transcript w2 = l /\ processed w2 = true
  /\ fst r3 = Ok tt
  /\ exists new,
      transcript (snd r3) = l ++ new
      /\ (exists pre, page (snd r3) = pre ++ history_view (l ++ new))
      /\ forall c, In c l -> exists i, In (expander_of (i, c)) (page (snd r3)).
Proof.
  intros Hc Hp [n Hn] Hh Hb1 w1 Hre w2 Hb3 r3.
  (* the reload *)
  assert (run ext1 inp1 w0
          = (Rerun,
             mkWorld (reset_session (session_state w0)) (environ w0)
               (Settings_embed_model w0) (Settings_llm w0)
               [st_markdown TxtHeader; st_markdown (TxtCarregados n)])) as H1.
  { unfold run. rewrite (main_chat_state ext1 inp1 (clear_page w0) Hc Hp).
    now rewrite (chat_reload ext1 inp1
                   (add_page (clear_page w0) [st_markdown TxtHeader]) n Hb1 Hn). }
  assert (session_state w1 = reset_session (session_state w0)) as Hs1
    by (subst w1; now rewrite H1).
  assert (session_state w1 !! "chat_history" = Some (VList l)) as Hh1
    by (rewrite Hs1, reset_session_lookup_ne by discriminate; exact Hh).
  assert (configured (clear_page w1) = true) as Hc1.
  { unfold configured in *. cbn. rewrite Hs1.
    now rewrite reset_session_lookup_ne by discriminate. }
  assert (processed (clear_page w1) = false) as Hp1
    by (unfold processed; cbn; now rewrite Hs1, reset_session_flag).
  (* the upload *)
  assert (exists q m, session_state w2 = loaded_session q m (session_state w1))
    as (q & m & Hs2).
  { subst w2. unfold run in *.
    rewrite (main_upload_state ext2 inp2 (clear_page w1) Hc1 Hp1) in *.
    destruct (uploaded_file inp2) as [bytes|]; [|discriminate Hre].
    destruct (upload_cases ext2 bytes
                (mkWorld (init_session (session_state (clear_page w1)))
                   (environ (clear_page w1))
                   (Settings_embed_model (clear_page w1))
                   (Settings_llm (clear_page w1))
                   (page (clear_page w1)
                    ++ [st_markdown TxtHeader; st_markdown TxtUploadSection])))
      as [(_ & q & m & Hs)|(Hne & _)]; [|contradiction].
    exists q, m. rewrite Hs. cbn. unfold init_session.
    now rewrite Hs1, reset_session_flag. }
  assert (session_state w2 !! "chat_history" = Some (VList l)) as Hh2
    by (rewrite Hs2, loaded_session_lookup_ne by discriminate; exact Hh1).
  assert (chat_ready (clear_page w2)) as Hready.
  { unfold chat_ready, configured, processed in *. cbn. rewrite Hs2.
    rewrite loaded_session_flag, loaded_session_count.
    split; [|split; [reflexivity|split; [by eexists|]]].
    - rewrite loaded_session_lookup_ne by discriminate. exact Hc1.
    - right. exists l. rewrite <- Hh2, Hs2. reflexivity. }
  (* the next run of the chat section *)
  destruct (main_chat_spec ext3 inp3 (clear_page w2) Hready Hb3)
    as (n3 & new & report & _ & Hm & _).
  assert (transcript (clear_page w2) = l) as Ht2 by now apply transcript_eq.
  rewrite Ht2 in Hm.
  split; [now rewrite H1|]. split; [exact Hs1|].
  split; [intros k ? ? ?; rewrite Hs1; now apply reset_session_lookup_ne|].
  split; [now apply transcript_eq|].
  split; [unfold processed; now rewrite Hs1, reset_session_flag|].
  split; [now apply transcript_eq|].
  split; [unfold processed; now rewrite Hs2, loaded_session_flag|].
  subst r3. unfold run. rewrite Hm. cbn [fst snd].
  split; [reflexivity|]. exists new.
  split; [now apply (transcript_insert _ _ (session_state (clear_page w2)))|].
  cbn [page clear_page]. split.
  - eexists. rewrite app_nil_l, !app_assoc. reflexivity.
  - intros c Hin. destruct (in_history_view (l ++ new) c) as [i Hi].
    { apply in_or_app. now left. }
    exists i. rewrite !app_assoc. apply in_or_app. now right.
Qed.

Lemma C10_reload_keeps_transcript_witness :
  let w1 := snd (run demo_ext reload chat_world) in
  let w2 := snd (run demo_ext (upload_of "PK") w1) in
  let r3 := run demo_ext (question "again?") w2 in
  transcript w1 = [mkChat "first?" "re: first?"]
  /\ processed w1 = false
  /\ transcript w2 = [mkChat "first?" "re: first?"]
  /\ processed w2 = true
  /\ exists i,
      In (expander_of (i, mkChat "first?" "re: first?")) (page (snd r3)).
Proof.
  destruct (C10_reload_keeps_transcript demo_ext demo_ext demo_ext
              reload (upload_of "PK") (question "again?") chat_world
              [mkChat "first?" "re: first?"])
    as (_ & _ & _ & H4 & H5 & H6 & H7 & _ & new & _ & _ & H10);
    try reflexivity.
  - by eexists.
  - cbv zeta. split; [exact H4|]. split; [exact H5|]. split; [exact H6|].
    split; [exact H7|]. apply H10. now left.
Defined.

(** * Further properties of the script *)

(** ** Proof rules for frames *)

Section Frames.

Variable R : World -> World -> Prop.
Hypothesis R_refl : forall w, R w w.
Hypothesis R_trans : forall w1 w2 w3, R w1 w2 -> R w2 w3 -> R w1 w3.
Hypothesis R_page : forall w l, R w (add_page w l).

Lemma respects_ret {A} (a : A) : respects R (mret a).
Proof. intros w. apply R_refl. Qed.

Lemma respects_pass : respects R pass.
Proof. intros w. apply R_refl. Qed.

Lemma respects_raise {A} (e : Exn) : respects R (raise e : M A).
Proof. intros w. apply R_refl. Qed.

Lemma respects_rerun : respects R st_rerun.
Proof. intros w. apply R_refl. Qed.

Lemma respects_call {A} (o : Outcome A) : respects R (call o).
Proof. destruct o; intros w; apply R_refl. Qed.

Lemma respects_call_raises (o : option Exn) : respects R (call_raises o).
Proof. destruct o; intros w; apply R_refl. Qed.

Lemma respects_read {A} (f : World -> A) : respects R (read f).
Proof. intros w. apply R_refl. Qed.

Lemma respects_has_key (k : string) : respects R (has_key k).
Proof. intros w. apply R_refl. Qed.

Lemma respects_getattr (k : string) : respects R (getattr k).
Proof.
  intros w. unfold getattr. destruct (session_state w !! k); apply R_refl.
Qed.

Lemma respects_show (u : UI) : respects R (show u).
Proof. intros w. apply (R_page w [u]). Qed.

Lemma respects_bind {A B} (m : M A) (f : A -> M B) :
  respects R m -> (forall a, respects R (f a)) -> respects R (m ≫= f).
Proof.
  intros Hm Hf w. unfold mbind, M_bind. specialize (Hm w).
  destruct (m w) as [[a|e|] w']; cbn [snd] in *; [|exact Hm|exact Hm].
  apply (R_trans _ _ _ Hm). apply Hf.
Qed.

Lemma respects_try {A} (body : M A) (handler : Exn -> M A) :
  respects R body -> (forall e, respects R (handler e)) ->
  respects R (try_except body handler).
Proof.
  intros Hb Hh w. unfold try_except. specialize (Hb w).
  destruct (body w) as [[a|e|] w']; cbn [snd] in *; [exact Hb| |exact Hb].
  apply (R_trans _ _ _ Hb). apply Hh.
Qed.

Lemma respects_for_each {A B} (l : list A) (body : B -> A -> M B) (acc : B) :
  (forall b x, respects R (body b x)) -> respects R (for_each l body acc).
Proof.
  intros Hb. revert acc. induction l as [|x l IH]; intros acc; cbn [for_each].
  - apply respects_ret.
  - apply respects_bind; [apply Hb | exact IH].
Qed.

End Frames.

(** One step of a frame proof: a rule for the head of the computation,
    or a case split on what it branches on. *)
Ltac frame_step :=
  first
    [ match goal with
      | H : context [respects] |- respects _ _ => solve [apply H; assumption]
      end
    | progress cbv zeta
    | apply respects_ret | apply respects_pass | apply respects_raise
    | apply respects_rerun | apply respects_call | apply respects_call_raises
    | apply respects_read | apply respects_has_key | apply respects_getattr
    | apply respects_show
    | apply respects_bind; [| |intros ?]
    | apply respects_try; [| |intros ?]
    | apply respects_for_each; [| |intros ? ?]
    | match goal with
      | |- respects _ (if ?b then _ else _) => destruct b
      | |- respects _ (match ?x with _ => _ end) => destruct x
      | |- respects _ (let '(_, _) := ?x in _) => destruct x
      end ];
  try assumption.

(** ** What the script leaves alone *)

Lemma keeps_refl (k : string) (w : World) : keeps k w w.
Proof. reflexivity. Qed.

Lemma keeps_trans (k : string) (w1 w2 w3 : World) :
  keeps k w1 w2 -> keeps k w2 w3 -> keeps k w1 w3.
Proof. unfold keeps. congruence. Qed.

Lemma keeps_page (k : string) (w : World) (l : list UI) :
  keeps k w (add_page w l).
Proof. reflexivity. Qed.

Lemma same_process_refl (w : World) : same_process w w.
Proof. repeat split. Qed.

Lemma same_process_trans (w1 w2 w3 : World) :
  same_process w1 w2 -> same_process w2 w3 -> same_process w1 w3.
Proof. unfold same_process. intuition congruence. Qed.

Lemma same_process_page (w : World) (l : list UI) :
  same_process w (add_page w l).
Proof. repeat split. Qed.

Lemma keeps_setattr (k k' : string) (v : Value) :
  k <> k' -> respects (keeps k) (setattr k' v).
Proof. intros Hne w. unfold keeps. cbn. now apply lookup_insert_ne. Qed.

Lemma keeps_setenv (k k' v : string) : respects (keeps k) (setenv k' v).
Proof. intros w. unfold setenv. destruct (putenv_error k' v); reflexivity. Qed.

Lemma keeps_set_embed_model (k : string) (m : EmbedModel) :
  respects (keeps k) (set_embed_model m).
Proof. intros w. reflexivity. Qed.

Lemma keeps_set_llm (k : string) (l : LLM) : respects (keeps k) (set_llm l).
Proof. intros w. reflexivity. Qed.

Lemma same_process_setattr (k : string) (v : Value) :
  respects same_process (setattr k v).
Proof. intros w. repeat split. Qed.

(** Frame proofs for one session key, and for the process-wide state. *)
Ltac keeps_frame k :=
  pose proof (keeps_refl k); pose proof (keeps_trans k);
  pose proof (keeps_page k);
  repeat first
    [ frame_step
    | apply keeps_setattr; congruence
    | apply keeps_setenv | apply keeps_set_embed_model | apply keeps_set_llm ].

Ltac process_frame :=
  pose proof same_process_refl; pose proof same_process_trans;
  pose proof same_process_page;
  repeat first [ frame_step | apply same_process_setattr ].

Lemma processar_pptx_keeps (ext : Ext) (k caminho : string) :
  respects (keeps k) (processar_pptx ext caminho).
Proof. unfold processar_pptx. keeps_frame k. Qed.

Lemma processar_pptx_process (ext : Ext) (caminho : string) :
  respects same_process (processar_pptx ext caminho).
Proof. unfold processar_pptx. process_frame. Qed.

Lemma processar_documentos_keeps (ext : Ext) (k pasta_temp : string) :
  respects (keeps k) (processar_documentos ext pasta_temp).
Proof.
  pose proof (processar_pptx_keeps ext k).
  unfold processar_documentos, arquivo_step. keeps_frame k.
Qed.

Lemma processar_documentos_process (ext : Ext) (pasta_temp : string) :
  respects same_process (processar_documentos ext pasta_temp).
Proof.
  pose proof (processar_pptx_process ext).
  unfold processar_documentos, arquivo_step. process_frame.
Qed.

Lemma criar_indice_keeps (ext : Ext) (k : string) (documentos : list Document) :
  respects (keeps k) (criar_indice ext documentos).
Proof. unfold criar_indice. keeps_frame k. Qed.

Lemma criar_indice_process (ext : Ext) (documentos : list Document) :
  respects same_process (criar_indice ext documentos).
Proof. unfold criar_indice. process_frame. Qed.

Lemma upload_keeps (ext : Ext) (k bytes : string) :
  k <> "documentos_processados" -> k <> "query_engine" ->
  k <> "num_documentos" ->
  respects (keeps k) (upload ext bytes).
Proof.
  intros H1 H2 H3.
  pose proof (processar_documentos_keeps ext k).
  pose proof (criar_indice_keeps ext k).
  unfold upload. keeps_frame k.
Qed.

Lemma upload_process (ext : Ext) (bytes : string) :
  respects same_process (upload ext bytes).
Proof.
  pose proof (processar_documentos_process ext).
  pose proof (criar_indice_process ext).
  unfold upload. process_frame.
Qed.

Lemma chat_keeps (ext : Ext) (inp : Inputs) (k : string) :
  k <> "documentos_processados" -> k <> "query_engine" ->
  k <> "num_documentos" -> k <> "chat_history" ->
  respects (keeps k) (chat ext inp).
Proof.
  intros H1 H2 H3 H4.
  unfold chat, perguntar, exibir_historico, chat_step. keeps_frame k.
Qed.

Lemma chat_process (ext : Ext) (inp : Inputs) :
  respects same_process (chat ext inp).
Proof. unfold chat, perguntar, exibir_historico, chat_step. process_frame. Qed.

Lemma configurar_sistema_keeps (ext : Ext) (k : string) :
  respects (keeps k) (configurar_sistema ext).
Proof. unfold configurar_sistema. keeps_frame k. Qed.

Lemma modal_api_key_keeps (ext : Ext) (inp : Inputs) (k : string) :
  k <> "api_key_configured" ->
  respects (keeps k) (modal_api_key ext inp).
Proof.
  intros H1. pose proof (configurar_sistema_keeps ext k).
  unfold modal_api_key. keeps_frame k.
Qed.

(** ** The gate, once more *)

(** The gate when the button is not pressed: the form is shown. *)
Lemma modal_idle (ext : Ext) (inp : Inputs) (w : World) :
  config_button inp = false -> configured w = false ->
  modal_api_key ext inp w
  = (Ok false,
     mkWorld (with_default "api_key_configured" (VBool false) (session_state w))
       (environ w) (Settings_embed_model w) (Settings_llm w)
       (page w ++ [st_markdown TxtConfiguracaoInicial; st_info TxtInsiraApiKey])).
Proof.
  intros Hb Hc. unfold modal_api_key, configured, with_default in *.
  unfold_script. rewrite Hb. cbn.
  destruct (session_state w !! "api_key_configured") as [v|] eqn:E; cbn.
  - rewrite E, Hc. cbn. now rewrite <- !app_assoc.
  - rewrite lookup_insert_eq. cbn. now rewrite <- !app_assoc.
Qed.

(** The gate reads the key field and its button, nothing else. *)
Lemma modal_inputs (ext : Ext) (inp inp' : Inputs) :
  api_key_input inp' = api_key_input inp ->
  config_button inp' = config_button inp ->
  modal_api_key ext inp' = modal_api_key ext inp.
Proof. intros H1 H2. unfold modal_api_key. now rewrite H1, H2. Qed.

(** How the gate ends before configuration: it returns [False], it
    reruns the script after a key was accepted, or the key could not be
    stored and the assignment raised. *)
Lemma modal_unconfigured (ext : Ext) (inp : Inputs) (w : World) :
  configured w = false ->
  let r := modal_api_key ext inp w in
  (fst r = Ok false
   /\ session_state (snd r)
      = with_default "api_key_configured" (VBool false) (session_state w)
   /\ (environ (snd r) = environ w
       \/ (config_button inp = true
           /\ Py.startswith (api_key_input inp) "sk-" = true
           /\ environ (snd r)
              = <["OPENAI_API_KEY" := api_key_input inp]> (environ w))))
  \/ (fst r = Rerun
      /\ session_state (snd r)
         = <["api_key_configured" := VBool true]>
             (with_default "api_key_configured" (VBool false) (session_state w))
      /\ config_button inp = true
      /\ Py.startswith (api_key_input inp) "sk-" = true
      /\ environ (snd r)
         = <["OPENAI_API_KEY" := api_key_input inp]> (environ w))
  \/ (fst r = Raise embedded_null_byte
      /\ session_state (snd r)
         = with_default "api_key_configured" (VBool false) (session_state w)
      /\ config_button inp = true
      /\ Py.startswith (api_key_input inp) "sk-" = true
      /\ has_nul (api_key_input inp) = true
      /\ environ (snd r) = environ w).
Proof.
  intros Hc r. subst r.
  destruct (config_button inp) eqn:Hb;
    [|rewrite (modal_idle ext inp w Hb Hc); left; cbn; auto].
  destruct (Py.truthy (api_key_input inp) && Py.startswith (api_key_input inp) "sk-")
    eqn:Hk; [|rewrite (modal_rejected ext inp w Hb Hc Hk); left; cbn; auto].
  pose proof Hk as [_ Hs]%accepted_iff.
  destruct (has_nul (api_key_input inp)) eqn:Hn.
  { rewrite (modal_unstorable ext inp w Hb Hc Hk Hn). right. right. cbn. auto 6. }
  rewrite (modal_accepted ext inp w Hb Hc Hk Hn).
  set (w1 := mkWorld _ _ _ _ _).
  destruct (backend_ok ext (environ w1)) eqn:Hok.
  - destruct (configurar_sistema_ok ext w1 Hok) as (w2 & -> & Hs2 & He & _).
    right. left. cbn. rewrite Hs2, He. auto.
  - destruct (configurar_sistema_fails ext w1 Hok) as (w2 & e & -> & Hs2 & He & _).
    left. cbn. rewrite Hs2, He. auto 6.
Qed.

(** Before configuration [main] is the gate alone. *)
Lemma main_unconfigured (ext : Ext) (inp : Inputs) (w : World) :
  configured w = false ->
  main ext inp w
  = (match fst (modal_api_key ext inp w) with
     | Ok _ => Ok tt
     | Raise e => Raise e
     | Rerun => Rerun
     end,
     snd (modal_api_key ext inp w)).
Proof.
  intros Hc. unfold main. unfold mbind at 1. unfold M_bind at 1.
  destruct (modal_unconfigured ext inp w Hc) as [(H & _)|[(H & _)|(H & _)]];
    destruct (modal_api_key ext inp w) as [r w']; cbn [fst snd] in *;
    subst r; reflexivity.
Qed.

(** X2.  Before a credential is configured nothing but the gate runs:
    the chosen file, the reload button and the question have no effect
    on the run.  The run returns or reruns, or it raises the
    [ValueError] of the environment: that is when the button is pressed
    on a key that starts with ["sk-"] and holds a character of code 0.
    The session stays as processed as it was, with its transcript. *)
Theorem X2_gate_blocks_the_page (ext : Ext) (inp inp' : Inputs) (w : World) :
  configured w = false ->
  api_key_input inp' = api_key_input inp ->
  config_button inp' = config_button inp ->
  main ext inp' w = main ext inp w
  /\ snd (main ext inp w) = snd (modal_api_key ext inp w)
  /\ (fst (main ext inp w) = Ok tt \/ fst (main ext inp w) = Rerun
      \/ (fst (main ext inp w) = Raise embedded_null_byte
          /\ config_button inp = true
          /\ Py.startswith (api_key_input inp) "sk-" = true
          /\ has_nul (api_key_input inp) = true))
  /\ (config_button inp = true ->
      Py.startswith (api_key_input inp) "sk-" = true ->
      has_nul (api_key_input inp) = true ->
      fst (main ext inp w) = Raise embedded_null_byte
      /\ environ (snd (main ext inp w)) = environ w
      /\ configured (snd (main ext inp w)) = false)
  /\ processed (snd (main ext inp w)) = processed w
  /\ transcript (snd (main ext inp w)) = transcript w.
Proof.
  intros Hc H1 H2.
  rewrite !(main_unconfigured _ _ _ Hc), (modal_inputs ext inp inp' H1 H2).
  cbn [fst snd]. split; [reflexivity|]. split; [reflexivity|]. split.
  { destruct (modal_unconfigured ext inp w Hc)
      as [(-> & _)|[(-> & _)|(-> & _ & Hb & Hs & Hn & _)]]; auto 6. }
  split.
  { intros Hb Hs Hn.
    assert (Py.truthy (api_key_input inp)
            && Py.startswith (api_key_input inp) "sk-" = true) as Hk.
    { apply accepted_iff. split; [|exact Hs].
      now apply (startswith_nonempty _ "sk-"). }
    rewrite (modal_unstorable ext inp w Hb Hc Hk Hn). cbn.
    split; [reflexivity|]. split; [reflexivity|].
    unfold configured. cbn. rewrite with_default_lookup.
    rewrite configured_default in Hc. exact Hc. }
  split.
  - unfold processed.
    now rewrite (modal_api_key_keeps ext inp "documentos_processados").
  - unfold transcript. now rewrite (modal_api_key_keeps ext inp "chat_history").
Qed.

Lemma X2_gate_blocks_the_page_witness :
  main demo_ext (mkInputs "abc123" true (Some "PK") true "what?" true) fresh_world
  = main demo_ext (credential "abc123") fresh_world
  /\ fst (main demo_ext (credential "abc123") fresh_world) = Ok tt
  /\ fst (main demo_ext (credential nul_key) fresh_world)
     = Raise embedded_null_byte
  /\ environ (snd (main demo_ext (credential nul_key) fresh_world)) = ∅.
Proof.
  destruct (X2_gate_blocks_the_page demo_ext (credential "abc123")
              (mkInputs "abc123" true (Some "PK") true "what?" true)
              fresh_world eq_refl eq_refl eq_refl) as (H1 & _ & H3 & _).
  destruct (X2_gate_blocks_the_page demo_ext (credential nul_key)
              (credential nul_key) fresh_world eq_refl eq_refl eq_refl)
    as (_ & _ & _ & H4 & _).
  destruct (H4 eq_refl eq_refl eq_refl) as (H5 & H6 & _).
  split; [exact H1|]. split; [|split; [exact H5 | exact H6]].
  destruct H3 as [H|[H|(H & _)]]; [exact H | discriminate H | discriminate H].
Defined.

Lemma bind_ok {A B} (m : M A) (f : A -> M B) (w : World) (a : A) :
  m w = (Ok a, w) -> (m ≫= f) w = f a w.
Proof. intros H. unfold mbind, M_bind. now rewrite H. Qed.

(** Once configured, the run leaves the flag and the process-wide
    state alone. *)
Lemma main_configured_frame (ext : Ext) (inp : Inputs) (w : World) :
  configured w = true ->
  keeps "api_key_configured" w (snd (main ext inp w))
  /\ same_process w (snd (main ext inp w)).
Proof.
  intros Hc. unfold main.
  rewrite !(bind_ok _ _ _ _ (modal_configured ext inp w Hc)). cbn [negb].
  match goal with
  | |- keeps _ _ (snd (?m w)) /\ _ =>
      assert (respects (keeps "api_key_configured") m
              /\ respects same_process m) as [Hk Hp]; [|split; [apply Hk | apply Hp]]
  end.
  split.
  - assert (forall bytes,
               respects (keeps "api_key_configured") (upload ext bytes))
      by (intros; apply upload_keeps; discriminate).
    assert (respects (keeps "api_key_configured") (chat ext inp))
      by (apply chat_keeps; discriminate).
    keeps_frame "api_key_configured".
  - pose proof (upload_process ext). pose proof (chat_process ext inp).
    process_frame.
Qed.

(** X3.  CONFIGURED is final: a run that starts configured ends
    configured, with the environment and the library settings as they
    were, whatever the inputs and however the run ends. *)
Theorem X3_configured_is_final (ext : Ext) (inp : Inputs) (w : World) :
  configured w = true ->
  configured (snd (main ext inp w)) = true
  /\ environ (snd (main ext inp w)) = environ w
  /\ Settings_embed_model (snd (main ext inp w)) = Settings_embed_model w
  /\ Settings_llm (snd (main ext inp w)) = Settings_llm w.
Proof.
  intros Hc. destruct (main_configured_frame ext inp w Hc) as [Hk Hp].
  split; [|exact Hp]. unfold configured in *. now rewrite Hk.
Qed.

Lemma X3_configured_is_final_witness :
  configured (snd (main demo_ext reload chat_world)) = true
  /\ environ (snd (main demo_ext reload chat_world)) = environ chat_world.
Proof.
  destruct (X3_configured_is_final demo_ext reload chat_world eq_refl)
    as (H1 & H2 & _).
  split; assumption.
Defined.

(** X4.  The environment changes in one way only: a run in state
    UNCONFIGURED with the button pressed sets [OPENAI_API_KEY] to the key
    typed, and that key starts with ["sk-"].  Every other run leaves the
    environment as it was. *)
Theorem X4_environment_writes (ext : Ext) (inp : Inputs) (w : World) :
  environ (snd (main ext inp w)) = environ w
  \/ (configured w = false
      /\ config_button inp = true
      /\ Py.startswith (api_key_input inp) "sk-" = true
      /\ environ (snd (main ext inp w))
         = <["OPENAI_API_KEY" := api_key_input inp]> (environ w)).
Proof.
  destruct (configured w) eqn:Hc.
  - left. apply (main_configured_frame ext inp w Hc).
  - rewrite (main_unconfigured ext inp w Hc). cbn [snd].
    destruct (modal_unconfigured ext inp w Hc)
      as [(_ & _ & [He|(Hb & Hs & He)])
         |[(_ & _ & Hb & Hs & He)|(_ & _ & _ & _ & _ & He)]]; auto.
Qed.

(** ** The upload cycle *)

Lemma processar_documentos_raises (ext : Ext) (pasta_temp : string) (e : Exn)
    (w : World) :
  os_listdir ext pasta_temp = Raises e ->
  processar_documentos ext pasta_temp w = (Raise e, w).
Proof.
  intros H. unfold processar_documentos. unfold_script. now rewrite H.
Qed.

Lemma index_ok_spec (ext : Ext) (documentos : list Document) (w : World) :
  criar_indice ext documentos w
  = if index_ok ext documentos w then (Ok (Some (engine_over ext documentos)), w)
    else match from_documents_raises ext documentos
                 (mkSplitter 3000 600 (NL +:+ NL)) (Settings_embed_model w) with
         | Some e =>
             (Ok None, add_page w [st_error (TxtErroCriarIndice (exn_str e))])
         | None =>
             match as_query_engine_raises ext (engine_over ext documentos) with
             | Some e =>
                 (Ok None, add_page w [st_error (TxtErroCriarIndice (exn_str e))])
             | None => (Ok None, w)
             end
         end.
Proof.
  rewrite criar_indice_spec. unfold index_ok. fold (engine_over ext documentos).
  destruct (from_documents_raises ext _ _ _); [reflexivity|].
  now destruct (as_query_engine_raises ext _).
Qed.


(** The world the upload section starts from. *)
Lemma main_upload (ext : Ext) (inp : Inputs) (bytes : string) (w : World) :
  configured w = true -> processed w = false ->
  uploaded_file inp = Some bytes ->
  main ext inp w
  = upload ext bytes
      (mkWorld (init_session (session_state w)) (environ w)
         (Settings_embed_model w) (Settings_llm w)
         (page w ++ [st_markdown TxtHeader; st_markdown TxtUploadSection])).
Proof.
  intros Hc Hp Hu. now rewrite (main_upload_state ext inp w Hc Hp), Hu.
Qed.

Lemma processed_init (w w' : World) :
  processed w = false ->
  session_state w' = init_session (session_state w) ->
  processed w' = false.
Proof.
  intros Hp Hs. unfold processed. rewrite Hs, init_session_lookup.
  rewrite processed_default in Hp. exact Hp.
Qed.

(** X5.  An upload whose files yield Documents and whose index can be
    built ends in a rerun with the session "processed": the engine
    stored is the one built over exactly the Documents extracted, in the
    order of the directory listing, and the count stored and shown is
    the number of Documents, not of files. *)
Theorem X5_upload_stores_engine (ext : Ext) (inp : Inputs) (bytes : string)
    (entries : list string) (w : World) :
  configured w = true -> processed w = false ->
  uploaded_file inp = Some bytes ->
  let temp_dir := TemporaryDirectory ext in
  let extract_dir := Path.join temp_dir "extracted" in
  let docs :=
    flat_map (extraction ext extract_dir) (List.filter recognized entries) in
  extractall_raises ext bytes (Path.join temp_dir "upload.zip") extract_dir = None ->
  os_listdir ext extract_dir = Returns entries ->
  docs <> [] ->
  index_ok ext docs w = true ->
  fst (main ext inp w) = Rerun
  /\ session_state (snd (main ext inp w))
     = loaded_session (engine_over ext docs) (length docs)
         (init_session (session_state w))
  /\ processed (snd (main ext inp w)) = true
  /\ last (page (snd (main ext inp w)))
     = Some (st_markdown (TxtProcessadosComSucesso (length docs))).
Proof.
  intros Hc Hp Hu temp_dir extract_dir docs Hz Hl Hd Hi.
  rewrite (main_upload ext inp bytes w Hc Hp Hu), upload_spec.
  fold temp_dir. fold extract_dir. rewrite Hz.
  assert (List.filter recognized entries <> []) as Hf.
  { intros E. apply Hd. subst docs. now rewrite E. }
  rewrite (processar_documentos_files ext extract_dir entries _ Hl Hf).
  fold docs. destruct docs as [|d docs'] eqn:Ed; [contradiction|].
  rewrite <- Ed in *. rewrite index_ok_spec.
  change (index_ok ext docs (add_page _ _)) with (index_ok ext docs w).
  rewrite Hi. rewrite Ed at 1. rewrite <- Ed. cbn [fst snd].
  split; [reflexivity|]. split; [reflexivity|]. split.
  - unfold processed. cbn. now rewrite loaded_session_flag.
  - cbn. now rewrite last_snoc.
Qed.

Lemma X5_upload_stores_engine_witness :
  let docs :=
    flat_map (extraction demo_ext "/tmp/t/extracted")
      ["a.PPTX"; "bad.pptx"; "n.txt"; "c.md"] in
  fst (main demo_ext (upload_of "PK") configured_world) = Rerun
  /\ session_state (snd (main demo_ext (upload_of "PK") configured_world))
       !! "num_documentos"
     = Some (VInt 2)
  /\ session_state (snd (main demo_ext (upload_of "PK") configured_world))
       !! "query_engine"
     = Some (VEngine (engine_over demo_ext docs)).
Proof.
  destruct (X5_upload_stores_engine demo_ext (upload_of "PK") "PK"
              ["a.PPTX"; "bad.pptx"; "n.txt"; "x.exe"; ".pdf"; "c.md"]
              configured_world eq_refl eq_refl eq_refl eq_refl eq_refl)
    as (H1 & H2 & _).
  - discriminate.
  - reflexivity.
  - cbv zeta. split; [exact H1|]. rewrite H2. split; reflexivity.
Defined.


Lemma dispatch_log_no_index_error (ext : Ext) (pasta_temp : string)
    (arquivos : list string) (e : string) :
  ~ In (st_error (TxtErroCriarIndice e)) (dispatch_log ext pasta_temp arquivos).
Proof.
  unfold dispatch_log. rewrite !in_app_iff, in_flat_map.
  intros [Hin|[((i & X) & _ & Hin)|Hin]].
  - cbn in Hin. intuition discriminate.
  - unfold file_log, failure_message in Hin.
    destruct (extraction_raises ext pasta_temp X);
      [destruct (String.eqb _ ".pptx")|]; cbn in Hin; intuition discriminate.
  - cbn in Hin. intuition discriminate.
Qed.

(** X7.  When no Document survives extraction (every file taken failed,
    or the loader returned nothing), the upload section says that no
    valid document was found and returns; the index builder is not
    called and the session is not processed, however many files the
    dispatcher counted. *)
Theorem X7_no_document_survives (ext : Ext) (inp : Inputs) (bytes : string)
    (entries : list string) (w : World) :
  configured w = true -> processed w = false ->
  uploaded_file inp = Some bytes ->
  let temp_dir := TemporaryDirectory ext in
  let extract_dir := Path.join temp_dir "extracted" in
  extractall_raises ext bytes (Path.join temp_dir "upload.zip") extract_dir = None ->
  os_listdir ext extract_dir = Returns entries ->
  flat_map (extraction ext extract_dir) (List.filter recognized entries) = [] ->
  fst (processar_documentos ext extract_dir w)
  = Ok ([], length (List.filter recognized entries))
  /\ fst (main ext inp w) = Ok tt
  /\ session_state (snd (main ext inp w)) = init_session (session_state w)
  /\ processed (snd (main ext inp w)) = false
  /\ last (page (snd (main ext inp w))) = Some (st_markdown TxtNenhumDocumento)
  /\ forall e, ~ In (st_error (TxtErroCriarIndice e)) 
                  (drop (length (page w)) (page (snd (main ext inp w)))).
Proof.
  intros Hc Hp Hu temp_dir extract_dir Hz Hl Hd.
  rewrite (main_upload ext inp bytes w Hc Hp Hu), upload_spec.
  fold temp_dir. fold extract_dir. rewrite Hz.
  rewrite !(processar_documentos_spec ext extract_dir entries _ Hl).
  destruct (List.filter recognized entries) as [|a l] eqn:Ef.
  - cbn [fst snd]. split; [reflexivity|]. split; [reflexivity|].
    split; [reflexivity|]. split.
    { now apply (processed_init w). }
    split.
    { unfold add_page. cbn [page]. now rewrite last_snoc. }
    intros e. unfold add_page. cbn [page]. rewrite <- app_assoc.
    rewrite drop_app_length. cbn. intuition discriminate.
  - cbv zeta. rewrite Hd. cbn [fst snd].
    split; [reflexivity|]. split; [reflexivity|].
    split; [reflexivity|]. split.
    { now apply (processed_init w). }
    split.
    { unfold add_page. cbn [page]. now rewrite last_snoc. }
    intros e. unfold add_page. cbn [page]. rewrite <- !app_assoc.
    rewrite drop_app_length. rewrite !in_app_iff.
    intros [Hin|[Hin|Hin]];
      [| now apply dispatch_log_no_index_error in Hin |];
      cbn in Hin; intuition discriminate.
Qed.


Lemma X7_no_document_survives_witness :
  fst (processar_documentos broken_pptx_ext "/tmp/t/extracted" configured_world)
  = Ok ([], 1)
  /\ fst (main broken_pptx_ext (upload_of "PK") configured_world) = Ok tt
  /\ processed (snd (main broken_pptx_ext (upload_of "PK") configured_world))
     = false.
Proof.
  destruct (X7_no_document_survives broken_pptx_ext (upload_of "PK") "PK"
              ["x.pptx"] configured_world
              eq_refl eq_refl eq_refl eq_refl eq_refl eq_refl)
    as (H1 & H2 & _ & H4 & _).
  split; [exact H1|]. split; assumption.
Defined.

(** X8.  An archive that cannot be extracted, or an extracted directory
    that cannot be listed, ends the run with that exception: nothing
    catches it.  The session is as before the upload and the page shows
    the header and the upload section only. *)
Theorem X8_archive_error_propagates (ext : Ext) (inp : Inputs) (bytes : string)
    (e : Exn) (w : World) :
  configured w = true -> processed w = false ->
  uploaded_file inp = Some bytes ->
  let temp_dir := TemporaryDirectory ext in
  let extract_dir := Path.join temp_dir "extracted" in
  let zip := extractall_raises ext bytes (Path.join temp_dir "upload.zip")
               extract_dir in
  zip = Some e \/ (zip = None /\ os_listdir ext extract_dir = Raises e) ->
  fst (main ext inp w) = Raise e
  /\ session_state (snd (main ext inp w)) = init_session (session_state w)
  /\ processed (snd (main ext inp w)) = false
  /\ page (snd (main ext inp w))
     = page w ++ [st_markdown TxtHeader; st_markdown TxtUploadSection].
Proof.
  intros Hc Hp Hu temp_dir extract_dir zip Hz.
  rewrite (main_upload ext inp bytes w Hc Hp Hu), upload_spec.
  fold temp_dir. fold extract_dir. fold zip.
  destruct Hz as [->|[-> Hl]].
  - cbn [fst snd]. repeat (split; [reflexivity|]). split; [|reflexivity].
    now apply (processed_init w).
  - rewrite (processar_documentos_raises ext extract_dir e _ Hl). cbn [fst snd].
    repeat (split; [reflexivity|]). split; [|reflexivity].
    now apply (processed_init w).
Qed.

Lemma X8_archive_error_propagates_witness :
  fst (main bad_zip_ext (upload_of "not a zip") configured_world)
  = Raise (mkExn "File is not a zip file")
  /\ processed (snd (main bad_zip_ext (upload_of "not a zip") configured_world))
     = false.
Proof.
  destruct (X8_archive_error_propagates bad_zip_ext (upload_of "not a zip")
              "not a zip" (mkExn "File is not a zip file") configured_world
              eq_refl eq_refl eq_refl) as (H1 & _ & H3 & _).
  - left. reflexivity.
  - split; assumption.
Defined.

(** ** What every run keeps *)

Lemma chat_no_count (ext : Ext) (inp : Inputs) (w : World) :
  session_state w !! "num_documentos" = None ->
  chat ext inp w = (Raise AttributeError, w).
Proof. intros H. unfold chat. unfold_script. now rewrite H. Qed.

Lemma transcript_keeps (w w' : World) :
  keeps "chat_history" w w' -> transcript w' = transcript w.
Proof. unfold keeps, transcript. now intros ->. Qed.

Lemma history_ok_keeps (w w' : World) :
  keeps "chat_history" w w' -> history_ok w -> history_ok w'.
Proof. unfold keeps, history_ok. now intros ->. Qed.

Lemma coherent_keeps (w w' : World) :
  keeps "documentos_processados" w w' -> keeps "query_engine" w w' ->
  keeps "num_documentos" w w' -> coherent w -> coherent w'.
Proof. unfold keeps, coherent. now intros -> -> ->. Qed.

Lemma processed_keeps (w w' : World) :
  keeps "documentos_processados" w w' -> processed w' = processed w.
Proof. unfold keeps, processed. now intros ->. Qed.

Lemma keeps_of_state (k : string) (w w' : World) :
  session_state w' = session_state w -> keeps k w w'.
Proof. unfold keeps. now intros ->. Qed.

Lemma init_session_keeps_history (ss : gmap string Value) :
  init_session ss !! "chat_history" = ss !! "chat_history".
Proof.
  unfold init_session. destruct (ss !! "documentos_processados"); [reflexivity|].
  by simplify_map_eq.
Qed.

(** How a run changes the transcript: not at all, or by one entry at
    its end. *)
Lemma main_transcript (ext : Ext) (inp : Inputs) (w : World) :
  history_ok w ->
  exists new,
    (session_state (snd (main ext inp w)) !! "chat_history"
     = session_state w !! "chat_history"
     \/ session_state (snd (main ext inp w)) !! "chat_history"
        = Some (VList (transcript w ++ new)))
    /\ transcript (snd (main ext inp w)) = transcript w ++ new
    /\ length new <= 1.
Proof.
  intros Hh.
  assert (forall w', keeps "chat_history" w w' ->
            exists new : list Chat,
              (session_state w' !! "chat_history" = session_state w !! "chat_history"
               \/ session_state w' !! "chat_history"
                  = Some (VList (transcript w ++ new)))
              /\ transcript w' = transcript w ++ new /\ length new <= 1) as Hsame.
  { intros w' Hk. exists []. rewrite app_nil_r.
    split; [left; exact Hk|]. split; [now apply transcript_keeps | simpl; lia]. }
  destruct (configured w) eqn:Hc.
  2:{ apply Hsame. rewrite (main_unconfigured ext inp w Hc). cbn [snd].
      now apply modal_api_key_keeps. }
  destruct (processed w) eqn:Hp.
  2:{ apply Hsame. rewrite (main_upload_state ext inp w Hc Hp).
      apply (keeps_trans _ _ (mkWorld (init_session (session_state w)) (environ w)
                                (Settings_embed_model w) (Settings_llm w)
                                (page w ++ [st_markdown TxtHeader;
                                            st_markdown TxtUploadSection]))).
      - unfold keeps. cbn. apply init_session_keeps_history.
      - destruct (uploaded_file inp) as [bytes|]; [|apply keeps_refl].
        now apply upload_keeps. }
  rewrite (main_chat_state ext inp w Hc Hp).
  destruct (session_state w !! "num_documentos") as [n|] eqn:Hn.
  2:{ apply Hsame. rewrite chat_no_count by exact Hn. apply keeps_page. }
  destruct (recarregar_button inp) eqn:Hb.
  { apply Hsame.
    rewrite (chat_reload ext inp (add_page w [st_markdown TxtHeader]) n Hb Hn).
    unfold keeps. cbn. now apply reset_session_lookup_ne. }
  rewrite (chat_spec ext inp (add_page w [st_markdown TxtHeader]) n Hb Hn Hh).
  cbn [snd].
  change (transcript (add_page w [st_markdown TxtHeader])) with (transcript w).
  match goal with
  | |- context [VList (transcript w ++ ?new)] => exists new
  end.
  split; [right; cbn; apply lookup_insert_eq|]. split.
  - apply (transcript_insert _ _ (session_state w)). reflexivity.
  - destruct (_ && _); [destruct (answer ext _ _)|]; simpl; lia.
Qed.

(** X9.  The transcript only grows: whatever the inputs and however the
    run ends, the transcript after a run is the one before it, with at
    most one entry added at its end. *)
Theorem X9_transcript_append_only (ext : Ext) (inp : Inputs) (w : World) :
  history_ok w ->
  is_prefix (transcript w) (transcript (snd (main ext inp w)))
  /\ length (transcript (snd (main ext inp w))) <= S (length (transcript w))
  /\ history_ok (snd (main ext inp w)).
Proof.
  intros Hh. destruct (main_transcript ext inp w Hh) as (new & Hs & Ht & Hl).
  split; [exists new; exact Ht|]. split.
  - rewrite Ht, length_app. lia.
  - unfold history_ok in *. destruct Hs as [->| ->]; [exact Hh | eauto].
Qed.

Lemma chat_world_history : history_ok chat_world.
Proof. right. by eexists. Qed.

Lemma X9_transcript_append_only_witness :
  is_prefix [mkChat "first?" "re: first?"]
    (transcript (snd (main demo_ext (question "what?") chat_world)))
  /\ is_prefix [mkChat "first?" "re: first?"]
       (transcript (snd (main demo_ext reload chat_world))).
Proof.
  destruct (X9_transcript_append_only demo_ext (question "what?") chat_world
              chat_world_history) as (H1 & _).
  destruct (X9_transcript_append_only demo_ext reload chat_world
              chat_world_history) as (H2 & _).
  split; assumption.
Defined.

(** How the upload section ends: in a rerun with the engine over the
    Documents extracted, or with the session state as it was. *)
Lemma upload_outcome (ext : Ext) (bytes : string) (w : World) :
  (fst (upload ext bytes w) = Rerun
   /\ exists docs,
       docs <> []
       /\ session_state (snd (upload ext bytes w))
          = loaded_session (engine_over ext docs) (length docs) (session_state w))
  \/ (fst (upload ext bytes w) <> Rerun
      /\ session_state (snd (upload ext bytes w)) = session_state w).
Proof.
  rewrite upload_spec.
  destruct (extractall_raises ext _ _ _) as [e|].
  { right. split; [discriminate | reflexivity]. }
  destruct (processar_documentos_frame ext
              (Path.join (TemporaryDirectory ext) "extracted") w)
    as (l & Hw & Hr).
  destruct (processar_documentos ext _ w) as [r w1]. cbn [fst snd] in *.
  subst w1. destruct Hr as [(docs & n & ->)|(e & ->)];
    [|right; split; [discriminate | reflexivity]].
  destruct docs as [|d docs].
  { right. split; [discriminate | reflexivity]. }
  rewrite index_ok_spec.
  destruct (index_ok ext (d :: docs) (add_page w l)).
  - left. split; [reflexivity|]. exists (d :: docs). split; [discriminate|].
    reflexivity.
  - right. destruct (from_documents_raises ext _ _ _);
      [|destruct (as_query_engine_raises ext _)];
      (split; [discriminate | reflexivity]).
Qed.


Lemma coherent_init (w w' : World) :
  coherent w -> session_state w' = init_session (session_state w) ->
  coherent w'.
Proof.
  unfold coherent, init_session. intros Hc ->.
  destruct (session_state w !! "documentos_processados") eqn:E;
    [now rewrite E|].
  by simplify_map_eq.
Qed.

Lemma coherent_loaded (ext : Ext) (docs : list Document)
    (ss : gmap string Value) (w : World) :
  docs <> [] ->
  session_state w = loaded_session (engine_over ext docs) (length docs) ss ->
  coherent w.
Proof.
  intros Hd Hs. unfold coherent. rewrite Hs, loaded_session_flag.
  exists (engine_over ext docs). unfold loaded_session.
  split; [by simplify_map_eq|]. split; [exact Hd|]. by simplify_map_eq.
Qed.

Lemma coherent_reset (w : World) (ss : gmap string Value) :
  session_state w = reset_session ss -> coherent w.
Proof.
  intros Hs. unfold coherent. rewrite Hs, reset_session_flag.
  unfold reset_session. split; by simplify_map_eq.
Qed.

Lemma coherent_processed (w : World) :
  coherent w -> processed w = true ->
  exists q,
    session_state w !! "query_engine" = Some (VEngine q)
    /\ index_documents (engine_index q) <> []
    /\ session_state w !! "num_documentos"
       = Some (VInt (length (index_documents (engine_index q)))).
Proof.
  unfold coherent, processed.
  destruct (session_state w !! "documentos_processados") as [[[]| | | |]|];
    try easy.
Qed.

Lemma chat_no_reload_keeps (ext : Ext) (inp : Inputs) (k : string) :
  recarregar_button inp = false -> k <> "chat_history" ->
  respects (keeps k) (chat ext inp).
Proof.
  intros Hb Hk. unfold chat, perguntar, exibir_historico, chat_step.
  rewrite Hb. keeps_frame k.
Qed.

(** A run keeps the three upload keys in agreement. *)
(** X1.  Of the keys the script assigns, each part of the page writes
    its own only: the gate leaves all but its flag as they were; the
    upload section leaves the flag and the transcript; the chat section,
    unless the reload button is pressed, leaves all but the
    transcript. *)
Theorem X1_parts_write_their_own_keys (ext : Ext) (inp : Inputs) (w : World)
    (k : string) :
  In k session_keys ->
  (configured w = false -> k <> "api_key_configured" ->
   session_state (snd (main ext inp w)) !! k = session_state w !! k)
  /\ (configured w = true -> processed w = false ->
      k = "api_key_configured" \/ k = "chat_history" ->
      session_state (snd (main ext inp w)) !! k = session_state w !! k)
  /\ (configured w = true -> processed w = true ->
      recarregar_button inp = false -> k <> "chat_history" ->
      session_state (snd (main ext inp w)) !! k = session_state w !! k).
Proof.
  intros _. split; [|split].
  - intros Hc Hk. rewrite (main_unconfigured ext inp w Hc). cbn [snd].
    apply (modal_api_key_keeps ext inp k Hk).
  - intros Hc Hp Hk. rewrite (main_upload_state ext inp w Hc Hp).
    set (w1 := mkWorld _ _ _ _ _).
    assert (session_state w1 !! k = session_state w !! k) as <-.
    { unfold w1, init_session. cbn.
      destruct (session_state w !! "documentos_processados"); [reflexivity|].
      destruct Hk as [-> | ->]; by simplify_map_eq. }
    destruct (uploaded_file inp) as [bytes|]; [|reflexivity].
    apply (upload_keeps ext k bytes); destruct Hk as [-> | ->]; discriminate.
  - intros Hc Hp Hb Hk. rewrite (main_chat_state ext inp w Hc Hp).
    exact (chat_no_reload_keeps ext inp k Hb Hk
             (add_page w [st_markdown TxtHeader])).
Qed.

Lemma X1_parts_write_their_own_keys_witness :
  session_state (snd (main demo_ext (question "what?") chat_world))
    !! "query_engine"
  = session_state chat_world !! "query_engine".
Proof.
  destruct (X1_parts_write_their_own_keys demo_ext (question "what?")
              chat_world "query_engine") as (_ & _ & H).
  - unfold session_keys. simpl. auto.
  - apply H; [reflexivity | reflexivity | reflexivity | discriminate].
Defined.

Lemma main_coherent (ext : Ext) (inp : Inputs) (w : World) :
  coherent w -> coherent (snd (main ext inp w)).
Proof.
  intros Hco. destruct (configured w) eqn:Hc.
  2:{ rewrite (main_unconfigured ext inp w Hc). cbn [snd].
      apply (coherent_keeps w); [| | |exact Hco];
        now apply modal_api_key_keeps. }
  destruct (processed w) eqn:Hp.
  2:{ rewrite (main_upload_state ext inp w Hc Hp).
      set (w1 := mkWorld _ _ _ _ _).
      assert (coherent w1) as Hco1 by now apply (coherent_init w).
      destruct (uploaded_file inp) as [bytes|]; [|exact Hco1].
      destruct (upload_outcome ext bytes w1) as [(_ & docs & Hd & Hs)|(_ & Hs)].
      - now apply (coherent_loaded ext docs (session_state w1)).
      - apply (coherent_keeps w1); try exact Hco1; now apply keeps_of_state. }
  rewrite (main_chat_state ext inp w Hc Hp).
  destruct (coherent_processed w Hco Hp) as (q & _ & _ & Hn).
  destruct (recarregar_button inp) eqn:Hb.
  { rewrite (chat_reload ext inp (add_page w [st_markdown TxtHeader]) _ Hb Hn).
    now apply (coherent_reset _ (session_state w)). }
  apply (coherent_keeps w); [| | |exact Hco];
    (apply (keeps_trans _ _ (add_page w [st_markdown TxtHeader]));
     [apply keeps_page | now apply (chat_no_reload_keeps ext inp _ Hb)]).
Qed.

Lemma session_inv_main (ext : Ext) (inp : Inputs) (w : World) :
  session_inv w -> session_inv (snd (main ext inp w)).
Proof.
  intros [Hco Hh]. split; [now apply main_coherent|].
  destruct (main_transcript ext inp w Hh) as (new & [Hs|Hs] & _).
  - now apply (history_ok_keeps w).
  - right. eauto.
Qed.

Lemma reachable_inv (w : World) : reachable w -> session_inv w.
Proof.
  induction 1 as [env em llm|ext inp w _ IH].
  - split; [exact I | now left].
  - unfold run. now apply (session_inv_main ext inp (clear_page w)).
Qed.

(** X10.  In every world a session reaches the upload keys agree: when
    the session is processed an engine is stored, it is built over at
    least one Document, and the count stored is the number of its
    Documents; when it is not, the keys are absent still or hold no
    engine and the count 0.  The transcript is absent or a list. *)
Theorem X10_session_invariant (w : World) :
  reachable w ->
  history_ok w
  /\ (processed w = true ->
      exists q,
        session_state w !! "query_engine" = Some (VEngine q)
        /\ index_documents (engine_index q) <> []
        /\ session_state w !! "num_documentos"
           = Some (VInt (length (index_documents (engine_index q)))))
  /\ (processed w = false ->
      session_state w !! "documentos_processados" = None
      \/ (session_state w !! "documentos_processados" = Some (VBool false)
          /\ session_state w !! "query_engine" = Some VNone
          /\ session_state w !! "num_documentos" = Some (VInt 0))).
Proof.
  intros [Hco Hh]%reachable_inv.
  split; [exact Hh|]. split; [now apply coherent_processed|].
  unfold coherent, processed in *.
  destruct (session_state w !! "documentos_processados") as [[[]| | | |]|];
    try easy; auto.
Qed.

Lemma X10_session_invariant_witness :
  let w1 := snd (run demo_ext (credential "sk-validlookingkey") fresh_world) in
  let w2 := snd (run demo_ext (upload_of "PK") w1) in
  processed w2 = true
  /\ exists q,
      session_state w2 !! "query_engine" = Some (VEngine q)
      /\ session_state w2 !! "num_documentos"
         = Some (VInt (length (index_documents (engine_index q)))).
Proof.
  intros w1 w2.
  destruct (X10_session_invariant w2) as (_ & H & _).
  - apply reach_run, reach_run, reach_start.
  - split; [reflexivity|]. destruct (H eq_refl) as (q & H1 & _ & H3). eauto.
Defined.




(** ** Reload and the transcript on the page *)

(** X12.  The reload button calls no collaborator and ends the run in a
    rerun; the session stays configured, holds no engine and the count
    0, and the next run without a file is the upload section again: it
    shows the header and the upload block and changes nothing. *)
Theorem X12_reload_returns_to_upload (ext ext' ext2 : Ext) (inp inp2 : Inputs)
    (w : World) :
  configured w = true -> processed w = true ->
  is_Some (session_state w !! "num_documentos") ->
  recarregar_button inp = true -> uploaded_file inp2 = None ->
  let w1 := snd (run ext inp w) in
  run ext' inp w = run ext inp w
  /\ fst (run ext inp w) = Rerun
  /\ configured w1 = true /\ processed w1 = false
  /\ session_state w1 !! "query_engine" = Some VNone
  /\ session_state w1 !! "num_documentos" = Some (VInt 0)
  /\ run ext2 inp2 w1
     = (Ok tt,
        mkWorld (session_state w1) (environ w) (Settings_embed_model w)
          (Settings_llm w) [st_markdown TxtHeader; st_markdown TxtUploadSection]).
Proof.
  intros Hc Hp [n Hn] Hb Hu w1.
  assert (forall x, run x inp w
          = (Rerun,
             mkWorld (reset_session (session_state w)) (environ w)
               (Settings_embed_model w) (Settings_llm w)
               [st_markdown TxtHeader; st_markdown (TxtCarregados n)])) as H1.
  { intros x. unfold run.
    rewrite (main_chat_state x inp (clear_page w) Hc Hp).
    now rewrite (chat_reload x inp
                   (add_page (clear_page w) [st_markdown TxtHeader]) n Hb Hn). }
  subst w1. rewrite !H1. cbn [fst snd session_state].
  split; [reflexivity|]. split; [reflexivity|].
  assert (configured (mkWorld (reset_session (session_state w)) (environ w)
                        (Settings_embed_model w) (Settings_llm w) []) = true)
    as Hc1.
  { unfold configured in *. cbn.
    now rewrite reset_session_lookup_ne by discriminate. }
  assert (processed (mkWorld (reset_session (session_state w)) (environ w)
                       (Settings_embed_model w) (Settings_llm w) []) = false)
    as Hp1 by (unfold processed; cbn; now rewrite reset_session_flag).
  split; [exact Hc1|]. split; [exact Hp1|].
  split; [unfold reset_session; by simplify_map_eq|].
  split; [unfold reset_session; by simplify_map_eq|].
  unfold run.
  change (clear_page (mkWorld (reset_session (session_state w)) (environ w)
                        (Settings_embed_model w) (Settings_llm w)
                        [st_markdown TxtHeader; st_markdown (TxtCarregados n)]))
    with (mkWorld (reset_session (session_state w)) (environ w)
            (Settings_embed_model w) (Settings_llm w) []).
  rewrite (main_upload_state ext2 inp2 _ Hc1 Hp1), Hu. cbn.
  unfold init_session. now rewrite reset_session_flag.
Qed.

Lemma X12_reload_returns_to_upload_witness :
  let w1 := snd (run demo_ext reload chat_world) in
  run offline_ext reload chat_world = run demo_ext reload chat_world
  /\ configured w1 = true /\ processed w1 = false
  /\ page (snd (run demo_ext (credential "") w1))
     = [st_markdown TxtHeader; st_markdown TxtUploadSection].
Proof.
  intros w1.
  destruct (X12_reload_returns_to_upload demo_ext offline_ext demo_ext reload
              (credential "") chat_world eq_refl eq_refl)
    as (H1 & _ & H3 & H4 & _ & _ & H7); try reflexivity.
  - by eexists.
  - split; [exact H1|]. split; [exact H3|]. split; [exact H4|].
    fold w1 in H7. now rewrite H7.
Defined.

Lemma enumerate_lookup {A} (l : list A) (start i : nat) :
  Py.enumerate start l !! i = pair (start + i) <$> l !! i.
Proof.
  revert start i. induction l as [|x l IH]; intros start [|i]; cbn;
    try reflexivity.
  - now rewrite Nat.add_0_r.
  - rewrite IH. now rewrite Nat.add_succ_r.
Qed.

Lemma length_enumerate {A} (l : list A) (start : nat) :
  length (Py.enumerate start l) = length l.
Proof.
  revert start. induction l as [|x l IH]; intros start; cbn;
    [reflexivity | now rewrite IH].
Qed.

Lemma length_take (n : nat) (s : string) : String.length (Py.take n s) <= n.
Proof.
  unfold Py.take. revert s. induction n as [|n IH]; intros [|c s]; cbn; try lia.
  specialize (IH s). lia.
Qed.

(** X13.  The transcript is shown latest entry first, after a rule and
    a heading: entry [i] of a transcript of [n] entries is the expander
    at place [n - 1 - i], labelled with the first 50 characters of its
    question and holding question and answer; only the expander of the
    latest entry is open.  An empty transcript shows nothing. *)
Theorem X13_history_latest_first (w : World) (l : list Chat) :
  session_state w !! "chat_history" = Some (VList l) ->
  (l = [] -> exibir_historico w = (Ok tt, w))
  /\ exists shown,
      (l <> [] ->
       exibir_historico w
       = (Ok tt,
          add_page w ([st_markdown TxtRule; st_markdown TxtHistorico] ++ shown)))
      /\ length shown = length l
      /\ forall i c, l !! i = Some c ->
           shown !! (length l - S i)
           = Some (st_expander (Py.take 50 (pergunta c))
                     (bool_decide (S i = length l))
                     [TxtPergunta (pergunta c); TxtResposta (resposta c)])
           /\ String.length (Py.take 50 (pergunta c)) <= 50.
Proof.
  intros Hh. rewrite (exibir_historico_spec w l Hh). split.
  { intros ->. cbn. now rewrite add_page_nil. }
  exists (map expander_of (Py.enumerate 0 (rev l))). split; [|split].
  - intros Hne. destruct l; [contradiction | reflexivity].
  - now rewrite length_map, length_enumerate, length_rev.
  - intros i c Hi. split; [|apply length_take].
    pose proof (lookup_lt_Some _ _ _ Hi) as Hlt.
    change (map expander_of (Py.enumerate 0 (rev l)))
      with (expander_of <$> Py.enumerate 0 (rev l)).
    rewrite list_lookup_fmap, enumerate_lookup, rev_alt.
    change (rev_append l []) with (reverse l).
    rewrite reverse_lookup by lia.
    replace (length l - S (length l - S i)) with i by lia.
    rewrite Hi. cbn. do 2 f_equal.
    destruct (length l - S i) eqn:E; cbn.
    + symmetry. apply bool_decide_eq_true. lia.
    + symmetry. apply bool_decide_eq_false. lia.
Qed.

Lemma X13_history_latest_first_witness :
  exists shown,
    length shown = 1
    /\ shown !! 0
       = Some (st_expander "first?" true
                 [TxtPergunta "first?"; TxtResposta "re: first?"]).
Proof.
  destruct (X13_history_latest_first chat_world [mkChat "first?" "re: first?"]
              eq_refl) as (_ & shown & _ & H2 & H3).
  exists shown. split; [exact H2|].
  destruct (H3 0 (mkChat "first?" "re: first?") eq_refl) as [H _]. exact H.
Defined.

(** ** Which names are taken *)

Lemma rfind_split (c : ascii) (s : string) :
  (0 <= Py.rfind c s)%Z ->
  exists a b,
    s = a +:+ String c b
    /\ String.length a = Z.to_nat (Py.rfind c s)
    /\ Py.rfind c b = (-1)%Z.
Proof.
  induction s as [|d s IH]; simpl Py.rfind; [lia|].
  pose proof (rfind_bounds c s) as Hb.
  destruct (0 <=? Py.rfind c s)%Z eqn:E.
  - intros _. apply Z.leb_le in E. destruct (IH E) as (a & b & -> & Hl & Hr).
    exists (String d a), b. rewrite append_cons. split; [reflexivity|].
    split; [|exact Hr]. simpl String.length. lia.
  - apply Z.leb_gt in E. destruct (Ascii.eqb_spec d c) as [->|_]; [|lia].
    intros _. exists "", s. split; [reflexivity|]. split; [reflexivity|]. lia.
Qed.

Lemma suffix_split (name : string) :
  Path.suffix name <> "" ->
  exists stem e,
    stem <> "" /\ name = stem +:+ "." +:+ e /\ Path.suffix name = "." +:+ e.
Proof.
  unfold Path.suffix.
  destruct ((0 <? Py.rfind "." name)
            && (Py.rfind "." name <? Z.of_nat (String.length name) - 1))%Z
    eqn:E; [|congruence].
  intros _. apply andb_prop in E as [E1%Z.ltb_lt _].
  destruct (rfind_split "." name) as (a & b & Hs & Hl & _); [lia|].
  exists a, b. split; [|split].
  - intros ->. simpl in Hl. lia.
  - exact Hs.
  - rewrite <- Hl, Hs. apply drop_app.
Qed.

Lemma suffix_of_name (stem e : string) :
  stem <> "" -> e <> "" -> dotless e ->
  Path.suffix (stem +:+ "." +:+ e) = "." +:+ e.
Proof.
  intros Hs He Hd. unfold Path.suffix, dotless in *.
  assert (Py.rfind "." (stem +:+ "." +:+ e) = Z.of_nat (String.length stem))
    as Hr.
  { rewrite rfind_app. change ("." +:+ e) with (String "." e).
    simpl Py.rfind. rewrite Hd. cbn. lia. }
  rewrite Hr, !length_append. change (String.length ".") with 1.
  assert (0 < String.length stem) by (destruct stem; [congruence | simpl; lia]).
  assert (0 < String.length e) by (destruct e; [congruence | simpl; lia]).
  replace ((0 <? Z.of_nat (String.length stem))
           && (Z.of_nat (String.length stem)
               <? Z.of_nat (String.length stem + (1 + String.length e)) - 1))%Z
    with true.
  - rewrite Nat2Z.id. apply drop_app.
  - symmetry. apply andb_true_intro. split; apply Z.ltb_lt; lia.
Qed.

Lemma lower_empty (s : string) : Py.lower s = "" -> s = "".
Proof. now destruct s. Qed.

(** X14.  The dispatcher takes an entry exactly when its name is a
    non-empty stem, a dot, and an extension that reads [pdf], [docx],
    [pptx], [txt] or [md] in lower case.  So names such as [.pdf] (no
    stem) and [a.pdf.bak] are left out, [A.PDF] and [a.b.Md] are
    taken. *)
Theorem X14_names_taken (name : string) :
  recognized name = true
  <-> exists stem e,
        stem <> "" /\ name = stem +:+ "." +:+ e
        /\ In (Py.lower e) ["pdf"; "docx"; "pptx"; "txt"; "md"].
Proof.
  rewrite recognized_iff. split.
  - intros Hin.
    destruct (suffix_split name) as (stem & e & Hs & Hn & He).
    { intros E. rewrite E in Hin. simpl in Hin. intuition discriminate. }
    exists stem, e. split; [exact Hs|]. split; [exact Hn|].
    rewrite He in Hin. change ("." +:+ e) with (String "." e) in Hin.
    simpl Py.lower in Hin. change (Py.lower_char ".") with "."%char in Hin.
    simpl in *. intuition (try congruence).
  - intros (stem & e & Hs & -> & Hin).
    assert (e <> "") as He.
    { intros ->. simpl in Hin. intuition discriminate. }
    assert (dotless e) as Hd.
    { unfold dotless. rewrite <- rfind_lower. simpl in Hin.
      destruct Hin as [<-|[<-|[<-|[<-|[<-|[]]]]]]; reflexivity. }
    rewrite (suffix_of_name stem e Hs He Hd).
    change ("." +:+ e) with (String "." e). simpl Py.lower.
    change (Py.lower_char ".") with "."%char.
    simpl in *. intuition (try congruence).
Qed.

(** ** Labels of the Documents *)

Lemma extraction_labels (ext : Ext) (pasta_temp arquivo : string) (d : Document) :
  Py.rfind "/" arquivo = (-1)%Z ->
  In d (extraction ext pasta_temp arquivo) ->
  metadata d !! "file_name" = Some (MStr arquivo)
  /\ metadata d !! "source"
     = Some (MStr (if String.eqb (Py.lower (Path.suffix arquivo)) ".pptx"
                   then "presentation" else "document")).
Proof.
  intros Hno. unfold extraction.
  destruct (String.eqb (Py.lower (Path.suffix arquivo)) ".pptx").
  - destruct (Presentation ext _) as [prs|e]; [|intros []].
    intros [<-|[]]. unfold pptx_document. cbn.
    rewrite (basename_join _ _ Hno). split; by simplify_map_eq.
  - destruct (Py.contains _ _); [|intros []].
    destruct (load_data ext _ _) as [docs|e]; [|intros []].
    intros (d0 & <- & _)%in_map_iff. unfold update_metadata. cbn.
    split; by simplify_map_eq.
Qed.

Lemma extraction_loader (ext : Ext) (pasta_temp arquivo : string)
    (docs : list Document) :
  Py.lower (Path.suffix arquivo) <> ".pptx" ->
  recognized arquivo = true ->
  load_data ext (Path.join pasta_temp arquivo) (Py.lower (Path.suffix arquivo))
  = Returns docs ->
  Forall2 (fun d0 d =>
             text d = text d0
             /\ forall k, k <> "file_name" -> k <> "file_type" ->
                  k <> "source" -> metadata d !! k = metadata d0 !! k)
    docs (extraction ext pasta_temp arquivo).
Proof.
  intros Hne Hr Hl. unfold extraction.
  destruct (String.eqb_spec (Py.lower (Path.suffix arquivo)) ".pptx");
    [contradiction|].
  assert (Py.contains [".docx"; ".pdf"; ".txt"; ".md"]
            (Py.lower (Path.suffix arquivo)) = true) as ->.
  { apply recognized_iff in Hr. apply contains_In. simpl in *.
    intuition congruence. }
  rewrite Hl. clear Hl. induction docs as [|d0 docs IH]; constructor; [|exact IH].
  split; [reflexivity|]. intros k H1 H2 H3. unfold update_metadata. cbn.
  by simplify_map_eq.
Qed.

(** X15.  Every Document of the collection is labelled with the entry
    it came from: its [file_name] is the entry's name, its [file_type]
    the lower-case extension, its [source] is ["presentation"] for a
    [.pptx] entry and ["document"] for any other.  For the other
    formats the text and every other metadata key are the loader's. *)
Theorem X15_documents_are_labelled (ext : Ext) (pasta_temp : string)
    (entries : list string) (docs : list Document) (n : nat) (w : World) :
  os_listdir ext pasta_temp = Returns entries ->
  Forall (fun arquivo => Py.rfind "/" arquivo = (-1)%Z) entries ->
  fst (processar_documentos ext pasta_temp w) = Ok (docs, n) ->
  (forall d, In d docs ->
     exists arquivo,
       In arquivo entries /\ recognized arquivo = true
       /\ metadata d !! "file_name" = Some (MStr arquivo)
       /\ metadata d !! "file_type"
          = Some (MStr (Py.drop 1 (Py.lower (Path.suffix arquivo))))
       /\ metadata d !! "source"
          = Some (MStr (if String.eqb (Py.lower (Path.suffix arquivo)) ".pptx"
                        then "presentation" else "document")))
  /\ (forall arquivo loaded,
        In arquivo entries -> recognized arquivo = true ->
        Py.lower (Path.suffix arquivo) <> ".pptx" ->
        load_data ext (Path.join pasta_temp arquivo)
          (Py.lower (Path.suffix arquivo)) = Returns loaded ->
        (forall d, In d (extraction ext pasta_temp arquivo) -> In d docs)
        /\ Forall2 (fun d0 d =>
                      text d = text d0
                      /\ forall k, k <> "file_name" -> k <> "file_type" ->
                           k <> "source" -> metadata d !! k = metadata d0 !! k)
             loaded (extraction ext pasta_temp arquivo)).
Proof.
  intros Hl Hno Hr.
  assert (docs = flat_map (extraction ext pasta_temp)
                   (List.filter recognized entries)) as ->.
  { rewrite (processar_documentos_spec _ _ _ _ Hl) in Hr.
    destruct (List.filter recognized entries); cbv zeta in Hr;
      cbn [fst] in Hr; injection Hr as <- _; reflexivity. }
  split.
  - intros d (arquivo & [Hin Hrec]%filter_In & Hd)%in_flat_map.
    exists arquivo. split; [exact Hin|]. split; [exact Hrec|].
    rewrite Forall_forall in Hno.
    destruct (extraction_labels ext pasta_temp arquivo d) as [H1 H2];
      [apply Hno; now apply list_elem_of_In | exact Hd |].
    split; [exact H1|]. split; [|exact H2].
    now apply (extraction_file_type ext pasta_temp).
  - intros arquivo loaded Hin Hrec Hne Hld.
    split; [|exact (extraction_loader ext pasta_temp arquivo loaded Hne Hrec Hld)].
    intros d Hd. apply in_flat_map. exists arquivo.
    split; [apply filter_In; now split | exact Hd].
Qed.

Lemma X15_documents_are_labelled_witness :
  exists docs,
    fst (processar_documentos demo_ext "/tmp/t/extracted" fresh_world)
    = Ok (docs, 4)
    /\ forall d, In d docs ->
         exists arquivo,
           metadata d !! "file_name" = Some (MStr arquivo)
           /\ In arquivo ["a.PPTX"; "bad.pptx"; "n.txt"; "x.exe"; ".pdf"; "c.md"].
Proof.
  exists (flat_map (extraction demo_ext "/tmp/t/extracted")
            ["a.PPTX"; "bad.pptx"; "n.txt"; "c.md"]).
  split; [reflexivity|].
  destruct (X15_documents_are_labelled demo_ext "/tmp/t/extracted"
              ["a.PPTX"; "bad.pptx"; "n.txt"; "x.exe"; ".pdf"; "c.md"]
              (flat_map (extraction demo_ext "/tmp/t/extracted")
                 ["a.PPTX"; "bad.pptx"; "n.txt"; "c.md"])
              4 fresh_world eq_refl) as [H _].
  - repeat constructor.
  - reflexivity.
  - intros d Hd. destruct (H d Hd) as (arquivo & Hin & _ & Hn & _). eauto.
Defined.

(** ** Backends and table rows *)


(** X17.  What the extractor writes for a table row: when some cell is
    not blank, or the row has two cells or more, the line ["Tabela: "]
    followed by the trimmed cells joined by [" | "]; nothing when the
    row has no cell, or one blank cell. *)
Theorem X17_table_rows (slide_content : string) (row : Row) :
  ((exists cell, In cell row /\ ~ blank cell) \/ 2 <= length row ->
   row_step slide_content row
   = slide_content
     +:+ ("Tabela: " +:+ Py.join " | " (map Py.strip row) +:+ NL))
  /\ (Forall blank row -> length row <= 1 ->
      row_step slide_content row = slide_content).
Proof.
  split.
  - intros [(cell & Hin & Hnb)|Hlen].
    + now apply (row_step_written slide_content row cell).
    + rewrite row_step_spec. unfold row_written.
      replace (2 <=? length row)%nat with true
        by (symmetry; apply Nat.leb_le; lia).
      now rewrite orb_true_r.
  - intros Hb Hlen. rewrite (row_step_blank slide_content row Hb).
    replace (2 <=? length row)%nat with false
      by (symmetry; apply Nat.leb_gt; lia).
    reflexivity.
Qed.

Lemma X17_table_rows_witness :
  row_step "" ["a"; " b "] = "Tabela: a | b" +:+ NL
  /\ row_step "x" ["  "] = "x".
Proof.
  destruct (X17_table_rows "" ["a"; " b "]) as [H1 _].
  destruct (X17_table_rows "x" ["  "]) as [_ H2].
  split.
  - apply H1. right. simpl. lia.
  - apply H2; [repeat constructor | simpl; lia].
Defined.

(** ** What a session's configuration implies *)

(** The gate when it ends in a rerun. *)
Lemma modal_success (ext : Ext) (inp : Inputs) (w : World) :
  configured w = false -> fst (modal_api_key ext inp w) = Rerun ->
  Py.startswith (api_key_input inp) "sk-" = true
  /\ environ (snd (modal_api_key ext inp w))
     = <["OPENAI_API_KEY" := api_key_input inp]> (environ w)
  /\ Settings_llm (snd (modal_api_key ext inp w))
     = Some (mkLLM "gpt-3.5-turbo" 0.5%Q).
Proof.
  intros Hc Hr.
  destruct (config_button inp) eqn:Hb;
    [|rewrite (modal_idle ext inp w Hb Hc) in Hr; discriminate Hr].
  destruct (Py.truthy (api_key_input inp) && Py.startswith (api_key_input inp) "sk-")
    eqn:Hk; [|rewrite (modal_rejected ext inp w Hb Hc Hk) in Hr; discriminate Hr].
  pose proof Hk as [_ Hs]%accepted_iff. split; [exact Hs|].
  destruct (has_nul (api_key_input inp)) eqn:Hn;
    [rewrite (modal_unstorable ext inp w Hb Hc Hk Hn) in Hr; discriminate Hr|].
  rewrite (modal_accepted ext inp w Hb Hc Hk Hn) in *.
  set (w1 := mkWorld _ _ _ _ _) in *.
  destruct (backend_ok ext (environ w1)) eqn:Hok.
  - destruct (configurar_sistema_ok ext w1 Hok) as (w2 & E & _ & He & _ & Hl).
    rewrite E. cbn. now rewrite He, Hl.
  - destruct (configurar_sistema_fails ext w1 Hok) as (w2 & e & E & _).
    rewrite E in Hr. discriminate Hr.
Qed.

Lemma configured_after_gate (ext : Ext) (inp : Inputs) (w : World) :
  configured w = false ->
  configured (snd (modal_api_key ext inp w)) = true ->
  fst (modal_api_key ext inp w) = Rerun.
Proof.
  intros Hc Hc'.
  destruct (modal_unconfigured ext inp w Hc)
    as [(_ & Hs & _)|[(Hr & _)|(_ & Hs & _)]]; [|exact Hr|];
    unfold configured in Hc'; rewrite Hs, with_default_lookup in Hc';
    rewrite configured_default in Hc; congruence.
Qed.

(** The state of a configured session, and of one not configured. *)
Lemma reachable_gate (w : World) :
  reachable w ->
  (configured w = true ->
   Settings_llm w = Some (mkLLM "gpt-3.5-turbo" 0.5%Q)
   /\ exists key,
       environ w !! "OPENAI_API_KEY" = Some key
       /\ Py.startswith key "sk-" = true)
  /\ (configured w = false ->
      forall k, k <> "api_key_configured" -> session_state w !! k = None).
Proof.
  induction 1 as [env em llm|ext inp w _ [IHc IHu]].
  - split; [discriminate|]. intros _ k _. apply lookup_empty.
  - unfold run. destruct (configured w) eqn:Hc.
    + destruct (main_configured_frame ext inp (clear_page w) Hc)
        as [Hk (He & _ & Hl)].
      split; [|intros Hc'; unfold configured in *; rewrite Hk in Hc'; cbn in *;
                congruence].
      intros _. rewrite He, Hl. now apply IHc.
    + rewrite (main_unconfigured ext inp (clear_page w) Hc). cbn [snd]. split.
      * intros Hc'.
        pose proof (configured_after_gate ext inp (clear_page w) Hc Hc') as Hr.
        destruct (modal_success ext inp (clear_page w) Hc Hr) as (Hs & He & Hl).
        split; [exact Hl|]. exists (api_key_input inp).
        rewrite He. split; [apply lookup_insert_eq | exact Hs].
      * intros _ k Hk.
        rewrite (modal_api_key_keeps ext inp k Hk (clear_page w)).
        now apply IHu.
Qed.

(** X18.  Nothing happens in a session before a credential is
    configured: in every world a session reaches while UNCONFIGURED, of
    the keys the script assigns only the gate's flag can be in the
    session state; the session is not processed and its transcript is
    empty. *)
Theorem X18_nothing_before_configuration (w : World) (k : string) :
  reachable w -> configured w = false ->
  processed w = false /\ transcript w = []
  /\ (In k session_keys -> k <> "api_key_configured" ->
      session_state w !! k = None).
Proof.
  intros [_ Hu]%reachable_gate Hc. specialize (Hu Hc).
  unfold processed, transcript.
  rewrite (Hu "documentos_processados"), (Hu "chat_history") by discriminate.
  repeat split. intros _. apply Hu.
Qed.

Lemma X18_nothing_before_configuration_witness :
  let w1 := snd (run offline_ext
                   (mkInputs "sk-validlookingkey" true (Some "PK") false "q?" true)
                   fresh_world) in
  processed w1 = false /\ transcript w1 = []
  /\ session_state w1 !! "query_engine" = None.
Proof.
  intros w1.
  destruct (X18_nothing_before_configuration w1 "query_engine")
    as (H1 & H2 & H3).
  - apply reach_run, reach_start.
  - reflexivity.
  - split; [exact H1|]. split; [exact H2|].
    apply H3; [unfold session_keys; simpl; auto | discriminate].
Defined.

(** X19.  In every world a session reaches while CONFIGURED, the
    environment variable [OPENAI_API_KEY] holds a key that starts with
    ["sk-"] and the language model is set to [gpt-3.5-turbo] at
    temperature 0.5. *)
Theorem X19_configured_means_backend (w : World) :
  reachable w -> configured w = true ->
  Settings_llm w = Some (mkLLM "gpt-3.5-turbo" 0.5%Q)
  /\ exists key,
      environ w !! "OPENAI_API_KEY" = Some key
      /\ Py.startswith key "sk-" = true.
Proof. intros [Hc _]%reachable_gate. exact Hc. Qed.

Lemma X19_configured_means_backend_witness :
  let w1 := snd (run demo_ext (credential "sk-validlookingkey") fresh_world) in
  configured w1 = true
  /\ environ w1 !! "OPENAI_API_KEY" = Some "sk-validlookingkey".
Proof.
  intros w1.
  destruct (X19_configured_means_backend w1) as (_ & key & Hk & _).
  - apply reach_run, reach_start.
  - reflexivity.
  - split; reflexivity.
Defined.
